(** * OmniTalk: the conversation orchestrator of [src/App.tsx] and the
    translation gateway client of [services/geminiService], embedded in Rocq.

    JavaScript values are modelled as follows.  A [string] is a Rocq [string]
    (one character per code unit), a [number] holding a clock value is a [Z],
    [Uint8Array]/[ArrayBuffer] are [list Byte.byte], [undefined]/[null] in an
    optional field is [None].  A promise that may reject, or a call that may
    throw, is an [Outcome].  The React component state is the record [Store];
    a handler reads [useState] cells through the render snapshot it closed
    over (its [view]) and writes them through the setters, which act on the
    live store.  [App.processInput] takes the translation result in the shape
    [TranslationResponse] declares; [Unchecked] gives the message built from
    a result of any shape, and [Screen.rendered] what the component's JSX
    reads of the state. *)

From Stdlib Require Import String Ascii List ZArith Bool Lia DecimalString.
From Stdlib Require DecimalPos DecimalZ.
Import ListNotations.
Open Scope string_scope.
Open Scope list_scope.

Set Implicit Arguments.
Set Warnings "-register-all".

(** ** Results of calls that may throw or reject *)

Inductive Outcome (A : Type) : Type :=
| Returned (a : A)
| Threw (err : string).
Arguments Returned {A} a.
Arguments Threw {A} err.

(** ** JavaScript strings *)

Module JsString.

(** [s.slice(0, n)] *)
Fixpoint slice0 (n : nat) (s : string) : string :=
  match n, s with
  | S n', String c s' => String c (slice0 n' s')
  | _, _ => EmptyString
  end.

(** [s.replace(/[{}]/g, '')] *)
Fixpoint removeBraces (s : string) : string :=
  match s with
  | EmptyString => EmptyString
  | String c s' =>
      if (Ascii.eqb c "{" || Ascii.eqb c "}")%bool%char
      then removeBraces s'
      else String c (removeBraces s')
  end.

(** [!s] for a string: only the empty string is falsy. *)
Definition falsy (s : string) : bool :=
  match s with EmptyString => true | String _ _ => false end.

(** [a || b] on strings. *)
Definition orElse (a b : string) : string := if falsy a then b else a.

(** [arr.join(sep)] *)
Definition join (sep : string) (l : list string) : string := String.concat sep l.

(** [n.toString()] for an integral number. *)
Definition ofNumber (n : Z) : string := NilZero.string_of_int (Z.to_int n).

(** [s.trim()] is empty: every character is white space.  Of the code units
    below 256 these are the tab, the line feed, the vertical tab, the form
    feed, the carriage return, the space and the no-break space. *)
Definition isSpace (c : ascii) : bool :=
  let n := nat_of_ascii c in
  (Nat.eqb n 32 || Nat.eqb n 9 || Nat.eqb n 10 || Nat.eqb n 11 || Nat.eqb n 12 || Nat.eqb n 13
   || Nat.eqb n 160)%bool.

Fixpoint blank (s : string) : bool :=
  match s with
  | EmptyString => true
  | String c s' => isSpace c && blank s'
  end.

End JsString.

(** ** The last [n] elements of an array: [arr.slice(-n)] *)

Definition sliceLast {A} (n : nat) (l : list A) : list A :=
  skipn (length l - n) l.

(** ** Values produced by [JSON.parse] *)

Inductive JSValue : Type :=
| JNull
| JBool (b : bool)
| JNumber (literal : string)
| JString (s : string)
| JArray (items : list JSValue)
| JObject (props : list (string * JSValue)).

Module Js.

(** [typeof v === 'string'] *)
Definition isString (v : option JSValue) : bool :=
  match v with Some (JString _) => true | _ => false end.

Fixpoint lookup (k : string) (props : list (string * JSValue)) : option JSValue :=
  match props with
  | [] => None
  | (k', v) :: rest => if String.eqb k k' then Some v else lookup k rest
  end.

(** [obj[k] = v] on an own-property list: an existing key keeps its place,
    a new key goes last. *)
Fixpoint assign (k : string) (v : JSValue) (props : list (string * JSValue))
  : list (string * JSValue) :=
  match props with
  | [] => [(k, v)]
  | (k', v') :: rest =>
      if String.eqb k k' then (k', v) :: rest else (k', v') :: assign k v rest
  end.

(** [v.k]: reading a property of [null] throws a TypeError; a primitive or
    an array has no such named property; [None] is [undefined]. *)
Definition getProp (k : string) (v : JSValue) : Outcome (option JSValue) :=
  match v with
  | JNull => Threw "TypeError"
  | JObject props => Returned (lookup k props)
  | _ => Returned None
  end.

(** [v.k = x] for the one case the program performs it (on an object). *)
Definition setProp (k : string) (x : JSValue) (v : JSValue) : JSValue :=
  match v with
  | JObject props => JObject (assign k x props)
  | _ => v
  end.

(** [a === v] for a string [a]. *)
Definition strictEqString (a : string) (v : option JSValue) : bool :=
  match v with Some (JString s) => String.eqb a s | _ => false end.

End Js.

(** ** [src/types.ts] *)

Definition Bytes := list Byte.byte.

(** A [Blob]: the parts it was assembled from and its MIME type. *)
Record Blob := { blobParts : list Bytes; blobType : string }.

Module Language.
Record t := mk { code : string; name : string; flag : string; voiceName : string }.
End Language.

Module UserProfile.
Record t := mk {
  name : string;
  primaryLanguage : string;
  conversationTypes : list string;
  tone : list string;
  bio : string }.
End UserProfile.

Inductive MessageType := text | audio_live | video_live | audio_file | video_file.

Inductive Sender := user | partner.

Module Message.
Record t := mk {
  id : string;
  type : MessageType;
  originalText : string;
  translatedText : string;
  originalLang : string;
  targetLang : string;
  sender : Sender;
  timestamp : Z;
  suggestedResponses : option (list string);
  isAutoReply : option bool;
  detectedEmotion : option string;
  originalAudioBlob : option Blob;
  translatedAudioBuffer : option Bytes;
  videoBlob : option Blob }.
End Message.

Module TranslationResponse.
Record t := mk {
  translatedText : string;
  suggestedResponses : list string;
  detectedEmotion : option string }.
End TranslationResponse.

Inductive AppState := IDLE | LISTENING | RECORDING | TRANSLATING | ERROR.

Inductive CommMode := TEXT | LIVE_AUDIO | LIVE_VIDEO | REC_AUDIO | REC_VIDEO.

Inductive OutputPreference := TRANSLATED | ORIGINAL.

Definition Sender_eqb (a b : Sender) : bool :=
  match a, b with user, user | partner, partner => true | _, _ => false end.

Definition CommMode_eqb (a b : CommMode) : bool :=
  match a, b with
  | TEXT, TEXT | LIVE_AUDIO, LIVE_AUDIO | LIVE_VIDEO, LIVE_VIDEO
  | REC_AUDIO, REC_AUDIO | REC_VIDEO, REC_VIDEO => true
  | _, _ => false
  end.

Definition OutputPreference_eqb (a b : OutputPreference) : bool :=
  match a, b with TRANSLATED, TRANSLATED | ORIGINAL, ORIGINAL => true | _, _ => false end.

(** [type === 'video_live' || type === 'video_file'] *)
Definition isVideoType (t : MessageType) : bool :=
  match t with video_live | video_file => true | _ => false end.

(** ** [src/utils/hapticUtils.ts] *)

Module HapticUtils.

Inductive HapticType := selection | success | warning | error | heavy.

(** The argument [triggerHaptic] passes to [navigator.vibrate]. *)
Definition vibrationPattern (t : HapticType) : list Z :=
  match t with
  | selection => [10]
  | success => [50]
  | warning => [30; 50; 30]
  | error => [50; 100; 50]
  | heavy => [75]
  end%Z.

End HapticUtils.

(** ** [constants]: the supported languages and the audio sample rate *)

Definition SUPPORTED_LANGUAGES : list Language.t :=
  [ Language.mk "en-US" "English" "ðŸ‡ºðŸ‡¸" "Puck";
    Language.mk "es-ES" "Spanish" "ðŸ‡ªðŸ‡¸" "Kore";
    Language.mk "fr-FR" "French" "ðŸ‡«ðŸ‡·" "Charon";
    Language.mk "de-DE" "German" "ðŸ‡©ðŸ‡ª" "Fenrir";
    Language.mk "it-IT" "Italian" "ðŸ‡®ðŸ‡¹" "Zephyr";
    Language.mk "ja-JP" "Japanese" "ðŸ‡¯ðŸ‡µ" "Kore";
    Language.mk "ko-KR" "Korean" "ðŸ‡°ðŸ‡·" "Puck";
    Language.mk "zh-CN" "Chinese" "ðŸ‡¨ðŸ‡³" "Charon";
    Language.mk "pt-BR" "Portuguese" "ðŸ‡§ðŸ‡·" "Fenrir";
    Language.mk "hi-IN" "Hindi" "ðŸ‡®ðŸ‡³" "Zephyr" ].

Definition AUDIO_SAMPLE_RATE : Z := 24000.

(** ** [services/geminiService]: the translation gateway client *)

Module GeminiService.

(** What [contents] holds: the bare text, or the text with a JPEG frame. *)
Inductive Contents :=
| TextOnly (text : string)
| WithImage (text : string) (jpegBase64 : string).

Record GenerateContentRequest := {
  model : string;
  contents : Contents;
  systemInstruction : string;
  responseMimeType : string }.

(** The line a turn of the history contributes to the prompt. *)
Definition historyLine (m : Message.t) : string :=
  ((if Sender_eqb (Message.sender m) user then "User" else "Partner")
     ++ ": " ++ Message.originalText m)%string.

Definition newline : string := String (ascii_of_nat 10) EmptyString.

Definition profileContextOf (userProfile : option UserProfile.t) : string :=
  match userProfile with
  | None => ""
  | Some userProfile =>
      let toneString := JsString.join ", " (UserProfile.tone userProfile) in
      let interestsString := JsString.join ", " (UserProfile.conversationTypes userProfile) in
      ("
    USER PROFILE CONTEXT:
    - Name: "
        ++ UserProfile.name userProfile
        ++ "
    - Communication Style: "
        ++ toneString
        ++ "
    - Interests/Context: "
        ++ interestsString
        ++ "
    - Bio: "
        ++ UserProfile.bio userProfile
        ++ "
    ")%string
  end.

Definition translateRequest (text : string) (sourceLang targetLang : Language.t)
    (userProfile : option UserProfile.t) (history : list Message.t)
    (imageContext : option string) : GenerateContentRequest :=
  let profileContext := profileContextOf userProfile in
  let recentHistory := JsString.join newline (map historyLine (sliceLast 3 history)) in
  let systemInstruction :=
    ("You are an expert real-time translator assistant with computer vision capabilities.
  "
    ++ profileContext
    ++ "

  TASK:
  1. Translate the input text from "
    ++ Language.name sourceLang
    ++ " to "
    ++ Language.name targetLang
    ++ ".
  2. If an IMAGE is provided, perform FACIAL EXPRESSION ANALYSIS (Simulate CNN feature extraction).
     - Detect the emotion (e.g., Happy, Angry, Sad, Neutral, Surprised, Confused).
     - Use this emotion to contextualize the translation. (e.g., if face is 'Angry', the translation should reflect a sterner tone).
  3. Provide 3 short, natural, and contextually appropriate responses.
  
  RECENT CONVERSATION HISTORY:
  "
    ++ recentHistory
    ++ "
  ")%string in
  let contents :=
    match imageContext with
    | Some image => if JsString.falsy image then TextOnly text else WithImage text image
    | None => TextOnly text
    end in
  {| model := "gemini-2.5-flash";
     contents := contents;
     systemInstruction := systemInstruction;
     responseMimeType := "application/json" |}.

(** The three generic replies of the fallback. *)
Definition fallbackResponses : list string :=
  ["Could you repeat that?"; "I understand."; "Thank you."].

(** The result returned when the body is not JSON. *)
Definition fallback (result : string) : TranslationResponse.t :=
  {| TranslationResponse.translatedText :=
       (JsString.slice0 100 (JsString.removeBraces result) ++ "...")%string;
     TranslationResponse.detectedEmotion := Some "Neutral";
     TranslationResponse.suggestedResponses := fallbackResponses |}.

(** A [TranslationResponse] as a JavaScript object, fields in the order the
    object literal lists them. *)
Definition toJS (r : TranslationResponse.t) : JSValue :=
  JObject
    ([("translatedText", JString (TranslationResponse.translatedText r))]
     ++ match TranslationResponse.detectedEmotion r with
        | Some e => [("detectedEmotion", JString e)]
        | None => []
        end
     ++ [("suggestedResponses",
          JArray (map JString (TranslationResponse.suggestedResponses r)))]).

(** The strings of an array all of whose items are strings. *)
Fixpoint stringItems (items : list JSValue) : option (list string) :=
  match items with
  | [] => Some []
  | JString s :: rest => option_map (cons s) (stringItems rest)
  | _ :: _ => None
  end.

(** The values for which the unchecked cast [as TranslationResponse] is
    sound: an object with a string [translatedText], an array of strings
    [suggestedResponses] and, if present, a string [detectedEmotion]. *)
Definition asTranslationResponse (v : JSValue) : option TranslationResponse.t :=
  match v with
  | JObject props =>
      match Js.lookup "translatedText" props, Js.lookup "suggestedResponses" props with
      | Some (JString t), Some (JArray items) =>
          match stringItems items, Js.lookup "detectedEmotion" props with
          | Some rs, None => Some (TranslationResponse.mk t rs None)
          | Some rs, Some (JString e) => Some (TranslationResponse.mk t rs (Some e))
          | _, _ => None
          end
      | _, _ => None
      end
  | _ => None
  end.

(** The shape the interface promises: [{translatedText, suggestedResponses
    of length 3, detectedEmotion}]. *)
Definition wellFormed (v : JSValue) : bool :=
  match asTranslationResponse v with
  | Some r =>
      Nat.eqb (length (TranslationResponse.suggestedResponses r)) 3
      && match TranslationResponse.detectedEmotion r with Some _ => true | None => false end
  | None => false
  end.

Section Client.

(** [JSON.parse]: [None] when it throws a SyntaxError. *)
Variable JSON_parse : string -> option JSValue.

(** [ai.models.generateContent]: the promise rejects, or resolves to a
    response whose [text] is a string or [undefined]. *)
Variable generateContent : GenerateContentRequest -> Outcome (option string).

Definition translateContent (text : string) (sourceLang targetLang : Language.t)
    (userProfile : option UserProfile.t) (history : list Message.t)
    (imageContext : option string) : Outcome JSValue :=
  match generateContent
          (translateRequest text sourceLang targetLang userProfile history imageContext) with
  | Threw e => Threw e
  | Returned response_text =>
      match response_text with
      | None => Threw "No translation returned"
      | Some result =>
          if JsString.falsy result then Threw "No translation returned"
          else
            match JSON_parse result with
            | Some parsed => Returned parsed
            | None => Returned (toJS (fallback result))
            end
      end
  end.

End Client.

End GeminiService.

(** ** [src/App.tsx]: the component state *)

(** The arguments of one [processInput] call. *)
Module Input.
Record t := mk {
  text : string;
  sourceLang : Language.t;
  targetLang : Language.t;
  sender : Sender;
  type : MessageType;
  mediaBlob : option Blob;
  isAutoReply : bool }.
End Input.

Module App.

(** What the program reads of the preview [<video>] element. *)
Record VideoElement := { videoWidth : Z; videoHeight : Z }.

(** The [useState] cells of the component, in the order the component
    declares them, followed by the [useRef] cells the handlers read: the
    preview element if mounted, whether a recorder and a recognition
    session are held, and the recorded chunks.  A render snapshot (the
    [view] of a closure) is a value of this type too; its ref fields are
    never read, a ref being read from the live store. *)
Record Store := mkStore {
  langA : Language.t;
  langB : Language.t;
  messages : list Message.t;
  appState : AppState;
  commMode : CommMode;
  preference : OutputPreference;
  errorMsg : option string;
  userProfile : option UserProfile.t;
  showProfileSetup : bool;
  isAiResponderActive : bool;
  smartReplies : list string;
  recordingWho : option Sender;
  interimText : string;
  textInput : string;
  isMediaRecording : bool;
  mediaTimer : Z;
  videoRef : option VideoElement;
  mediaRecorderRef : bool;
  chunksRef : list Bytes;
  recognitionRef : bool }.

(** The cell updates behind the state setters. *)

Definition with_langA (v : Language.t) (s : Store) : Store :=
  mkStore v (langB s) (messages s) (appState s) (commMode s) (preference s)
    (errorMsg s) (userProfile s) (showProfileSetup s) (isAiResponderActive s)
    (smartReplies s) (recordingWho s) (interimText s) (textInput s)
    (isMediaRecording s) (mediaTimer s) (videoRef s) (mediaRecorderRef s)
    (chunksRef s) (recognitionRef s).

Definition with_messages (v : list Message.t) (s : Store) : Store :=
  mkStore (langA s) (langB s) v (appState s) (commMode s) (preference s)
    (errorMsg s) (userProfile s) (showProfileSetup s) (isAiResponderActive s)
    (smartReplies s) (recordingWho s) (interimText s) (textInput s)
    (isMediaRecording s) (mediaTimer s) (videoRef s) (mediaRecorderRef s)
    (chunksRef s) (recognitionRef s).

Definition with_appState (v : AppState) (s : Store) : Store :=
  mkStore (langA s) (langB s) (messages s) v (commMode s) (preference s)
    (errorMsg s) (userProfile s) (showProfileSetup s) (isAiResponderActive s)
    (smartReplies s) (recordingWho s) (interimText s) (textInput s)
    (isMediaRecording s) (mediaTimer s) (videoRef s) (mediaRecorderRef s)
    (chunksRef s) (recognitionRef s).

Definition with_errorMsg (v : option string) (s : Store) : Store :=
  mkStore (langA s) (langB s) (messages s) (appState s) (commMode s) (preference s)
    v (userProfile s) (showProfileSetup s) (isAiResponderActive s) (smartReplies s)
    (recordingWho s) (interimText s) (textInput s) (isMediaRecording s)
    (mediaTimer s) (videoRef s) (mediaRecorderRef s) (chunksRef s)
    (recognitionRef s).

Definition with_userProfile (v : option UserProfile.t) (s : Store) : Store :=
  mkStore (langA s) (langB s) (messages s) (appState s) (commMode s) (preference s)
    (errorMsg s) v (showProfileSetup s) (isAiResponderActive s) (smartReplies s)
    (recordingWho s) (interimText s) (textInput s) (isMediaRecording s)
    (mediaTimer s) (videoRef s) (mediaRecorderRef s) (chunksRef s)
    (recognitionRef s).

Definition with_showProfileSetup (v : bool) (s : Store) : Store :=
  mkStore (langA s) (langB s) (messages s) (appState s) (commMode s) (preference s)
    (errorMsg s) (userProfile s) v (isAiResponderActive s) (smartReplies s)
    (recordingWho s) (interimText s) (textInput s) (isMediaRecording s)
    (mediaTimer s) (videoRef s) (mediaRecorderRef s) (chunksRef s)
    (recognitionRef s).

Definition with_smartReplies (v : list string) (s : Store) : Store :=
  mkStore (langA s) (langB s) (messages s) (appState s) (commMode s) (preference s)
    (errorMsg s) (userProfile s) (showProfileSetup s) (isAiResponderActive s) v
    (recordingWho s) (interimText s) (textInput s) (isMediaRecording s)
    (mediaTimer s) (videoRef s) (mediaRecorderRef s) (chunksRef s)
    (recognitionRef s).

Definition with_recordingWho (v : option Sender) (s : Store) : Store :=
  mkStore (langA s) (langB s) (messages s) (appState s) (commMode s) (preference s)
    (errorMsg s) (userProfile s) (showProfileSetup s) (isAiResponderActive s)
    (smartReplies s) v (interimText s) (textInput s) (isMediaRecording s)
    (mediaTimer s) (videoRef s) (mediaRecorderRef s) (chunksRef s)
    (recognitionRef s).

Definition with_interimText (v : string) (s : Store) : Store :=
  mkStore (langA s) (langB s) (messages s) (appState s) (commMode s) (preference s)
    (errorMsg s) (userProfile s) (showProfileSetup s) (isAiResponderActive s)
    (smartReplies s) (recordingWho s) v (textInput s) (isMediaRecording s)
    (mediaTimer s) (videoRef s) (mediaRecorderRef s) (chunksRef s)
    (recognitionRef s).

Definition with_textInput (v : string) (s : Store) : Store :=
  mkStore (langA s) (langB s) (messages s) (appState s) (commMode s) (preference s)
    (errorMsg s) (userProfile s) (showProfileSetup s) (isAiResponderActive s)
    (smartReplies s) (recordingWho s) (interimText s) v (isMediaRecording s)
    (mediaTimer s) (videoRef s) (mediaRecorderRef s) (chunksRef s)
    (recognitionRef s).

Definition with_isMediaRecording (v : bool) (s : Store) : Store :=
  mkStore (langA s) (langB s) (messages s) (appState s) (commMode s) (preference s)
    (errorMsg s) (userProfile s) (showProfileSetup s) (isAiResponderActive s)
    (smartReplies s) (recordingWho s) (interimText s) (textInput s) v (mediaTimer s)
    (videoRef s) (mediaRecorderRef s) (chunksRef s) (recognitionRef s).

(** ** Effects and handlers *)

(** The outcomes of everything outside the component that one
    [processInput] call consults, in the order it consults them. *)
Record World := {
  now : Z;                                       (* [Date.now()] at entry *)
  canvasContext : bool;                          (* [canvas.getContext('2d')] is not null *)
  dataUrl : string;                              (* [canvas.toDataURL('image/jpeg', 0.8)] *)
  translation : Outcome TranslationResponse.t;   (* [await translateContent(...)], of the declared shape *)
  speech : Outcome Bytes;                        (* [await generateSpeech(...)] *)
  nowCommit : Z;                                 (* [Date.now()] in the message literal *)
  avatar : Outcome string;                       (* [generateAvatarReply(...)] settles *)
  playback : Outcome unit }.                     (* decoding and starting the audio *)

(** Bodies passed to [setTimeout]. *)
Inductive Callback :=
| ClearError                                  (* of [handleError] *)
| CallProcessInput (view : Store) (a : Input.t)  (* the avatar's reply, in [processInput] *)
| FinishRecording (view : Store).             (* of [stopMediaRecording] *)

Inductive Effect :=
| TriggerHaptic (t : HapticUtils.HapticType)
| ConsoleError (msg : string)
| ConsoleWarn (msg : string)
| CallTranslateContent (text : string) (sourceLang targetLang : Language.t)
    (userProfile : option UserProfile.t) (history : list Message.t)
    (imageFrame : option string)
| CallGenerateSpeech (text voiceName : string)
| CallGenerateAvatarReply (incomingText : string) (userProfile : UserProfile.t)
    (history : list Message.t)
| StartAudio (audioData : Bytes)
| StopRecorder
| StopTracks
| StopRecognition
| PersistProfile (profile : UserProfile.t)      (* [localStorage.setItem] *)
| SetTimeout (cb : Callback) (ms : Z).

(** A handler transforms the live store and emits effects, in order. *)
Definition Handler := Store -> Store * list Effect.

Definition skip : Handler := fun s => (s, []).

Definition emit (e : Effect) : Handler := fun s => (s, [e]).

Definition update (f : Store -> Store) : Handler := fun s => (f s, []).

Definition andThen (h k : Handler) : Handler :=
  fun s => let (s1, e1) := h s in let (s2, e2) := k s1 in (s2, e1 ++ e2).

Definition when (b : bool) (h : Handler) : Handler := if b then h else skip.

(** A handler that first reads the live store. *)
Definition reading (k : Store -> Handler) : Handler := fun s => k s s.

Declare Scope handler_scope.
Delimit Scope handler_scope with handler.
Bind Scope handler_scope with Handler.
Notation "h ;; k" := (andThen h k) (at level 61, right associativity) : handler_scope.
Local Open Scope handler_scope.

Definition setLangA v := update (with_langA v).
Definition setAppState v := update (with_appState v).
Definition setErrorMsg v := update (with_errorMsg v).
Definition setUserProfile v := update (with_userProfile v).
Definition setShowProfileSetup v := update (with_showProfileSetup v).
Definition setSmartReplies v := update (with_smartReplies v).
Definition setRecordingWho v := update (with_recordingWho v).
Definition setInterimText v := update (with_interimText v).
Definition setTextInput v := update (with_textInput v).
Definition setIsMediaRecording v := update (with_isMediaRecording v).

Definition triggerHaptic (t : HapticUtils.HapticType) : Handler := emit (TriggerHaptic t).

Definition final (r : Store * list Effect) : Store := fst r.
Definition effects (r : Store * list Effect) : list Effect := snd r.

(** ** Helpers *)

(** [SUPPORTED_LANGUAGES.find(l => l.code === code)] *)
Definition supportedLanguage (code : string) : option Language.t :=
  find (fun l => String.eqb (Language.code l) code) SUPPORTED_LANGUAGES.

Definition saveProfile (profile : UserProfile.t) : Handler :=
  setUserProfile (Some profile) ;;
  emit (PersistProfile profile) ;;
  setShowProfileSetup false ;;
  triggerHaptic HapticUtils.success ;;
  match supportedLanguage (UserProfile.primaryLanguage profile) with
  | Some userLang => setLangA userLang
  | None => skip
  end.

(** The timer body of [handleError]. *)
Definition clearError : Handler :=
  setErrorMsg None ;; setAppState IDLE.

Definition handleError (msg : string) : Handler :=
  setErrorMsg (Some msg) ;;
  setAppState ERROR ;;
  triggerHaptic HapticUtils.error ;;
  emit (SetTimeout ClearError 4000).

Definition playAudio (audioData : Bytes) (w : World) : Handler :=
  match playback w with
  | Returned _ => emit (StartAudio audioData)
  | Threw _ =>
      emit (ConsoleError "Audio playback error") ;;
      handleError "Could not play audio."
  end.

(** [s.split(sep)] for a one-character separator. *)
Fixpoint split (sep : ascii) (s : string) : list string :=
  match s with
  | EmptyString => [EmptyString]
  | String c s' =>
      if Ascii.eqb c sep then EmptyString :: split sep s'
      else match split sep s' with
           | [] => [String c EmptyString]
           | piece :: pieces => String c piece :: pieces
           end
  end.

(** The current frame of the preview as a Base64 JPEG, if there is one. *)
Definition captureVideoFrame (live : Store) (w : World) : option string :=
  match videoRef live with
  | None => None
  | Some video =>
      if (Z.eqb (videoWidth video) 0 || Z.eqb (videoHeight video) 0)%bool then None
      else if canvasContext w then nth_error (split "," (dataUrl w)) 1
      else None
  end.

(** ** Core processing *)

(** The buffer of the synthesized speech, when synthesis succeeded. *)
Definition translatedAudioData (w : World) : option Bytes :=
  match speech w with
  | Returned data => Some data
  | Threw _ => None
  end.

(** The message literal of [processInput], for a translation result of the
    shape [TranslationResponse] declares; [Unchecked.newMessage] is the same
    literal for a result of any shape. *)
Definition newMessage (a : Input.t) (w : World)
    (translationResult : TranslationResponse.t) : Message.t :=
  {| Message.id := JsString.ofNumber (now w);
     Message.type := Input.type a;
     Message.originalText := Input.text a;
     Message.translatedText := TranslationResponse.translatedText translationResult;
     Message.originalLang := Language.code (Input.sourceLang a);
     Message.targetLang := Language.code (Input.targetLang a);
     Message.sender := Input.sender a;
     Message.timestamp := nowCommit w;
     Message.suggestedResponses :=
       Some (TranslationResponse.suggestedResponses translationResult);
     Message.translatedAudioBuffer := translatedAudioData w;
     Message.originalAudioBlob := Input.mediaBlob a;
     Message.videoBlob := if isVideoType (Input.type a) then Input.mediaBlob a else None;
     Message.isAutoReply := Some (Input.isAutoReply a);
     Message.detectedEmotion := TranslationResponse.detectedEmotion translationResult |}.

(** The call the avatar's reply is sent with: the closure's own languages,
    the local user as sender, a text message, flagged as an auto-reply. *)
Definition autoReplyInput (view : Store) (aiReplyText : string) : Input.t :=
  Input.mk aiReplyText (langA view) (langB view) user text None true.

(** What the updater passed to [setMessages] does besides returning the
    extended history: the feedback for the added message and, for a
    partner's message under an active responder with a profile, the avatar's
    reply in the background. *)
Definition avatarLogic (view : Store) (a : Input.t) (w : World)
    (updatedMessages : list Message.t) : list Effect :=
  match userProfile view with
  | Some profile =>
      if (Sender_eqb (Input.sender a) partner && isAiResponderActive view)%bool then
        [TriggerHaptic HapticUtils.warning;
         CallGenerateAvatarReply (Input.text a) profile updatedMessages]
        ++ match avatar w with
           | Returned aiReplyText =>
               [SetTimeout (CallProcessInput view (autoReplyInput view aiReplyText)) 1000]
           | Threw _ => [ConsoleError "Avatar failed"]
           end
      else []
  | None => []
  end.

(** [setMessages(prev => ...)]: a functional update whose updater also
    emits effects. *)
Definition setMessagesWith
    (updater : list Message.t -> list Message.t * list Effect) : Handler :=
  fun s => let (next, es) := updater (messages s) in (with_messages next s, es).

Definition processInput (view : Store) (a : Input.t) (w : World) : Handler :=
  setAppState TRANSLATING ;;
  setInterimText "" ;;
  when (Sender_eqb (Input.sender a) user) (setSmartReplies []) ;;
  reading (fun live =>
    let imageFrame :=
      if (isVideoType (Input.type a)
          && match videoRef live with Some _ => true | None => false end)%bool
      then captureVideoFrame live w
      else None in
    emit (CallTranslateContent (Input.text a) (Input.sourceLang a) (Input.targetLang a)
            (userProfile view) (messages view) imageFrame) ;;
    match translation w with
    | Returned translationResult =>
        when (Sender_eqb (Input.sender a) partner)
          (setSmartReplies (TranslationResponse.suggestedResponses translationResult)) ;;
        emit (CallGenerateSpeech (TranslationResponse.translatedText translationResult)
                (Language.voiceName (Input.targetLang a))) ;;
        match speech w with
        | Returned _ => skip
        | Threw _ => emit (ConsoleWarn "TTS failed")
        end ;;
        setMessagesWith (fun prev =>
          let updatedMessages := prev ++ [newMessage a w translationResult] in
          (updatedMessages,
           TriggerHaptic HapticUtils.success :: avatarLogic view a w updatedMessages)) ;;
        setAppState IDLE ;;
        match translatedAudioData w with
        | Some data => when (OutputPreference_eqb (preference view) TRANSLATED) (playAudio data w)
        | None => skip
        end
    | Threw err =>
        emit (ConsoleError err) ;;
        handleError "Processing failed. Please try again." ;;
        setAppState IDLE
    end).

(** ** The call sites of [processInput] *)

Definition handleSmartReply (view : Store) (reply : string) (w : World) : Handler :=
  triggerHaptic HapticUtils.selection ;;
  processInput view (Input.mk reply (langA view) (langB view) user text None false) w.

Definition sendTextMessage (view : Store) (w : World) : Handler :=
  if JsString.blank (textInput view) then skip
  else
    triggerHaptic HapticUtils.selection ;;
    processInput view
      (Input.mk (textInput view) (langA view) (langB view) user text None false) w ;;
    setTextInput "".

(** The language a party speaks and the language it is translated into. *)
Definition spokenBy (view : Store) (who : Sender) : Language.t :=
  if Sender_eqb who user then langA view else langB view.

Definition heardBy (view : Store) (who : Sender) : Language.t :=
  if Sender_eqb who user then langB view else langA view.

(** The interim and the final transcript of a recognition event, whose
    results are given from [resultIndex] on as (isFinal, transcript). *)
Fixpoint transcripts (results : list (bool * string)) : string * string :=
  match results with
  | [] => ("", "")
  | (isFinal, transcript) :: rest =>
      let (interimTranscript, finalTranscript) := transcripts rest in
      if isFinal then (interimTranscript, (transcript ++ finalTranscript)%string)
      else ((transcript ++ interimTranscript)%string, finalTranscript)
  end.

(** [recognition.onresult] of [startLiveListening sender]. *)
Definition onLiveResult (view : Store) (who : Sender) (results : list (bool * string))
    (w : World) : Handler :=
  let (interimTranscript, finalTranscript) := transcripts results in
  when (negb (JsString.falsy interimTranscript)) (setInterimText interimTranscript) ;;
  if JsString.falsy finalTranscript then skip
  else
    emit StopRecognition ;;
    setInterimText finalTranscript ;;
    processInput view
      (Input.mk finalTranscript (spokenBy view who) (heardBy view who) who
         (if CommMode_eqb (commMode view) LIVE_VIDEO then video_live else audio_live)
         None false) w.

(** The call made when the timer of [stopMediaRecording] fires. *)
Definition recordingInput (view live : Store) : Input.t :=
  let mimeType :=
    if CommMode_eqb (commMode view) REC_VIDEO then "video/webm" else "audio/webm" in
  let blob := {| blobParts := chunksRef live; blobType := mimeType |} in
  let finalSafeText := JsString.orElse (interimText view) "(Audio Content)" in
  let who := match recordingWho view with Some who => who | None => user end in
  Input.mk finalSafeText (spokenBy view who) (heardBy view who) who
    (if CommMode_eqb (commMode view) REC_VIDEO then video_file else audio_file)
    (Some blob) false.

Definition finishRecording (view : Store) (w : World) : Handler :=
  reading (fun live => processInput view (recordingInput view live) w).

Definition stopMediaRecording (view : Store) : Handler :=
  reading (fun live =>
    when (mediaRecorderRef live && isMediaRecording view)
      (emit StopRecorder ;;
       emit StopTracks ;;
       when (recognitionRef live) (emit StopRecognition) ;;
       setIsMediaRecording false ;;
       setRecordingWho None ;;
       setAppState IDLE ;;
       triggerHaptic HapticUtils.heavy ;;
       emit (SetTimeout (FinishRecording view) 500))).

(** ** Timers *)

Definition runCallback (cb : Callback) (w : World) : Handler :=
  match cb with
  | ClearError => clearError
  | CallProcessInput view a => processInput view a w
  | FinishRecording view => finishRecording view w
  end.

(** The callbacks a list of effects hands to [setTimeout], with delays. *)
Fixpoint timers (es : list Effect) : list (Callback * Z) :=
  match es with
  | [] => []
  | SetTimeout cb ms :: rest => (cb, ms) :: timers rest
  | _ :: rest => timers rest
  end.

(** The [processInput] calls among them. *)
Fixpoint scheduledCalls (es : list Effect) : list (Store * Input.t) :=
  match es with
  | [] => []
  | SetTimeout (CallProcessInput view a) _ :: rest => (view, a) :: scheduledCalls rest
  | _ :: rest => scheduledCalls rest
  end.

(** The requests made to the avatar-reply service. *)
Fixpoint avatarRequests (es : list Effect)
  : list (string * UserProfile.t * list Message.t) :=
  match es with
  | [] => []
  | CallGenerateAvatarReply incomingText profile history :: rest =>
      (incomingText, profile, history) :: avatarRequests rest
  | _ :: rest => avatarRequests rest
  end.

(** A sequence of [processInput] invocations, each with the snapshot it
    closed over, its arguments and what the outside world answers. *)
Definition Invocation : Type := Store * Input.t * World.

Definition invoke (c : Invocation) : Handler :=
  let '(view, a, w) := c in processInput view a w.

Fixpoint processInputs (calls : list Invocation) : Handler :=
  match calls with
  | [] => skip
  | c :: rest => invoke c ;; processInputs rest
  end.

(** The message an invocation commits, if its translation succeeds. *)
Definition committed (c : Invocation) : list Message.t :=
  let '(_, a, w) := c in
  match translation w with
  | Returned translationResult => [newMessage a w translationResult]
  | Threw _ => []
  end.

Definition succeeds (c : Invocation) : bool :=
  let '(_, _, w) := c in
  match translation w with Returned _ => true | Threw _ => false end.

(** ** The timer queue *)

(** The pending timers with the time each is due, soonest first; a timer set
    later goes behind those due at the same time. *)
Fixpoint schedule (due : Z) (cb : Callback) (queue : list (Z * Callback))
  : list (Z * Callback) :=
  match queue with
  | [] => [(due, cb)]
  | (d, c) :: rest =>
      if (due <? d)%Z then (due, cb) :: queue else (d, c) :: schedule due cb rest
  end.

(** Adds the timers a handler run at time [clock] has set. *)
Definition scheduleAll (clock : Z) (es : list Effect) (queue : list (Z * Callback))
  : list (Z * Callback) :=
  fold_left (fun q t => schedule (clock + snd t) (fst t) q) (timers es) queue.

(** Fires the pending timers in the order they are due, each against the next
    world, until none is pending or the worlds are used up; returns the store,
    the effects and the timers still pending. *)
Fixpoint settle (worlds : list World) (queue : list (Z * Callback)) (s : Store)
  : Store * list Effect * list (Z * Callback) :=
  match worlds, queue with
  | w :: worlds', (due, cb) :: rest =>
      let (s1, e1) := runCallback cb w s in
      let '(s2, e2, pending) := settle worlds' (scheduleAll due e1 rest) s1 in
      (s2, e1 ++ e2, pending)
  | _, _ => (s, [], queue)
  end.

(** One turn: a [processInput] call at time [clock] and everything its timers
    lead to. *)
Definition turn (view : Store) (a : Input.t) (clock : Z) (w : World) (worlds : list World)
  : Handler :=
  fun s =>
    let (s1, e1) := processInput view a w s in
    let '(s2, e2, _) := settle worlds (scheduleAll clock e1 []) s1 in
    (s2, e1 ++ e2).

(** The timers still pending after a turn. *)
Definition pendingAfterTurn (view : Store) (a : Input.t) (clock : Z) (w : World)
    (worlds : list World) (s : Store) : list (Z * Callback) :=
  let (s1, e1) := processInput view a w s in
  snd (settle worlds (scheduleAll clock e1 []) s1).

End App.

(** ** [src/App.tsx]: loading the persisted profile on mount *)

Module ProfileLoad.

(** The setter calls the mount effect makes. *)
Inductive Action :=
| SetUserProfile (parsed : JSValue)
| SetLangA (userLang : Language.t)
| SetShowProfileSetup (shown : bool)
| LogError (msg : string).

(** [SUPPORTED_LANGUAGES.find(l => l.code === code)] *)
Definition findLanguage (code : option JSValue) : option Language.t :=
  find (fun l => Js.strictEqString (Language.code l) code) SUPPORTED_LANGUAGES.

(** The migration of a legacy profile, whose tone was a single string. *)
Definition migrate (parsed : JSValue) : Outcome JSValue :=
  match Js.getProp "tone" parsed with
  | Threw e => Threw e
  | Returned tone =>
      if Js.isString tone
      then match tone with
           | Some toneValue => Returned (Js.setProp "tone" (JArray [toneValue]) parsed)
           | None => Returned parsed
           end
      else Returned parsed
  end.

Section Load.

(** [JSON.parse]: [None] when it throws a SyntaxError. *)
Variable JSON_parse : string -> option JSValue.

(** The effect run on mount, given [localStorage.getItem('omniTalk_userProfile')]. *)
Definition loadProfile (savedProfile : option string) : list Action :=
  match savedProfile with
  | None => [SetShowProfileSetup true]
  | Some saved =>
      if JsString.falsy saved then [SetShowProfileSetup true]
      else
        match JSON_parse saved with
        | None => [LogError "Failed to parse profile"; SetShowProfileSetup true]
        | Some parsed =>
            match migrate parsed with
            | Threw _ => [LogError "Failed to parse profile"; SetShowProfileSetup true]
            | Returned parsed' =>
                SetUserProfile parsed'
                :: match Js.getProp "primaryLanguage" parsed' with
                   | Returned code =>
                       match findLanguage code with
                       | Some userLang => [SetLangA userLang]
                       | None => []
                       end
                   | Threw _ => [LogError "Failed to parse profile"; SetShowProfileSetup true]
                   end
            end
        end
  end.

(** The profile the component holds after the effect, if it set one. *)
Definition loadedProfile (savedProfile : option string) : option JSValue :=
  fold_left
    (fun acc action =>
       match action with SetUserProfile parsed => Some parsed | _ => acc end)
    (loadProfile savedProfile) None.

End Load.

(** The values for which the component's typing of the profile as a
    [UserProfile] is sound. *)
Definition asUserProfile (v : JSValue) : option UserProfile.t :=
  match v with
  | JObject props =>
      match Js.lookup "name" props, Js.lookup "primaryLanguage" props,
            Js.lookup "conversationTypes" props, Js.lookup "tone" props,
            Js.lookup "bio" props with
      | Some (JString n), Some (JString l), Some (JArray topics), Some (JArray tones),
        Some (JString b) =>
          match GeminiService.stringItems topics, GeminiService.stringItems tones with
          | Some ts, Some tn => Some (UserProfile.mk n l ts tn b)
          | _, _ => None
          end
      | _, _, _, _, _ => None
      end
  | _ => None
  end.

End ProfileLoad.

(** ** Sample documents *)

Module Samples.

Definition quote : string := String (ascii_of_nat 34) EmptyString.

(** A JSON string literal for a text without special characters. *)
Definition lit (s : string) : string := (quote ++ s ++ quote)%string.

(** The text of a profile persisted before tones became a list. *)
Definition legacyProfileText : string :=
  ("{" ++ lit "name" ++ ":" ++ lit "Alex" ++ ","
       ++ lit "primaryLanguage" ++ ":" ++ lit "es-ES" ++ ","
       ++ lit "conversationTypes" ++ ":[" ++ lit "Travel" ++ "],"
       ++ lit "tone" ++ ":" ++ lit "Formal" ++ ","
       ++ lit "bio" ++ ":" ++ lit "" ++ "}")%string.

Definition legacyProfileValue : JSValue :=
  JObject [("name", JString "Alex"); ("primaryLanguage", JString "es-ES");
           ("conversationTypes", JArray [JString "Travel"]);
           ("tone", JString "Formal"); ("bio", JString "")].

(** A restriction of [JSON.parse] to one document: it agrees with
    [JSON.parse] on [legacyProfileText] and rejects every other text. *)
Definition parseLegacyOnly (raw : string) : option JSValue :=
  if String.eqb raw legacyProfileText then Some legacyProfileValue else None.

(** A gateway that answers every request with the same body. *)
Definition answering (body : option string)
  : GeminiService.GenerateContentRequest -> Outcome (option string) :=
  fun _ => Returned body.

Definition english : Language.t := nth 0 SUPPORTED_LANGUAGES (Language.mk "" "" "" "").
Definition spanish : Language.t := nth 1 SUPPORTED_LANGUAGES (Language.mk "" "" "" "").

Definition alex : UserProfile.t :=
  UserProfile.mk "Alex" "en-US" ["Travel"] ["Formal"] "".

(** A component state with the initial languages and modes, in which only
    the profile, the responder toggle, the suggestions, the recording party
    and the interim transcript vary. *)
Definition store (profile : option UserProfile.t) (responder : bool)
    (replies : list string) (who : option Sender) (interim : string) : App.Store :=
  {| App.langA := english; App.langB := spanish; App.messages := [];
     App.appState := IDLE; App.commMode := LIVE_AUDIO; App.preference := TRANSLATED;
     App.errorMsg := None; App.userProfile := profile; App.showProfileSetup := false;
     App.isAiResponderActive := responder; App.smartReplies := replies;
     App.recordingWho := who; App.interimText := interim; App.textInput := "";
     App.isMediaRecording := false; App.mediaTimer := 0%Z;
     App.videoRef := None; App.mediaRecorderRef := false; App.chunksRef := [];
     App.recognitionRef := false |}.

(** The component state right after mount, before any profile is loaded. *)
Definition initialStore : App.Store := store None false [] None "".

(** The state while the avatar answers for Alex. *)
Definition respondingStore : App.Store := store (Some alex) true [] None "".

(** The state while [who] records a voice note: a recorder and a
    recognition session are held, one chunk has arrived, and [interim] is
    the transcript captured so far. *)
Definition recordingStore (who : Sender) (interim : string) : App.Store :=
  {| App.langA := english; App.langB := spanish; App.messages := [];
     App.appState := RECORDING; App.commMode := REC_AUDIO; App.preference := TRANSLATED;
     App.errorMsg := None; App.userProfile := Some alex; App.showProfileSetup := false;
     App.isAiResponderActive := false; App.smartReplies := [];
     App.recordingWho := Some who; App.interimText := interim; App.textInput := "";
     App.isMediaRecording := true; App.mediaTimer := 3%Z;
     App.videoRef := None; App.mediaRecorderRef := true;
     App.chunksRef := [[Byte.x1a; Byte.x45]]; App.recognitionRef := true |}.

(** A world whose clock, canvas and playback are fixed. *)
Definition world (translation : Outcome TranslationResponse.t) (speech : Outcome Bytes)
    (avatar : Outcome string) : App.World :=
  {| App.now := 1700000000000%Z; App.canvasContext := false; App.dataUrl := "";
     App.translation := translation; App.speech := speech;
     App.nowCommit := 1700000000250%Z; App.avatar := avatar;
     App.playback := Returned tt |}.

Definition hola : TranslationResponse.t :=
  TranslationResponse.mk "Hola" ["Hola"; "Buenos dias"; "Gracias"] (Some "Neutral").

Definition station : TranslationResponse.t :=
  TranslationResponse.mk "Where is the station?"
    ["Two blocks north."; "I do not know."; "Follow me."] (Some "Neutral").

(** The local user types "Hello". *)
Definition helloInput : Input.t := Input.mk "Hello" english spanish user text None false.

(** The partner's utterance, as the live call site passes it. *)
Definition stationInput : Input.t :=
  Input.mk "Donde esta la estacion?" spanish english partner audio_live None false.

End Samples.

(** ** [processInput] on a translation result of any shape *)

(** [translateContent] returns [JSON.parse(result) as TranslationResponse]:
    the cast checks nothing, so the value [processInput] receives is whatever
    the gateway's JSON holds. *)
Module Unchecked.

(** A message as [processInput] builds it from such a value: the three fields
    copied from the result hold whatever the result has there, [None] being
    [undefined]. *)
Record Message := mk {
  id : string;
  type : MessageType;
  originalText : string;
  translatedText : option JSValue;
  originalLang : string;
  targetLang : string;
  sender : Sender;
  timestamp : Z;
  suggestedResponses : option JSValue;
  isAutoReply : option bool;
  detectedEmotion : option JSValue;
  originalAudioBlob : option Blob;
  translatedAudioBuffer : option Bytes;
  videoBlob : option Blob }.

(** A message of the declared shape, as such a message. *)
Definition ofMessage (m : Message.t) : Message :=
  {| id := Message.id m;
     type := Message.type m;
     originalText := Message.originalText m;
     translatedText := Some (JString (Message.translatedText m));
     originalLang := Message.originalLang m;
     targetLang := Message.targetLang m;
     sender := Message.sender m;
     timestamp := Message.timestamp m;
     suggestedResponses :=
       option_map (fun rs => JArray (map JString rs)) (Message.suggestedResponses m);
     isAutoReply := Message.isAutoReply m;
     detectedEmotion := option_map JString (Message.detectedEmotion m);
     originalAudioBlob := Message.originalAudioBlob m;
     translatedAudioBuffer := Message.translatedAudioBuffer m;
     videoBlob := Message.videoBlob m |}.

(** The message literal of [processInput]; it reads three properties of the
    result, in this order, and reading a property of [null] throws. *)
Definition newMessage (a : Input.t) (w : App.World) (translationResult : JSValue)
  : Outcome Message :=
  match Js.getProp "translatedText" translationResult with
  | Threw e => Threw e
  | Returned translated =>
      match Js.getProp "suggestedResponses" translationResult with
      | Threw e => Threw e
      | Returned suggested =>
          match Js.getProp "detectedEmotion" translationResult with
          | Threw e => Threw e
          | Returned emotion =>
              Returned
                {| id := JsString.ofNumber (App.now w);
                   type := Input.type a;
                   originalText := Input.text a;
                   translatedText := translated;
                   originalLang := Language.code (Input.sourceLang a);
                   targetLang := Language.code (Input.targetLang a);
                   sender := Input.sender a;
                   timestamp := App.nowCommit w;
                   suggestedResponses := suggested;
                   translatedAudioBuffer := App.translatedAudioData w;
                   originalAudioBlob := Input.mediaBlob a;
                   videoBlob :=
                     if isVideoType (Input.type a) then Input.mediaBlob a else None;
                   isAutoReply := Some (Input.isAutoReply a);
                   detectedEmotion := emotion |}
          end
      end
  end.

(** What one [processInput] call appends to the history, given how its
    [await translateContent(...)] settles: nothing when that rejects, or when
    a later read of the result throws and the [catch] block takes over. *)
Definition committed (a : Input.t) (w : App.World) (translation : Outcome JSValue)
  : list Message :=
  match translation with
  | Threw _ => []
  | Returned translationResult =>
      (* [if (sender === 'partner') setSmartReplies(translationResult.suggestedResponses)] *)
      match (if Sender_eqb (Input.sender a) partner
             then Js.getProp "suggestedResponses" translationResult
             else Returned None) with
      | Threw _ => []
      | Returned _ =>
          (* the read of [translatedText] for [generateSpeech] is inside the
             inner [try]; the literal then reads it again *)
          match newMessage a w translationResult with
          | Returned m => [m]
          | Threw _ => []
          end
      end
  end.

End Unchecked.

(** ** What the component renders *)

Module Screen.
Import App.

(** The state the [return] statement of the component and the render
    helpers it calls read: every [useState] cell but [errorMsg], which
    nothing under the component reads. *)
Record Rendered := {
  shownLangA : Language.t;
  shownLangB : Language.t;
  shownMessages : list Message.t;
  shownAppState : AppState;
  shownCommMode : CommMode;
  shownPreference : OutputPreference;
  shownUserProfile : option UserProfile.t;
  shownProfileSetup : bool;
  shownAiResponderActive : bool;
  shownSmartReplies : list string;
  shownRecordingWho : option Sender;
  shownInterimText : string;
  shownTextInput : string;
  shownMediaRecording : bool;
  shownMediaTimer : Z }.

Definition rendered (s : Store) : Rendered :=
  {| shownLangA := langA s;
     shownLangB := langB s;
     shownMessages := messages s;
     shownAppState := appState s;
     shownCommMode := commMode s;
     shownPreference := preference s;
     shownUserProfile := userProfile s;
     shownProfileSetup := showProfileSetup s;
     shownAiResponderActive := isAiResponderActive s;
     shownSmartReplies := smartReplies s;
     shownRecordingWho := recordingWho s;
     shownInterimText := interimText s;
     shownTextInput := textInput s;
     shownMediaRecording := isMediaRecording s;
     shownMediaTimer := mediaTimer s |}.

End Screen.

(** ** Samples of gateway bodies *)

Module BodySamples.




End BodySamples.

(** ** [components/ProfileSetup]: the profile form *)

Module ProfileSetup.

(** [arr.includes(x)] for strings. *)
Definition includes (x : string) (arr : list string) : bool :=
  existsb (String.eqb x) arr.

(** [arr.filter(t => t !== x)] *)
Definition without (x : string) (arr : list string) : list string :=
  filter (fun t => negb (String.eqb t x)) arr.

(** The form shown when no profile exists yet. *)
Definition emptyForm : UserProfile.t :=
  UserProfile.mk "" "en-US" [] [] "".

(** [useState(initialProfile || {...})] *)
Definition initialForm (initialProfile : option UserProfile.t) : UserProfile.t :=
  match initialProfile with
  | Some profile => profile
  | None => emptyForm
  end.

Definition toggleTopic (topic : string) (prev : UserProfile.t) : UserProfile.t :=
  let exists_ := includes topic (UserProfile.conversationTypes prev) in
  if exists_ then
    UserProfile.mk (UserProfile.name prev) (UserProfile.primaryLanguage prev)
      (without topic (UserProfile.conversationTypes prev))
      (UserProfile.tone prev) (UserProfile.bio prev)
  else if (4 <=? length (UserProfile.conversationTypes prev))%nat then prev
  else
    UserProfile.mk (UserProfile.name prev) (UserProfile.primaryLanguage prev)
      (UserProfile.conversationTypes prev ++ [topic])
      (UserProfile.tone prev) (UserProfile.bio prev).

Definition toggleTone (selectedTone : string) (prev : UserProfile.t) : UserProfile.t :=
  let currentTones := UserProfile.tone prev in
  let exists_ := includes selectedTone currentTones in
  if exists_ then
    UserProfile.mk (UserProfile.name prev) (UserProfile.primaryLanguage prev)
      (UserProfile.conversationTypes prev)
      (without selectedTone currentTones) (UserProfile.bio prev)
  else if (4 <=? length currentTones)%nat then prev
  else
    UserProfile.mk (UserProfile.name prev) (UserProfile.primaryLanguage prev)
      (UserProfile.conversationTypes prev)
      (currentTones ++ [selectedTone]) (UserProfile.bio prev).

(** What the user does to the form. *)
Inductive Edit :=
| TypeName (value : string)
| SelectLanguage (code : string)
| ClickTopic (topic : string)
| ClickTone (tone : string)
| TypeBio (value : string).

Definition apply (formData : UserProfile.t) (e : Edit) : UserProfile.t :=
  match e with
  | TypeName value =>
      UserProfile.mk value (UserProfile.primaryLanguage formData)
        (UserProfile.conversationTypes formData) (UserProfile.tone formData)
        (UserProfile.bio formData)
  | SelectLanguage code =>
      UserProfile.mk (UserProfile.name formData) code
        (UserProfile.conversationTypes formData) (UserProfile.tone formData)
        (UserProfile.bio formData)
  | ClickTopic topic => toggleTopic topic formData
  | ClickTone tone => toggleTone tone formData
  | TypeBio value =>
      UserProfile.mk (UserProfile.name formData) (UserProfile.primaryLanguage formData)
        (UserProfile.conversationTypes formData) (UserProfile.tone formData) value
  end.

Definition edited (formData : UserProfile.t) (edits : list Edit) : UserProfile.t :=
  fold_left apply edits formData.

Definition isFormValid (formData : UserProfile.t) : bool :=
  ((0 <? String.length (UserProfile.name formData))
   && (0 <? length (UserProfile.conversationTypes formData))
   && (0 <? length (UserProfile.tone formData)))%nat%bool.

(** The save button: the profile handed to [onSave], if any. *)
Definition clickSave (formData : UserProfile.t) : option UserProfile.t :=
  if isFormValid formData then Some formData else None.

(** Each list of the form holds at most four items, none of them twice. *)
Definition within (p : UserProfile.t) : Prop :=
  (length (UserProfile.conversationTypes p) <= 4 /\ NoDup (UserProfile.conversationTypes p))
  /\ (length (UserProfile.tone p) <= 4 /\ NoDup (UserProfile.tone p)).

End ProfileSetup.

(** ** [components/ChatMessage]: one message of the history *)

(** [s.includes(c)] for one character. *)
Fixpoint hasChar (c : ascii) (s : string) : bool :=
  match s with
  | EmptyString => false
  | String c' s' => (Ascii.eqb c' c || hasChar c s')%bool
  end.

Module ChatMessage.

(** [code.split('-')[0]] *)
Definition beforeDash (code : string) : string :=
  match App.split "-" code with
  | piece :: _ => piece
  | [] => ""
  end.

Section Message.

Variable message : Message.t.
Variable preference : OutputPreference.

Definition isUser : bool := Sender_eqb (Message.sender message) user.

Definition showTranslated : bool := OutputPreference_eqb preference TRANSLATED.

Definition mainText : string :=
  if showTranslated then Message.translatedText message else Message.originalText message.

Definition subText : string :=
  if showTranslated then Message.originalText message else Message.translatedText message.

Definition langLabel : string :=
  if showTranslated then beforeDash (Message.targetLang message)
  else beforeDash (Message.originalLang message).

(** What pressing the listen button does. *)
Inductive Playback :=
| PlayTranslated (buffer : Bytes)     (* [onPlayAudio(message.translatedAudioBuffer)] *)
| PlayOriginal (blob : Blob)          (* [new Audio(URL.createObjectURL(blob)).play()] *)
| NoPlayback.

Definition handlePlayAudio : Playback :=
  match showTranslated, Message.translatedAudioBuffer message, Message.originalAudioBlob message with
  | true, Some buffer, _ => PlayTranslated buffer
  | false, _, Some blob => PlayOriginal blob
  | _, _, _ => NoPlayback
  end.

(** Whether the listen button is rendered. *)
Definition hasAudioSource : bool :=
  if showTranslated
  then match Message.translatedAudioBuffer message with Some _ => true | None => false end
  else match Message.originalAudioBlob message with Some _ => true | None => false end.

(** Whether the video player is rendered, and with which blob. *)
Definition videoShown : option Blob :=
  if isVideoType (Message.type message) then Message.videoBlob message else None.

End Message.

End ChatMessage.

(** ** Further samples *)

Module MoreSamples.

(** The message of the "Hello" scenario. *)
Definition hola_message : Message.t :=
  App.newMessage Samples.helloInput
    (Samples.world (Returned Samples.hola) (Threw "tts") (Threw "off")) Samples.hola.

(** A world in which translation and synthesis succeed and the playback of
    the audio turns out as given. *)
Definition worldWithPlayback (playback : Outcome unit) : App.World :=
  {| App.now := 1700000000000%Z; App.canvasContext := false; App.dataUrl := "";
     App.translation := Returned Samples.hola; App.speech := Returned [Byte.x52];
     App.nowCommit := 1700000000250%Z; App.avatar := Threw "off";
     App.playback := playback |}.

(** The state of a live video call with a mounted preview of 640 by 480. *)
Definition cameraStore : App.Store :=
  {| App.langA := Samples.english; App.langB := Samples.spanish; App.messages := [];
     App.appState := LISTENING; App.commMode := LIVE_VIDEO; App.preference := TRANSLATED;
     App.errorMsg := None; App.userProfile := Some Samples.alex;
     App.showProfileSetup := false; App.isAiResponderActive := false;
     App.smartReplies := []; App.recordingWho := Some partner; App.interimText := "";
     App.textInput := ""; App.isMediaRecording := false; App.mediaTimer := 0%Z;
     App.videoRef := Some {| App.videoWidth := 640%Z; App.videoHeight := 480%Z |};
     App.mediaRecorderRef := false; App.chunksRef := []; App.recognitionRef := true |}.

(** A world whose canvas gives a frame. *)
Definition frameWorld : App.World :=
  {| App.now := 1700000000000%Z; App.canvasContext := true;
     App.dataUrl := "data:image/jpeg;base64,QUJD";
     App.translation := Returned Samples.station; App.speech := Threw "tts";
     App.nowCommit := 1700000000250%Z; App.avatar := Threw "off";
     App.playback := Returned tt |}.

(** The partner's utterance on a live video call. *)
Definition videoInput : Input.t :=
  Input.mk "Donde esta la estacion?" Samples.spanish Samples.english partner video_live
    None false.

(** The initial state with "Hello" typed into the text box. *)
Definition typedStore : App.Store := App.with_textInput "Hello" Samples.initialStore.

End MoreSamples.

(** ** [services/geminiService]: the avatar's reply and speech synthesis *)

Module GeminiAvatar.

(** The line a turn of the history contributes to the avatar's prompt. *)
Definition historyLine (m : Message.t) : string :=
  ((if Sender_eqb (Message.sender m) user then "Me" else "Partner")
     ++ ": " ++ Message.originalText m)%string.

Definition avatarRequest (incomingText : string) (userProfile : UserProfile.t)
    (history : list Message.t) : GeminiService.GenerateContentRequest :=
  let toneString := JsString.join ", " (UserProfile.tone userProfile) in
  let systemInstruction :=
    ("
    You are an AI Digital Avatar acting on behalf of "
     ++ UserProfile.name userProfile
     ++ ".
    "
     ++ UserProfile.name userProfile
     ++ " is currently unavailable/busy and cannot answer the call/message directly.
    
    YOUR PROFILE:
    - Name: "
     ++ UserProfile.name userProfile
     ++ "
    - Tone: "
     ++ toneString
     ++ "
    - Bio: "
     ++ UserProfile.bio userProfile
     ++ "
    - Interests: "
     ++ JsString.join ", " (UserProfile.conversationTypes userProfile)
     ++ "

    YOUR TASK:
    1. Read the incoming message from the Partner.
    2. Generate a response in "
     ++ UserProfile.primaryLanguage userProfile
     ++ " (Language Code: "
     ++ UserProfile.primaryLanguage userProfile
     ++ ") acting AS "
     ++ UserProfile.name userProfile
     ++ ".
    3. Explain briefly that you are their AI assistant if the context implies urgency, otherwise just handle the conversation naturally based on the bio.
    4. Keep it concise (under 2 sentences).
  ")%string in
  let historyText :=
    JsString.join GeminiService.newline (map historyLine (sliceLast 5 history)) in
  {| GeminiService.model := "gemini-2.5-flash";
     GeminiService.contents :=
       GeminiService.TextOnly
         ("HISTORY:" ++ GeminiService.newline ++ historyText
            ++ GeminiService.newline ++ GeminiService.newline
            ++ "INCOMING MESSAGE:" ++ GeminiService.newline ++ incomingText)%string;
     GeminiService.systemInstruction := systemInstruction;
     GeminiService.responseMimeType := "application/json" |}.

(** The reply used when the service gives none. *)
Definition unavailable : string := "I am currently unavailable.".

Section Client.

(** [JSON.parse]: [None] when it throws a SyntaxError. *)
Variable JSON_parse : string -> option JSValue.

(** Whether a number literal denotes zero; no other number is falsy, [NaN]
    not being JSON. *)
Variable isZero : string -> bool.

(** [ai.models.generateContent]: the promise rejects, or resolves to a
    response whose [text] is a string or [undefined]. *)
Variable generateContent
  : GeminiService.GenerateContentRequest -> Outcome (option string).

(** [!v] is false. *)
Definition truthy (v : JSValue) : bool :=
  match v with
  | JNull => false
  | JBool b => b
  | JNumber literal => negb (isZero literal)
  | JString s => negb (JsString.falsy s)
  | JArray _ => true
  | JObject _ => true
  end.

(** [response.text || fallback] *)
Definition textOr (response_text : option string) (fallback : string) : string :=
  match response_text with
  | Some t => JsString.orElse t fallback
  | None => fallback
  end.

(** The value the promise resolves to; the declared type is [string], the
    value is whatever the parsed [replyText] is when that is truthy. *)
Definition generateAvatarReply (incomingText : string) (userProfile : UserProfile.t)
    (history : list Message.t) : Outcome JSValue :=
  match generateContent (avatarRequest incomingText userProfile history) with
  | Threw e => Threw e
  | Returned response_text =>
      match JSON_parse (textOr response_text "{}") with
      | Some json =>
          match Js.getProp "replyText" json with
          | Returned (Some replyText) =>
              if truthy replyText then Returned replyText
              else Returned (JString unavailable)
          | Returned None => Returned (JString unavailable)
          | Threw _ => Returned (JString (textOr response_text unavailable))
          end
      | None => Returned (JString (textOr response_text unavailable))
      end
  end.

End Client.

End GeminiAvatar.

Module GeminiSpeech.

(** What [generateSpeech] reads of the response; every link of the chain
    [candidates?.[0]?.content?.parts?.[0]?.inlineData?.data] may be absent. *)
Record InlineData := { data : option string }.
Record Part := { inlineData : option InlineData }.
Record Content := { parts : option (list Part) }.
Record Candidate := { content : option Content }.
Record Response := { candidates : option (list Candidate) }.

(** [x?.f] *)
Definition chain {A B} (x : option A) (f : A -> option B) : option B :=
  match x with
  | Some a => f a
  | None => None
  end.

Definition base64Audio (response : Response) : option string :=
  chain (chain (chain (chain (chain (candidates response) (fun cs => nth_error cs 0))
                         content)
                  parts)
           (fun ps => chain (nth_error ps 0) inlineData))
    data.

Section Client.

(** [decodeBase64] of [utils/audioUtils]: the bytes, or the exception it
    raises on text that is not base64. *)
Variable decodeBase64 : string -> Outcome Bytes.

(** [ai.models.generateContent] for the speech model. *)
Variable generateContent : string -> string -> Outcome Response.

Definition generateSpeech (text voiceName : string) : Outcome Bytes :=
  match generateContent text voiceName with
  | Threw e => Threw e
  | Returned response =>
      match base64Audio response with
      | Some audio =>
          if JsString.falsy audio then Threw "No audio data returned from Gemini"
          else decodeBase64 audio
      | None => Threw "No audio data returned from Gemini"
      end
  end.

End Client.

End GeminiSpeech.

(** ** [src/App.tsx]: live listening, media recording and the small controls *)

Module Capture.
Import App.

(** Cell updates of the cells the earlier handlers never write. *)

Definition with_commMode (v : CommMode) (s : Store) : Store :=
  mkStore (langA s) (langB s) (messages s) (appState s) v (preference s)
    (errorMsg s) (userProfile s) (showProfileSetup s) (isAiResponderActive s)
    (smartReplies s) (recordingWho s) (interimText s) (textInput s)
    (isMediaRecording s) (mediaTimer s) (videoRef s) (mediaRecorderRef s)
    (chunksRef s) (recognitionRef s).

Definition with_preference (v : OutputPreference) (s : Store) : Store :=
  mkStore (langA s) (langB s) (messages s) (appState s) (commMode s) v
    (errorMsg s) (userProfile s) (showProfileSetup s) (isAiResponderActive s)
    (smartReplies s) (recordingWho s) (interimText s) (textInput s)
    (isMediaRecording s) (mediaTimer s) (videoRef s) (mediaRecorderRef s)
    (chunksRef s) (recognitionRef s).

Definition with_isAiResponderActive (v : bool) (s : Store) : Store :=
  mkStore (langA s) (langB s) (messages s) (appState s) (commMode s) (preference s)
    (errorMsg s) (userProfile s) (showProfileSetup s) v
    (smartReplies s) (recordingWho s) (interimText s) (textInput s)
    (isMediaRecording s) (mediaTimer s) (videoRef s) (mediaRecorderRef s)
    (chunksRef s) (recognitionRef s).

Definition with_mediaTimer (v : Z) (s : Store) : Store :=
  mkStore (langA s) (langB s) (messages s) (appState s) (commMode s) (preference s)
    (errorMsg s) (userProfile s) (showProfileSetup s) (isAiResponderActive s)
    (smartReplies s) (recordingWho s) (interimText s) (textInput s)
    (isMediaRecording s) v (videoRef s) (mediaRecorderRef s)
    (chunksRef s) (recognitionRef s).

Definition with_mediaRecorderRef (v : bool) (s : Store) : Store :=
  mkStore (langA s) (langB s) (messages s) (appState s) (commMode s) (preference s)
    (errorMsg s) (userProfile s) (showProfileSetup s) (isAiResponderActive s)
    (smartReplies s) (recordingWho s) (interimText s) (textInput s)
    (isMediaRecording s) (mediaTimer s) (videoRef s) v
    (chunksRef s) (recognitionRef s).

Definition with_chunksRef (v : list Bytes) (s : Store) : Store :=
  mkStore (langA s) (langB s) (messages s) (appState s) (commMode s) (preference s)
    (errorMsg s) (userProfile s) (showProfileSetup s) (isAiResponderActive s)
    (smartReplies s) (recordingWho s) (interimText s) (textInput s)
    (isMediaRecording s) (mediaTimer s) (videoRef s) (mediaRecorderRef s)
    v (recognitionRef s).

Definition with_recognitionRef (v : bool) (s : Store) : Store :=
  mkStore (langA s) (langB s) (messages s) (appState s) (commMode s) (preference s)
    (errorMsg s) (userProfile s) (showProfileSetup s) (isAiResponderActive s)
    (smartReplies s) (recordingWho s) (interimText s) (textInput s)
    (isMediaRecording s) (mediaTimer s) (videoRef s) (mediaRecorderRef s)
    (chunksRef s) v.

(** Commands to the devices besides the effects of [App.Effect]. *)
Inductive Command :=
| AbortRecognition
| StartRecognition (lang : string)
| GetUserMedia (video audio : bool)
| StartRecorder.

(** What a capture handler emits: an effect of the orchestrator or a device
    command, in order. *)
Definition Event : Type := Effect + Command.

Definition CaptureHandler := Store -> Store * list Event.

Definition lift (h : Handler) : CaptureHandler :=
  fun s => let (s', es) := h s in (s', map inl es).

Definition command (c : Command) : CaptureHandler := fun s => (s, [inr c]).

Definition andThen (h k : CaptureHandler) : CaptureHandler :=
  fun s => let (s1, e1) := h s in let (s2, e2) := k s1 in (s2, e1 ++ e2).

Definition when (b : bool) (h : CaptureHandler) : CaptureHandler :=
  if b then h else lift skip.

Definition reading (k : Store -> CaptureHandler) : CaptureHandler := fun s => k s s.

Declare Scope capture_scope.
Delimit Scope capture_scope with capture.
Bind Scope capture_scope with CaptureHandler.
Notation "h ;; k" := (andThen h k) (at level 61, right associativity) : capture_scope.
Local Open Scope capture_scope.

(** The effects of the orchestrator among the events. *)
Fixpoint coreEffects (es : list Event) : list Effect :=
  match es with
  | [] => []
  | inl e :: rest => e :: coreEffects rest
  | inr _ :: rest => coreEffects rest
  end.

(** *** The small controls *)

Definition selectMode (mode : CommMode) : CaptureHandler :=
  lift (update (with_commMode mode)) ;; lift (triggerHaptic HapticUtils.selection).

Definition selectPreference (p : OutputPreference) : CaptureHandler :=
  lift (update (with_preference p)) ;; lift (triggerHaptic HapticUtils.selection).

Definition toggleAiResponder (view : Store) : CaptureHandler :=
  lift (update (with_isAiResponderActive (negb (isAiResponderActive view)))) ;;
  lift (triggerHaptic HapticUtils.selection).

(** *** The recording timer *)

(** [Number.MAX_SAFE_INTEGER]: up to it the integers are numbers of
    JavaScript and the arithmetic of [formatTime] on them is exact. *)
Definition MAX_SAFE_INTEGER : Z := 9007199254740991.

(** [seconds.toString().padStart(2, '0')] *)
Definition padStart2 (s : string) : string :=
  match s with
  | EmptyString => "00"
  | String c EmptyString => String "0" (String c EmptyString)
  | _ => s
  end.

Definition formatTime (seconds : Z) : string :=
  let mins := (seconds / 60)%Z in
  let secs := Z.rem seconds 60 in
  (JsString.ofNumber mins ++ ":" ++ padStart2 (JsString.ofNumber secs))%string.

(** The effect on [isMediaRecording]: while recording an interval ticks
    every second, otherwise the timer is reset. *)
Definition tick : CaptureHandler :=
  lift (update (fun s => with_mediaTimer (mediaTimer s + 1) s)).

Definition onRecordingChanged (view : Store) : CaptureHandler :=
  if isMediaRecording view then lift skip
  else lift (update (with_mediaTimer 0)).

(** *** Live listening *)

(** [recognition.onstart] of [startLiveListening sender] *)
Definition onLiveStart (who : Sender) : CaptureHandler :=
  lift (setRecordingWho (Some who)) ;;
  lift (setAppState LISTENING) ;;
  lift (setInterimText "") ;;
  lift (triggerHaptic HapticUtils.selection).

(** [recognition.onerror] of [startLiveListening] *)
Definition onLiveError (error : string) : CaptureHandler :=
  if String.eqb error "no-speech" then lift skip
  else
    lift (emit (ConsoleError "Speech Rec Error")) ;;
    lift (setRecordingWho None) ;;
    lift (setAppState IDLE) ;;
    lift (triggerHaptic HapticUtils.error).

Definition AppState_eqb (a b : AppState) : bool :=
  match a, b with
  | IDLE, IDLE | LISTENING, LISTENING | RECORDING, RECORDING
  | TRANSLATING, TRANSLATING | ERROR, ERROR => true
  | _, _ => false
  end.

(** [recognition.onend] of [startLiveListening]: the phase it tests is the
    one of the snapshot [startLiveListening] closed over. *)
Definition onLiveEnd (view : Store) : CaptureHandler :=
  lift (setRecordingWho None) ;;
  when (AppState_eqb (appState view) LISTENING) (lift (setAppState IDLE)).

(** [startLiveListening sender], given whether the browser has a
    speech-recognition engine. *)
Definition startLiveListening (view : Store) (speechSupported : bool) (who : Sender)
  : CaptureHandler :=
  if negb speechSupported then
    lift (handleError "Speech recognition not supported in this browser.")
  else
    reading (fun live => when (recognitionRef live) (command AbortRecognition)) ;;
    lift (update (with_recognitionRef true)) ;;
    command (StartRecognition (Language.code (spokenBy view who))).

Definition stopLiveListening : CaptureHandler :=
  reading (fun live =>
    when (recognitionRef live)
      (lift (emit StopRecognition) ;; lift (triggerHaptic HapticUtils.selection))).

Definition toggleLiveListening (view : Store) (speechSupported : bool) (who : Sender)
  : CaptureHandler :=
  lift (triggerHaptic HapticUtils.selection) ;;
  if (AppState_eqb (appState view) LISTENING
      && match recordingWho view with
         | Some w => Sender_eqb w who
         | None => false
         end)%bool
  then stopLiveListening
  else startLiveListening view speechSupported who.

(** *** Media recording *)

(** [startMediaRecording mode sender], given how [getUserMedia] and the
    construction of the recorder turn out. *)
Definition startMediaRecording (view : Store) (mode : CommMode) (who : Sender)
    (devices : Outcome unit) (speechSupported : bool) : CaptureHandler :=
  command (GetUserMedia (CommMode_eqb mode REC_VIDEO) true) ;;
  match devices with
  | Returned _ =>
      lift (update (with_mediaRecorderRef true)) ;;
      lift (update (with_chunksRef [])) ;;
      command StartRecorder ;;
      lift (setIsMediaRecording true) ;;
      lift (setRecordingWho (Some who)) ;;
      lift (setAppState RECORDING) ;;
      lift (triggerHaptic HapticUtils.heavy) ;;
      when speechSupported
        (lift (update (with_recognitionRef true)) ;;
         command (StartRecognition (Language.code (spokenBy view who))))
  | Threw _ =>
      lift (emit (ConsoleError "Media recording init failed")) ;;
      lift (handleError "Could not access camera/microphone")
  end.

(** [mediaRecorder.ondataavailable]: a chunk of size 0 is dropped. *)
Definition onDataAvailable (chunk : Bytes) : CaptureHandler :=
  match chunk with
  | [] => lift skip
  | _ :: _ => lift (update (fun s => with_chunksRef (chunksRef s ++ [chunk]) s))
  end.

(** [recognition.onresult] of [startMediaRecording]: the transcripts from
    [resultIndex] on, final or not, joined. *)
Definition onRecordingResult (transcripts : list string) : CaptureHandler :=
  lift (setInterimText (String.concat "" transcripts)).

(** What happens between the start and the stop of a recording. *)
Inductive RecordingEvent :=
| Data (chunk : Bytes)
| Result (transcripts : list string)
| Tick.

Definition onRecordingEvent (e : RecordingEvent) : CaptureHandler :=
  match e with
  | Data chunk => onDataAvailable chunk
  | Result transcripts => onRecordingResult transcripts
  | Tick => tick
  end.

Fixpoint during (events : list RecordingEvent) : CaptureHandler :=
  match events with
  | [] => lift skip
  | e :: rest => onRecordingEvent e ;; during rest
  end.

(** A whole recording: the start, what happens while it runs, the stop
    pressed on the render that shows the resulting state, and what still
    happens before the timer of the stop fires.  The recorder is started
    without a timeslice, so its data arrives after [stop()]: among the events
    after the stop. *)
Definition record (view : Store) (mode : CommMode) (who : Sender) (speechSupported : bool)
    (before after : list RecordingEvent) : CaptureHandler :=
  startMediaRecording view mode who (Returned tt) speechSupported ;;
  during before ;;
  reading (fun live => lift (stopMediaRecording live)) ;;
  during after.

(** The chunks kept of the data events, in order. *)
Fixpoint keptChunks (events : list RecordingEvent) : list Bytes :=
  match events with
  | [] => []
  | Data (b :: chunk) :: rest => (b :: chunk) :: keptChunks rest
  | _ :: rest => keptChunks rest
  end.

(** The interim transcript after the events, given the one before them. *)
Fixpoint lastTranscript (before : string) (events : list RecordingEvent) : string :=
  match events with
  | [] => before
  | Result transcripts :: rest => lastTranscript (String.concat "" transcripts) rest
  | _ :: rest => lastTranscript before rest
  end.

Definition ticks (events : list RecordingEvent) : Z :=
  Z.of_nat (length (filter (fun e => match e with Tick => true | _ => false end) events)).

End Capture.

(** ** Observations on effects, and the persisted form of a profile *)

Module Observe.
Import App.

(** The calls of [translateContent] among the effects, with their arguments. *)
Fixpoint translateCalls (es : list Effect)
  : list (string * Language.t * Language.t * option UserProfile.t
          * list Message.t * option string) :=
  match es with
  | [] => []
  | CallTranslateContent input src tgt profile history frame :: rest =>
      (input, src, tgt, profile, history, frame) :: translateCalls rest
  | _ :: rest => translateCalls rest
  end.

(** The audio started among the effects. *)
Fixpoint startedAudio (es : list Effect) : list Bytes :=
  match es with
  | [] => []
  | StartAudio data :: rest => data :: startedAudio rest
  | _ :: rest => startedAudio rest
  end.

(** The profiles written to local storage among the effects. *)
Fixpoint persisted (es : list Effect) : list UserProfile.t :=
  match es with
  | [] => []
  | PersistProfile profile :: rest => profile :: persisted rest
  | _ :: rest => persisted rest
  end.

(** A profile as the JavaScript object the form builds, fields in the order
    of the [UserProfile] literal. *)
Definition profileToJS (p : UserProfile.t) : JSValue :=
  JObject [("name", JString (UserProfile.name p));
           ("primaryLanguage", JString (UserProfile.primaryLanguage p));
           ("conversationTypes", JArray (map JString (UserProfile.conversationTypes p)));
           ("tone", JArray (map JString (UserProfile.tone p)));
           ("bio", JString (UserProfile.bio p))].

(** The final transcripts of a recognition event, joined in order. *)
Definition finalTranscript (results : list (bool * string)) : string :=
  String.concat "" (map snd (filter fst results)).

(** The interim transcripts of a recognition event, joined in order. *)
Definition interimTranscript (results : list (bool * string)) : string :=
  String.concat "" (map snd (filter (fun r => negb (fst r)) results)).

(** The [processInput] calls waiting in a timer queue. *)
Definition pendingCalls (queue : list (Z * Callback)) : nat :=
  length (filter (fun t => match snd t with CallProcessInput _ _ => true | _ => false end)
            queue).

(** A queue holding nothing but clearings of errors and inputs of the local
    user. *)
Definition localOnly (queue : list (Z * Callback)) : Prop :=
  Forall (fun t => match snd t with
                   | ClearError => True
                   | CallProcessInput _ a => Input.sender a = user
                   | FinishRecording _ => False
                   end) queue.

End Observe.

Module SavedSamples.

(** The text [JSON.stringify] gives for Alex's profile. *)
Definition savedProfileText : string :=
  ("{" ++ Samples.lit "name" ++ ":" ++ Samples.lit "Alex" ++ ","
       ++ Samples.lit "primaryLanguage" ++ ":" ++ Samples.lit "en-US" ++ ","
       ++ Samples.lit "conversationTypes" ++ ":[" ++ Samples.lit "Travel" ++ "],"
       ++ Samples.lit "tone" ++ ":[" ++ Samples.lit "Formal" ++ "],"
       ++ Samples.lit "bio" ++ ":" ++ Samples.lit "" ++ "}")%string.

(** A restriction of [JSON.parse] to that document. *)
Definition parseSavedOnly (raw : string) : option JSValue :=
  if String.eqb raw savedProfileText then Some (Observe.profileToJS Samples.alex) else None.

(** A restriction of [JSON.parse] to the document [false]. *)
Definition parseFalseOnly (raw : string) : option JSValue :=
  if String.eqb raw "false" then Some (JBool false) else None.

(** A speech response with one candidate carrying one part of audio. *)
Definition speechResponse (encoded : string) : GeminiSpeech.Response :=
  {| GeminiSpeech.candidates :=
       Some [ {| GeminiSpeech.content :=
                   Some {| GeminiSpeech.parts :=
                             Some [ {| GeminiSpeech.inlineData :=
                                         Some {| GeminiSpeech.data := Some encoded |} |} ] |} |} ] |}.

(** A restriction of [decodeBase64] to one sample, the encoding of the three
    bytes 65, 66, 67. *)
Definition decodeSampleOnly (encoded : string) : Outcome Bytes :=
  if String.eqb encoded "QUJD" then Returned [Byte.x41; Byte.x42; Byte.x43]
  else Threw "InvalidCharacterError".

End SavedSamples.

(** ** Sessions built from the handlers *)

Module Scenarios.
Import App Capture.
Local Open Scope capture_scope.

(** The local user types "Hello" right after mount and the translation call
    rejects. *)
Definition failedHello : Handler :=
  processInput Samples.initialStore Samples.helloInput
    (Samples.world (Threw "503") (Threw "unused") (Threw "unused")).

(** The partner taps the microphone on the render [view], the engine reports
    that it runs, and the responder toggle is pressed while the partner
    speaks: the state in which the partner's result then arrives. *)
Definition toggledWhilePartnerSpeaks (view : Store) : Store :=
  fst ((startLiveListening view true partner ;;
        onLiveStart partner ;;
        reading (fun shown => toggleAiResponder shown)) view).

(** The partner's utterance as one final recognition result. *)
Definition stationResult : list (bool * string) := [(true, "Donde esta la estacion?")].

(** The partner's result arrives; the handler is the one of the render on
    which the microphone was tapped. *)
Definition partnerResultAfterToggle (view : Store) (w : World) : Handler :=
  onLiveResult view partner stationResult w.


(** A world in which the translation of the partner's utterance and the
    avatar's reply both succeed. *)
Definition answered : World :=
  Samples.world (Returned Samples.station) (Threw "tts")
    (Returned "At the corner, two blocks north.").

(** A live session of the local user that shows the interim transcript "Ho"
    and ends on a network error, followed by a switch to voice notes. *)
Definition abandonedLiveSession : CaptureHandler :=
  startLiveListening Samples.initialStore true user ;;
  onLiveStart user ;;
  lift (onLiveResult Samples.initialStore user [(false, "Ho")] answered) ;;
  onLiveError "network" ;;
  onLiveEnd Samples.initialStore ;;
  selectMode REC_AUDIO.

Definition afterAbandonedSession : Store := fst (abandonedLiveSession Samples.initialStore).

(** A voice note recorded from that state during which the recognition
    engine reports nothing; the recorder delivers its data after the stop. *)
Definition silentVoiceNote : CaptureHandler :=
  record afterAbandonedSession REC_AUDIO user true [] [Data [Byte.x1a; Byte.x45]].

End Scenarios.

(** * Facts about the JavaScript helpers *)

Module JsStringFacts.
Import JsString.

Lemma length_slice0 n s : String.length (slice0 n s) = Nat.min n (String.length s).
Proof.
  revert s; induction n as [|n IH]; intros [|c s]; simpl; try reflexivity.
  now rewrite IH.
Qed.

Lemma orElse_nonempty a b : b <> "" -> orElse a b <> "".
Proof. unfold orElse; destruct a; simpl; intros H; [exact H | discriminate]. Qed.

End JsStringFacts.

Module JsFacts.
Import Js.

Lemma lookup_assign_eq k v props : lookup k (assign k v props) = Some v.
Proof.
  induction props as [|[k' v'] rest IH]; simpl.
  - now rewrite String.eqb_refl.
  - destruct (String.eqb k k') eqn:E; simpl; rewrite E; [reflexivity | exact IH].
Qed.

Lemma lookup_assign_ne k k' v props :
  k' <> k -> lookup k' (assign k v props) = lookup k' props.
Proof.
  intros Hne. induction props as [|[k0 v0] rest IH]; simpl.
  - destruct (String.eqb k' k) eqn:E; [apply String.eqb_eq in E; contradiction | reflexivity].
  - destruct (String.eqb k k0) eqn:E; simpl.
    + apply String.eqb_eq in E; subst k0.
      destruct (String.eqb k' k) eqn:E'; [apply String.eqb_eq in E'; contradiction | reflexivity].
    + destruct (String.eqb k' k0); [reflexivity | exact IH].
Qed.

Lemma map_fst_assign k v props :
  lookup k props <> None -> map fst (assign k v props) = map fst props.
Proof.
  induction props as [|[k0 v0] rest IH]; simpl; intros H.
  - contradiction.
  - destruct (String.eqb k k0) eqn:E; simpl; [reflexivity | now rewrite IH].
Qed.

End JsFacts.

(** * The translation gateway client *)

Module GeminiServiceFacts.
Import GeminiService.

Lemma stringItems_map_JString (l : list string) : stringItems (map JString l) = Some l.
Proof.
  induction l as [|x l IH]; simpl; [reflexivity | now rewrite IH].
Qed.

(** A typed response survives the trip through its JavaScript object. *)
Lemma asTranslationResponse_toJS (r : TranslationResponse.t) :
  asTranslationResponse (toJS r) = Some r.
Proof.
  destruct r as [t rs [e|]]; unfold asTranslationResponse, toJS; simpl;
    rewrite stringItems_map_JString; reflexivity.
Qed.

Lemma wellFormed_fallback (result : string) : wellFormed (toJS (fallback result)) = true.
Proof.
  unfold wellFormed. rewrite asTranslationResponse_toJS. reflexivity.
Qed.

Lemma length_append (a b : string) :
  String.length (a ++ b) = String.length a + String.length b.
Proof. induction a as [|c a IH]; simpl; [reflexivity | now rewrite IH]. Qed.

Lemma fallback_text_bounded (result : string) :
  String.length (TranslationResponse.translatedText (fallback result)) <= 103.
Proof.
  unfold fallback; cbn [TranslationResponse.translatedText].
  rewrite length_append, JsStringFacts.length_slice0.
  change (String.length "...") with 3. lia.
Qed.

Section Client.
Variable JSON_parse : string -> option JSValue.
Variable generateContent : GenerateContentRequest -> Outcome (option string).

Local Abbreviation translate := (translateContent JSON_parse generateContent).

(** A rejected gateway call is passed on to the caller. *)
Lemma translateContent_gateway_rejects text src tgt profile history image err :
  generateContent (translateRequest text src tgt profile history image) = Threw err ->
  translate text src tgt profile history image = Threw err.
Proof. unfold translateContent. now intros ->. Qed.

(** A response without text, or with an empty text, is raised as an error. *)
Lemma translateContent_no_text text src tgt profile history image body :
  generateContent (translateRequest text src tgt profile history image) = Returned body ->
  body = None \/ body = Some "" ->
  translate text src tgt profile history image = Threw "No translation returned".
Proof.
  unfold translateContent. intros -> [-> | ->]; reflexivity.
Qed.

(** Whatever [JSON.parse] accepts is returned as it is, unchecked. *)
Lemma translateContent_parsed_verbatim text src tgt profile history image body parsed :
  generateContent (translateRequest text src tgt profile history image)
    = Returned (Some body) ->
  body <> "" ->
  JSON_parse body = Some parsed ->
  translate text src tgt profile history image = Returned parsed.
Proof.
  unfold translateContent. intros -> Hne ->.
  destruct body; [contradiction | reflexivity].
Qed.

End Client.

(** C5 (as amended): when the gateway answers with a non-empty body that
    [JSON.parse] rejects, [translateContent] does not raise: it returns the
    fallback, whose text is the body without braces cut to 100 characters
    and followed by an ellipsis, whose emotion is "Neutral" and whose
    suggestions are the three generic replies; the result has the promised
    shape. *)
Theorem translateContent_unparsable_body_fallback :
  forall (JSON_parse : string -> option JSValue)
         (generateContent : GenerateContentRequest -> Outcome (option string))
         text src tgt profile history image body,
    generateContent (translateRequest text src tgt profile history image)
      = Returned (Some body) ->
    body <> "" ->
    JSON_parse body = None ->
    translateContent JSON_parse generateContent text src tgt profile history image
      = Returned (toJS (fallback body))
    /\ wellFormed (toJS (fallback body)) = true
    /\ asTranslationResponse (toJS (fallback body)) = Some (fallback body)
    /\ TranslationResponse.translatedText (fallback body)
       = (JsString.slice0 100 (JsString.removeBraces body) ++ "...")%string
    /\ String.length (TranslationResponse.translatedText (fallback body)) <= 103
    /\ TranslationResponse.detectedEmotion (fallback body) = Some "Neutral"
    /\ TranslationResponse.suggestedResponses (fallback body)
       = ["Could you repeat that?"; "I understand."; "Thank you."].
Proof.
  intros JSON_parse generateContent text src tgt profile history image body Hgw Hne Hparse.
  repeat apply conj.
  - unfold translateContent. rewrite Hgw.
    destruct body as [|c body]; [contradiction|]. simpl. now rewrite Hparse.
  - apply wellFormed_fallback.
  - apply asTranslationResponse_toJS.
  - reflexivity.
  - apply fallback_text_bounded.
  - reflexivity.
  - reflexivity.
Qed.

Lemma translateContent_unparsable_body_fallback_witness :
  translateContent Samples.parseLegacyOnly (Samples.answering (Some "Hola {amigo"))
    "Hello" Samples.english Samples.spanish None [] None
  = Returned (toJS (TranslationResponse.mk "Hola amigo..." fallbackResponses (Some "Neutral"))).
Proof.
  exact (proj1 (translateContent_unparsable_body_fallback
                  Samples.parseLegacyOnly (Samples.answering (Some "Hola {amigo"))
                  "Hello" Samples.english Samples.spanish None [] None
                  (body := "Hola {amigo") eq_refl ltac:(discriminate) eq_refl)).
Defined.

(** C5 (as stated) fails: an empty body is not parseable, and for it
    [translateContent] raises instead of returning a fallback. *)
Lemma translateContent_empty_body_raises :
  Samples.parseLegacyOnly "" = None
  /\ translateContent Samples.parseLegacyOnly (Samples.answering (Some ""))
       "Hello" Samples.english Samples.spanish None [] None
     = Threw "No translation returned".
Proof. split; reflexivity. Qed.

End GeminiServiceFacts.

(** * Loading the persisted profile *)

Module ProfileLoadFacts.
Import ProfileLoad.

Lemma migrate_legacy props t :
  Js.lookup "tone" props = Some (JString t) ->
  migrate (JObject props) = Returned (JObject (Js.assign "tone" (JArray [JString t]) props)).
Proof. unfold migrate; simpl. now intros ->. Qed.

(** A profile whose tone is already a list is left as it is. *)
Lemma migrate_current props tones :
  Js.lookup "tone" props = Some (JArray tones) ->
  migrate (JObject props) = Returned (JObject props).
Proof. unfold migrate; simpl. now intros ->. Qed.

Lemma loadedProfile_parsed JSON_parse saved parsed parsed' :
  saved <> "" ->
  JSON_parse saved = Some parsed ->
  migrate parsed = Returned parsed' ->
  loadedProfile JSON_parse (Some saved) = Some parsed'.
Proof.
  intros Hne Hparse Hmig. unfold loadedProfile, loadProfile.
  destruct saved as [|c saved]; [contradiction|]. simpl JsString.falsy. cbv iota.
  rewrite Hparse, Hmig.
  destruct (Js.getProp "primaryLanguage" parsed') as [code|e]; [|reflexivity].
  destruct (findLanguage code); reflexivity.
Qed.

(** C9: a persisted profile whose tone is a single string is loaded with
    its tone turned into the one-element list holding that string; every
    other property keeps its value and its place. *)
Theorem legacy_tone_normalized_on_load :
  forall (JSON_parse : string -> option JSValue) saved props t,
    saved <> "" ->
    JSON_parse saved = Some (JObject props) ->
    Js.lookup "tone" props = Some (JString t) ->
    exists props',
      loadedProfile JSON_parse (Some saved) = Some (JObject props')
      /\ Js.lookup "tone" props' = Some (JArray [JString t])
      /\ (forall k, k <> "tone" -> Js.lookup k props' = Js.lookup k props)
      /\ map fst props' = map fst props
      /\ (forall profile, asUserProfile (JObject props') = Some profile ->
                          UserProfile.tone profile = [t]).
Proof.
  intros JSON_parse saved props t Hne Hparse Htone.
  exists (Js.assign "tone" (JArray [JString t]) props).
  split; [|split; [|split; [|split]]].
  - eapply loadedProfile_parsed; eauto using migrate_legacy.
  - apply JsFacts.lookup_assign_eq.
  - intros k Hk. now apply JsFacts.lookup_assign_ne.
  - apply JsFacts.map_fst_assign. rewrite Htone. discriminate.
  - intros profile. unfold asUserProfile.
    rewrite JsFacts.lookup_assign_eq.
    rewrite !JsFacts.lookup_assign_ne by discriminate.
    destruct (Js.lookup "name" props) as [[]|]; try discriminate.
    destruct (Js.lookup "primaryLanguage" props) as [[]|]; try discriminate.
    destruct (Js.lookup "conversationTypes" props) as [[]|]; try discriminate.
    destruct (Js.lookup "bio" props) as [[]|]; try discriminate.
    destruct (GeminiService.stringItems items); simpl; try discriminate.
    intros [= <-]. reflexivity.
Qed.

Lemma legacy_tone_normalized_on_load_witness :
  exists props',
    loadedProfile Samples.parseLegacyOnly (Some Samples.legacyProfileText)
      = Some (JObject props')
    /\ Js.lookup "tone" props' = Some (JArray [JString "Formal"])
    /\ (forall k, k <> "tone" ->
                  Js.lookup k props' = Js.lookup k
                    [("name", JString "Alex"); ("primaryLanguage", JString "es-ES");
                     ("conversationTypes", JArray [JString "Travel"]);
                     ("tone", JString "Formal"); ("bio", JString "")])
    /\ map fst props' = ["name"; "primaryLanguage"; "conversationTypes"; "tone"; "bio"]
    /\ (forall profile, asUserProfile (JObject props') = Some profile ->
                        UserProfile.tone profile = ["Formal"]).
Proof.
  exact (legacy_tone_normalized_on_load Samples.parseLegacyOnly
           (saved := Samples.legacyProfileText)
           (props := [("name", JString "Alex"); ("primaryLanguage", JString "es-ES");
                      ("conversationTypes", JArray [JString "Travel"]);
                      ("tone", JString "Formal"); ("bio", JString "")])
           (t := "Formal")
           ltac:(discriminate) eq_refl eq_refl).
Defined.

(** The legacy sample, end to end: the profile held after load, typed. *)
Example legacy_sample_loaded :
  option_map asUserProfile
    (loadedProfile Samples.parseLegacyOnly (Some Samples.legacyProfileText))
  = Some (Some (UserProfile.mk "Alex" "es-ES" ["Travel"] ["Formal"] ""))
  /\ loadProfile Samples.parseLegacyOnly (Some Samples.legacyProfileText)
     = [SetUserProfile
          (JObject [("name", JString "Alex"); ("primaryLanguage", JString "es-ES");
                    ("conversationTypes", JArray [JString "Travel"]);
                    ("tone", JArray [JString "Formal"]); ("bio", JString "")]);
        SetLangA Samples.spanish].
Proof. split; reflexivity. Qed.

(** Nothing stored, an empty item or a text that is not JSON: the setup
    dialog is shown and no profile is set. *)
Lemma loadProfile_absent JSON_parse :
  loadProfile JSON_parse None = [SetShowProfileSetup true]
  /\ loadProfile JSON_parse (Some "") = [SetShowProfileSetup true].
Proof. split; reflexivity. Qed.

End ProfileLoadFacts.

(** * The conversation orchestrator *)

Module AppFacts.
Import App.
Local Open Scope handler_scope.

(** ** Running handlers in sequence *)

Lemma final_andThen (h k : Handler) s : final ((h ;; k) s) = final (k (final (h s))).
Proof.
  unfold andThen, final. destruct (h s) as [s1 e1]. simpl.
  destruct (k s1) as [s2 e2]. reflexivity.
Qed.

Lemma effects_andThen (h k : Handler) s :
  effects ((h ;; k) s) = effects (h s) ++ effects (k (final (h s))).
Proof.
  unfold andThen, final, effects. destruct (h s) as [s1 e1]. simpl.
  destruct (k s1) as [s2 e2]. reflexivity.
Qed.

Lemma timers_app es es' : timers (es ++ es') = timers es ++ timers es'.
Proof.
  induction es as [|e es IH]; simpl; [reflexivity|].
  destruct e; simpl; now rewrite ?IH.
Qed.

Lemma scheduledCalls_app es es' :
  scheduledCalls (es ++ es') = scheduledCalls es ++ scheduledCalls es'.
Proof.
  induction es as [|e es IH]; simpl; [reflexivity|].
  destruct e as [ | | | | | | | | | | |cb ms]; try (simpl; now rewrite ?IH).
  destruct cb; simpl; now rewrite ?IH.
Qed.

Lemma avatarRequests_app es es' :
  avatarRequests (es ++ es') = avatarRequests es ++ avatarRequests es'.
Proof.
  induction es as [|e es IH]; simpl; [reflexivity|].
  destruct e; simpl; now rewrite ?IH.
Qed.

(** Unfolds a handler down to the world's answers. *)
Ltac run :=
  unfold processInput, finishRecording, stopMediaRecording, handleSmartReply,
    sendTextMessage, onLiveResult, runCallback, clearError, playAudio, handleError,
    setMessagesWith, avatarLogic, translatedAudioData, committed, invoke,
    reading, andThen, when, final, effects in *.

(** Splits on who sent the input. *)
Ltac by_sender a := destruct (Input.sender a) eqn:?; simpl Sender_eqb in *.

(** ** The history *)

Lemma processInput_messages view a w s :
  messages (final (processInput view a w s)) = messages s ++ committed (view, a, w).
Proof.
  run. by_sender a; destruct (translation w), (speech w),
    (OutputPreference_eqb (preference view) TRANSLATED), (playback w);
    cbn; rewrite ?app_nil_r; reflexivity.
Qed.

Lemma committed_length c : length (committed c) = if succeeds c then 1 else 0.
Proof.
  destruct c as [[view a] w]. unfold committed, succeeds.
  destruct (translation w); reflexivity.
Qed.

Lemma processInputs_messages calls : forall s,
  messages (final (processInputs calls s)) = messages s ++ flat_map committed calls.
Proof.
  induction calls as [|c calls IH]; intros s; simpl processInputs.
  - simpl. now rewrite app_nil_r.
  - rewrite final_andThen, IH. destruct c as [[view a] w].
    unfold invoke. rewrite processInput_messages. simpl flat_map.
    now rewrite app_assoc.
Qed.

Lemma flat_map_committed_length calls :
  length (flat_map committed calls) = length (filter succeeds calls).
Proof.
  induction calls as [|c calls IH]; simpl; [reflexivity|].
  rewrite length_app, committed_length, IH.
  destruct (succeeds c); reflexivity.
Qed.

(** Timers never touch the history either, except by the call they make. *)
Lemma runCallback_messages cb w s :
  exists appended,
    messages (final (runCallback cb w s)) = messages s ++ appended
    /\ length appended <= 1.
Proof.
  destruct cb as [|view a|view]; simpl runCallback.
  - exists []. split; [now rewrite app_nil_r | simpl; lia].
  - exists (committed (view, a, w)). split; [apply processInput_messages|].
    rewrite committed_length. destruct (succeeds _); lia.
  - exists (committed (view, recordingInput view s, w)). unfold finishRecording, reading.
    split; [apply processInput_messages|].
    rewrite committed_length. destruct (succeeds _); lia.
Qed.

(** C1: the history is append-only.  One invocation leaves it as it was
    or appends the message it built at the end, the latter exactly when
    its translation succeeds; over any sequence of invocations the history
    at the start is a prefix of the history at the end, in the same order
    and with the same entries, and has grown by one per successful
    invocation. *)
Theorem history_append_only :
  forall (calls : list Invocation) (s : Store),
    messages (final (processInputs calls s)) = messages s ++ flat_map committed calls
    /\ length (messages (final (processInputs calls s)))
       = length (messages s) + length (filter succeeds calls)
    /\ (forall c : Invocation,
          messages (final (invoke c s)) = messages s ++ committed c
          /\ length (committed c) = if succeeds c then 1 else 0)
    /\ (forall i m, nth_error (messages s) i = Some m ->
                    nth_error (messages (final (processInputs calls s))) i = Some m).
Proof.
  intros calls s. repeat apply conj.
  - apply processInputs_messages.
  - now rewrite processInputs_messages, length_app, flat_map_committed_length.
  - intros [[view a] w]. split; [apply processInput_messages | apply committed_length].
  - intros i m Hi. rewrite processInputs_messages.
    rewrite nth_error_app1; [exact Hi|].
    apply nth_error_Some. congruence.
Qed.

(** ** Fatal failure of the translation *)

(** What the [catch] block does when the translation call throws: the
    history is unchanged, the error message cell is set and the error
    feedback is given, one timer of 4000 ms is started whose firing clears
    the cell, and the phase is back at IDLE both right away and after the
    timer has fired. *)
Theorem fatal_translation_failure_aborts :
  forall view a w s err,
    translation w = Threw err ->
    messages (final (processInput view a w s)) = messages s
    /\ errorMsg (final (processInput view a w s))
       = Some "Processing failed. Please try again."
    /\ In (TriggerHaptic HapticUtils.error) (effects (processInput view a w s))
    /\ timers (effects (processInput view a w s)) = [(ClearError, 4000%Z)]
    /\ appState (final (processInput view a w s)) = IDLE
    /\ (forall w',
          errorMsg (final (runCallback ClearError w' (final (processInput view a w s)))) = None
          /\ appState (final (runCallback ClearError w' (final (processInput view a w s)))) = IDLE
          /\ messages (final (runCallback ClearError w' (final (processInput view a w s))))
             = messages s).
Proof.
  intros view a w s err Hthrew.
  run. rewrite Hthrew. by_sender a; cbn; intuition.
Qed.

Lemma fatal_translation_failure_aborts_witness :
  messages (final (processInput Samples.initialStore Samples.helloInput
                     (Samples.world (Threw "503") (Threw "unused") (Threw "unused"))
                     Samples.initialStore)) = [].
Proof.
  exact (proj1 (fatal_translation_failure_aborts Samples.initialStore Samples.helloInput
                  (Samples.world (Threw "503") (Threw "unused") (Threw "unused"))
                  Samples.initialStore (err := "503") eq_refl)).
Defined.

(** ** Suggestions *)

(** C4 (as amended): after a successful translation the suggestion list is,
    for a partner's message, exactly the list of candidates the translation
    returned (three when it returned three), and, for the local user's
    message, empty: the call clears it at its start and does not set it from
    the translation. *)
Theorem suggestions_after_successful_translation :
  forall view a w s translationResult,
    translation w = Returned translationResult ->
    (Input.sender a = partner ->
       smartReplies (final (processInput view a w s))
         = TranslationResponse.suggestedResponses translationResult
       /\ (length (TranslationResponse.suggestedResponses translationResult) = 3 ->
           length (smartReplies (final (processInput view a w s))) = 3))
    /\ (Input.sender a = user ->
          smartReplies (final (processInput view a w s)) = []).
Proof.
  intros view a w s tr Hok.
  assert (Hpartner : Input.sender a = partner ->
            smartReplies (final (processInput view a w s))
            = TranslationResponse.suggestedResponses tr).
  { intros Hs. run. rewrite Hok, Hs.
    destruct (speech w), (OutputPreference_eqb (preference view) TRANSLATED),
      (playback w), (userProfile view), (isAiResponderActive view), (avatar w);
      reflexivity. }
  split.
  - intros Hs. split; [auto | intros H3; now rewrite Hpartner].
  - intros Hs. run. rewrite Hok, Hs.
    destruct (speech w), (OutputPreference_eqb (preference view) TRANSLATED),
      (playback w), (userProfile view); reflexivity.
Qed.

Lemma suggestions_after_successful_translation_witness :
  smartReplies (final (processInput Samples.initialStore Samples.stationInput
                         (Samples.world (Returned Samples.station) (Threw "tts") (Threw "off"))
                         Samples.initialStore))
  = ["Two blocks north."; "I do not know."; "Follow me."].
Proof.
  exact (proj1 (proj1 (suggestions_after_successful_translation
                         Samples.initialStore Samples.stationInput
                         (Samples.world (Returned Samples.station) (Threw "tts") (Threw "off"))
                         Samples.initialStore eq_refl) eq_refl)).
Defined.

(** C4 (as stated) fails: a message of the local user whose translation
    succeeds does modify the suggestion list in that same call, emptying
    it. *)
Lemma local_user_call_clears_suggestions :
  smartReplies (Samples.store None false ["Si"; "No"; "Gracias"] None "")
    = ["Si"; "No"; "Gracias"]
  /\ smartReplies
       (final (processInput (Samples.store None false ["Si"; "No"; "Gracias"] None "")
                 Samples.helloInput
                 (Samples.world (Returned Samples.hola) (Returned []) (Threw "off"))
                 (Samples.store None false ["Si"; "No"; "Gracias"] None "")))
     = [].
Proof. split; reflexivity. Qed.

(** The list takes whatever number of candidates the gateway returned. *)
Example two_candidates_give_two_suggestions :
  smartReplies
    (final (processInput Samples.initialStore Samples.stationInput
              (Samples.world
                 (Returned (TranslationResponse.mk "Where?" ["Here."; "There."] None))
                 (Threw "tts") (Threw "off"))
              Samples.initialStore))
  = ["Here."; "There."].
Proof. reflexivity. Qed.

(** ** Speech synthesis is best effort *)

(** C6: when the translation succeeds and speech synthesis fails, the
    message is appended all the same, with the original and the translated
    text and without a synthesized-audio buffer; the phase ends at IDLE, the
    error message is not touched, and neither an error timer nor a playback
    is started. *)
Theorem synthesis_failure_keeps_message :
  forall view a w s translationResult err,
    translation w = Returned translationResult ->
    speech w = Threw err ->
    messages (final (processInput view a w s))
      = messages s ++ [newMessage a w translationResult]
    /\ Message.originalText (newMessage a w translationResult) = Input.text a
    /\ Message.translatedText (newMessage a w translationResult)
       = TranslationResponse.translatedText translationResult
    /\ Message.translatedAudioBuffer (newMessage a w translationResult) = None
    /\ appState (final (processInput view a w s)) = IDLE
    /\ errorMsg (final (processInput view a w s)) = errorMsg s
    /\ (forall ms, ~ In (SetTimeout ClearError ms) (effects (processInput view a w s)))
    /\ (forall data, ~ In (StartAudio data) (effects (processInput view a w s))).
Proof.
  intros view a w s tr err Hok Hspeech.
  repeat apply conj.
  - rewrite processInput_messages. unfold committed. now rewrite Hok.
  - reflexivity.
  - reflexivity.
  - unfold newMessage, translatedAudioData; simpl. now rewrite Hspeech.
  - run. rewrite Hok, Hspeech. by_sender a; reflexivity.
  - run. rewrite Hok, Hspeech. by_sender a; reflexivity.
  - intros ms. run. rewrite Hok, Hspeech.
    by_sender a; destruct (userProfile view), (isAiResponderActive view), (avatar w);
      cbn; intuition congruence.
  - intros data. run. rewrite Hok, Hspeech.
    by_sender a; destruct (userProfile view), (isAiResponderActive view), (avatar w);
      cbn; intuition congruence.
Qed.

(** The scenario of the specification: "Hello" from English to Spanish,
    translated as "Hola", with synthesis failing. *)
Lemma synthesis_failure_keeps_message_witness :
  messages (final (processInput Samples.initialStore Samples.helloInput
                     (Samples.world (Returned Samples.hola) (Threw "tts") (Threw "off"))
                     Samples.initialStore))
  = [Message.mk "1700000000000" text "Hello" "Hola" "en-US" "es-ES" user
       1700000000250%Z (Some ["Hola"; "Buenos dias"; "Gracias"]) (Some false)
       (Some "Neutral") None None None].
Proof.
  exact (proj1 (synthesis_failure_keeps_message Samples.initialStore Samples.helloInput
                  (Samples.world (Returned Samples.hola) (Threw "tts") (Threw "off"))
                  Samples.initialStore (err := "tts") eq_refl eq_refl)).
Defined.

(** ** The avatar's reply *)

(** Whatever call an invocation schedules is attributed to the local user,
    is a text message and is flagged as an auto-reply. *)
Lemma scheduled_calls_are_auto_replies view a w s v b :
  In (v, b) (scheduledCalls (effects (processInput view a w s))) ->
  v = view /\ Input.sender b = user /\ Input.type b = text
  /\ Input.isAutoReply b = true /\ Input.mediaBlob b = None
  /\ Input.sourceLang b = langA view /\ Input.targetLang b = langB view.
Proof.
  run.
  by_sender a; destruct (translation w), (speech w),
    (OutputPreference_eqb (preference view) TRANSLATED), (playback w),
    (userProfile view), (isAiResponderActive view), (avatar w); cbn;
    intros H; repeat (destruct H as [H|H]; [inversion H; subst; now repeat split|]);
    contradiction.
Qed.

(** Every call site that submits a partner's input passes the partner's
    language as source and the user's as target. *)
Lemma partner_call_sites view live :
  (Input.sender (recordingInput view live) = partner ->
   Input.sourceLang (recordingInput view live) = langB view
   /\ Input.targetLang (recordingInput view live) = langA view)
  /\ spokenBy view partner = langB view
  /\ heardBy view partner = langA view.
Proof.
  repeat apply conj; try reflexivity.
  unfold recordingInput. destruct (recordingWho view) as [[]|]; simpl; intuition discriminate.
Qed.



(** An invocation whose closed-over render has the responder inactive,
    whatever its text, languages, sender and type, asks for no reply of the
    avatar and schedules no other [processInput] call; the same holds of any
    sequence of such invocations. *)
Theorem inactive_responder_schedules_nothing :
  forall view a w s,
    isAiResponderActive view = false ->
    scheduledCalls (effects (processInput view a w s)) = []
    /\ avatarRequests (effects (processInput view a w s)) = []
    /\ (forall calls : list Invocation,
          Forall (fun c => isAiResponderActive (fst (fst c)) = false) calls ->
          scheduledCalls (effects (processInputs calls s)) = []).
Proof.
  assert (Hone : forall view a w s, isAiResponderActive view = false ->
            scheduledCalls (effects (processInput view a w s)) = []
            /\ avatarRequests (effects (processInput view a w s)) = []).
  { intros view a w s Hoff. run. rewrite Hoff.
    by_sender a; destruct (translation w), (speech w),
      (OutputPreference_eqb (preference view) TRANSLATED), (playback w),
      (userProfile view); split; reflexivity. }
  intros view a w s Hoff. repeat apply conj; try now apply Hone.
  intros calls Hall. revert s. induction Hall as [|[[v b] x] calls Hc _ IH]; intros s.
  - reflexivity.
  - simpl processInputs. rewrite effects_andThen, scheduledCalls_app, IH.
    unfold invoke. simpl in Hc. now rewrite (proj1 (Hone v b x s Hc)).
Qed.

Lemma inactive_responder_schedules_nothing_witness :
  scheduledCalls
    (effects (processInput Samples.initialStore Samples.stationInput
                (Samples.world (Returned Samples.station) (Returned [])
                   (Returned "At the corner, two blocks north."))
                Samples.initialStore)) = [].
Proof.
  exact (proj1 (inactive_responder_schedules_nothing Samples.initialStore
                  Samples.stationInput
                  (Samples.world (Returned Samples.station) (Returned [])
                     (Returned "At the corner, two blocks north."))
                  Samples.initialStore eq_refl)).
Defined.

(** An input of the local user, the avatar's reply among them, never
    schedules a further call: replies do not chain. *)
Lemma local_user_schedules_nothing view a w s :
  Input.sender a = user ->
  scheduledCalls (effects (processInput view a w s)) = [].
Proof.
  intros Hs. run. rewrite Hs.
  destruct (translation w), (speech w),
    (OutputPreference_eqb (preference view) TRANSLATED), (playback w),
    (userProfile view); reflexivity.
Qed.

Lemma auto_reply_does_not_chain view view' reply w s :
  scheduledCalls (effects (runCallback (CallProcessInput view (autoReplyInput view' reply)) w s))
  = [].
Proof. now apply local_user_schedules_nothing. Qed.

(** ** Recorded media *)

(** The text submitted for a recording is never empty. *)
Lemma recordingInput_text_nonempty view live : Input.text (recordingInput view live) <> "".
Proof.
  unfold recordingInput; simpl. apply JsStringFacts.orElse_nonempty. discriminate.
Qed.

(** Stopping does nothing unless a recorder is held and a recording runs. *)
Lemma stopMediaRecording_idle view s :
  mediaRecorderRef s = false \/ isMediaRecording view = false ->
  stopMediaRecording view s = (s, []).
Proof.
  unfold stopMediaRecording, reading, when.
  intros [-> | ->]; [|rewrite Bool.andb_false_r]; reflexivity.
Qed.

(** Every invocation leaves the interim transcript empty, so a recording that
    follows it and captures nothing is stopped with an empty transcript. *)
Lemma processInput_clears_interimText view a w s :
  interimText (final (processInput view a w s)) = "".
Proof.
  run. by_sender a; destruct (translation w), (speech w),
    (OutputPreference_eqb (preference view) TRANSLATED), (playback w),
    (userProfile view), (isAiResponderActive view), (avatar w); reflexivity.
Qed.

(** When a recording is stopped from a render whose interim text is empty,
    the stop releases the devices, returns the phase to IDLE and starts one
    timer of 500 ms; when it fires and the translation succeeds, the message
    appended has the placeholder "(Audio Content)" as its original text,
    not the empty string. *)
Theorem empty_transcript_uses_placeholder :
  forall view w s translationResult,
    mediaRecorderRef s = true ->
    isMediaRecording view = true ->
    interimText view = "" ->
    translation w = Returned translationResult ->
    timers (effects (stopMediaRecording view s)) = [(FinishRecording view, 500%Z)]
    /\ appState (final (stopMediaRecording view s)) = IDLE
    /\ Input.text (recordingInput view (final (stopMediaRecording view s)))
       = "(Audio Content)"
    /\ exists m,
         messages (final (runCallback (FinishRecording view) w
                            (final (stopMediaRecording view s))))
           = messages s ++ [m]
         /\ Message.originalText m = "(Audio Content)"
         /\ Message.originalText m <> "".
Proof.
  intros view w s tr Hrec Hrun Hempty Hok.
  assert (Htext : forall live, Input.text (recordingInput view live) = "(Audio Content)").
  { intros live. unfold recordingInput; simpl. now rewrite Hempty. }
  repeat apply conj.
  - unfold stopMediaRecording, reading, when. rewrite Hrec, Hrun.
    destruct (recognitionRef s); reflexivity.
  - unfold stopMediaRecording, reading, when. rewrite Hrec, Hrun.
    destruct (recognitionRef s); reflexivity.
  - apply Htext.
  - eexists. simpl runCallback. unfold finishRecording, reading.
    rewrite processInput_messages. unfold committed. rewrite Hok.
    repeat apply conj.
    + f_equal. unfold stopMediaRecording, reading, when. rewrite Hrec, Hrun.
      destruct (recognitionRef s); reflexivity.
    + apply Htext.
    + cbn [newMessage Message.originalText]. rewrite Htext. discriminate.
Qed.

Lemma empty_transcript_uses_placeholder_witness :
  Input.text
    (recordingInput (Samples.recordingStore user "")
       (final (stopMediaRecording (Samples.recordingStore user "")
                 (Samples.recordingStore user ""))))
  = "(Audio Content)".
Proof.
  exact (proj1 (proj2 (proj2
           (empty_transcript_uses_placeholder
              (Samples.recordingStore user "")
              (Samples.world (Returned Samples.station) (Threw "tts") (Threw "off"))
              (Samples.recordingStore user "")
              eq_refl eq_refl eq_refl eq_refl)))).
Defined.

(** A captured transcript is submitted as it is. *)
Example captured_transcript_is_kept :
  Input.text (recordingInput (Samples.recordingStore user "Hola")
                (Samples.recordingStore user "Hola")) = "Hola".
Proof. reflexivity. Qed.

(** ** What a committed message carries *)

(** For a translation result of the declared shape, the message
    [processInput] commits, whoever its sender and whether or not it is an
    auto-reply, has its [suggestedResponses] set to the list of that
    result. *)
Theorem committed_message_carries_suggestions :
  forall view a w s translationResult,
    translation w = Returned translationResult ->
    exists m,
      messages (final (processInput view a w s)) = messages s ++ [m]
      /\ Message.suggestedResponses m
         = Some (TranslationResponse.suggestedResponses translationResult)
      /\ Message.suggestedResponses m <> None
      /\ Message.sender m = Input.sender a
      /\ Message.isAutoReply m = Some (Input.isAutoReply a).
Proof.
  intros view a w s tr Hok. exists (newMessage a w tr).
  rewrite processInput_messages. unfold committed. rewrite Hok.
  repeat apply conj; try reflexivity. discriminate.
Qed.

Lemma committed_message_carries_suggestions_witness :
  exists m,
    messages (final (processInput Samples.respondingStore
                       (autoReplyInput Samples.respondingStore "Hello")
                       (Samples.world (Returned Samples.hola) (Returned []) (Threw "off"))
                       Samples.respondingStore))
      = [] ++ [m]
    /\ Message.suggestedResponses m = Some ["Hola"; "Buenos dias"; "Gracias"]
    /\ Message.suggestedResponses m <> None
    /\ Message.sender m = user
    /\ Message.isAutoReply m = Some true.
Proof.
  exact (committed_message_carries_suggestions Samples.respondingStore
           (autoReplyInput Samples.respondingStore "Hello")
           (Samples.world (Returned Samples.hola) (Returned []) (Threw "off"))
           Samples.respondingStore eq_refl).
Defined.

(** ** A whole turn *)

(** The timers one invocation sets: at most the avatar's reply, and at most
    one clearing of an error. *)
Lemma processInput_timers view a w s :
  timers (effects (processInput view a w s)) = []
  \/ timers (effects (processInput view a w s)) = [(ClearError, 4000%Z)]
  \/ (exists reply,
        timers (effects (processInput view a w s))
        = [(CallProcessInput view (autoReplyInput view reply), 1000%Z)])
  \/ (exists reply,
        timers (effects (processInput view a w s))
        = [(CallProcessInput view (autoReplyInput view reply), 1000%Z);
           (ClearError, 4000%Z)]).
Proof.
  run.
  by_sender a; destruct (translation w), (speech w),
    (OutputPreference_eqb (preference view) TRANSLATED), (playback w),
    (userProfile view), (isAiResponderActive view), (avatar w); cbn; eauto 6.
Qed.

Lemma local_user_timers view a w s :
  Input.sender a = user ->
  timers (effects (processInput view a w s)) = []
  \/ timers (effects (processInput view a w s)) = [(ClearError, 4000%Z)].
Proof.
  intros Hs. run. rewrite Hs.
  destruct (translation w), (speech w),
    (OutputPreference_eqb (preference view) TRANSLATED), (playback w),
    (userProfile view); cbn; auto.
Qed.

Lemma settle_no_timers worlds s : snd (settle worlds [] s) = [].
Proof. destruct worlds; reflexivity. Qed.

Lemma settle_clearError w worlds due rest s :
  snd (settle (w :: worlds) ((due, ClearError) :: rest) s)
  = snd (settle worlds rest (final (clearError s))).
Proof.
  simpl. unfold scheduleAll; simpl.
  destruct (settle worlds rest _) as [[s2 e2] pending]. reflexivity.
Qed.

Lemma settle_call w worlds due view a rest s :
  snd (settle (w :: worlds) ((due, CallProcessInput view a) :: rest) s)
  = snd (settle worlds
           (fold_left (fun q t => schedule (due + snd t) (fst t) q)
              (timers (effects (processInput view a w s))) rest)
           (final (processInput view a w s))).
Proof.
  simpl. unfold scheduleAll, effects, final.
  destruct (processInput view a w s) as [s1 e1]; simpl.
  destruct (settle worlds _ s1) as [[s2 e2] pending]. reflexivity.
Qed.

(** X1: a turn comes to rest: whatever the outside world answers, three further
    worlds are enough for every timer of the turn to have fired, the avatar's
    reply and the clearing of errors included, and none is then pending. *)
Theorem turn_settles :
  forall view a clock w worlds s,
    3 <= length worlds ->
    pendingAfterTurn view a clock w worlds s = [].
Proof.
  intros view a clock w worlds s Hlen.
  destruct worlds as [|w1 [|w2 [|w3 worlds]]]; simpl in Hlen; try lia.
  unfold pendingAfterTurn.
  rewrite (surjective_pairing (processInput view a w s)).
  unfold scheduleAll. change (snd (processInput view a w s))
    with (effects (processInput view a w s)).
  destruct (processInput_timers view a w s) as [H|[H|[[reply H]|[reply H]]]];
    rewrite H; clear H; simpl fold_left.
  - reflexivity.
  - rewrite settle_clearError. apply settle_no_timers.
  - rewrite settle_call.
    destruct (local_user_timers view (autoReplyInput view reply) w1
                (fst (processInput view a w s)) eq_refl) as [H|H];
      rewrite H; simpl fold_left.
    + reflexivity.
    + rewrite settle_clearError. apply settle_no_timers.
  - replace (clock + 4000 <? clock + 1000)%Z with false
      by (symmetry; apply Z.ltb_ge; lia).
    rewrite settle_call.
    destruct (local_user_timers view (autoReplyInput view reply) w1
                (fst (processInput view a w s)) eq_refl) as [H|H];
      rewrite H; simpl fold_left.
    + rewrite settle_clearError. apply settle_no_timers.
    + replace (clock + 1000 + 4000 <? clock + 4000)%Z with false
        by (symmetry; apply Z.ltb_ge; lia).
      rewrite !settle_clearError. apply settle_no_timers.
Qed.

Lemma turn_settles_witness :
  pendingAfterTurn Samples.respondingStore Samples.stationInput 0
    (Samples.world (Returned Samples.station) (Threw "tts")
       (Returned "At the corner, two blocks north."))
    [Samples.world (Returned Samples.hola) (Threw "tts") (Threw "unused");
     Samples.world (Returned Samples.hola) (Threw "tts") (Threw "unused");
     Samples.world (Returned Samples.hola) (Threw "tts") (Threw "unused")]
    Samples.respondingStore = [].
Proof.
  apply turn_settles. simpl. lia.
Defined.

(** The scenario of the specification: with the responder active and a
    profile present, the partner's utterance is translated and committed with
    its three suggestions, and the avatar's reply follows as a message of the
    local user, flagged as auto-reply and translated into the partner's
    language. *)
Example auto_reply_scenario :
  map (fun m => (Message.sender m, Message.originalText m, Message.translatedText m,
                 Message.originalLang m, Message.targetLang m, Message.isAutoReply m,
                 Message.suggestedResponses m))
    (messages
       (final (turn Samples.respondingStore Samples.stationInput 0
                 (Samples.world (Returned Samples.station) (Threw "tts")
                    (Returned "At the corner, two blocks north."))
                 [Samples.world
                    (Returned (TranslationResponse.mk "En la esquina, dos cuadras al norte."
                                 ["Gracias"; "Vale"; "Perfecto"] (Some "Neutral")))
                    (Threw "tts") (Threw "unused")]
                 Samples.respondingStore)))
  = [(partner, "Donde esta la estacion?", "Where is the station?", "es-ES", "en-US",
      Some false, Some ["Two blocks north."; "I do not know."; "Follow me."]);
     (user, "At the corner, two blocks north.", "En la esquina, dos cuadras al norte.",
      "en-US", "es-ES", Some true, Some ["Gracias"; "Vale"; "Perfecto"])].
Proof. reflexivity. Qed.

End AppFacts.

(** * The profile form *)

Module ProfileSetupFacts.
Import ProfileSetup.

Lemma includes_In x arr : includes x arr = true <-> In x arr.
Proof.
  unfold includes. rewrite existsb_exists. split.
  - intros [y [Hy Heq]]. apply String.eqb_eq in Heq. now subst.
  - intros H. exists x. split; [exact H | apply String.eqb_refl].
Qed.

Lemma In_without x y arr : In x (without y arr) <-> In x arr /\ x <> y.
Proof.
  unfold without. rewrite filter_In, Bool.negb_true_iff, String.eqb_neq. reflexivity.
Qed.

Lemma without_length x arr : length (without x arr) <= length arr.
Proof. apply filter_length_le. Qed.

Lemma without_absent x arr : ~ In x arr -> without x arr = arr.
Proof.
  intros H. induction arr as [|y arr IH]; simpl; [reflexivity|].
  destruct (String.eqb y x) eqn:E; simpl.
  - apply String.eqb_eq in E. subst. exfalso. apply H. now left.
  - f_equal. apply IH. intros Hin. apply H. now right.
Qed.

Lemma without_app x a b : without x (a ++ b) = without x a ++ without x b.
Proof. apply filter_app. Qed.

(** The two lists of a form after one click, in terms of the lists before. *)
Lemma toggleTopic_lists topic p :
  UserProfile.tone (toggleTopic topic p) = UserProfile.tone p
  /\ UserProfile.conversationTypes (toggleTopic topic p)
     = if includes topic (UserProfile.conversationTypes p)
       then without topic (UserProfile.conversationTypes p)
       else if (4 <=? length (UserProfile.conversationTypes p))%nat
            then UserProfile.conversationTypes p
            else UserProfile.conversationTypes p ++ [topic].
Proof.
  unfold toggleTopic.
  destruct (includes topic _); [split; reflexivity|].
  destruct (4 <=? _)%nat; split; reflexivity.
Qed.

Lemma toggleTone_lists tone p :
  UserProfile.conversationTypes (toggleTone tone p) = UserProfile.conversationTypes p
  /\ UserProfile.tone (toggleTone tone p)
     = if includes tone (UserProfile.tone p)
       then without tone (UserProfile.tone p)
       else if (4 <=? length (UserProfile.tone p))%nat
            then UserProfile.tone p
            else UserProfile.tone p ++ [tone].
Proof.
  unfold toggleTone.
  destruct (includes tone _); [split; reflexivity|].
  destruct (4 <=? _)%nat; split; reflexivity.
Qed.

(** What one click keeps of a list: its bound of four and the absence of
    repetitions. *)
Lemma click_keeps x arr :
  length arr <= 4 /\ NoDup arr ->
  let arr' := if includes x arr then without x arr
              else if (4 <=? length arr)%nat then arr else arr ++ [x] in
  length arr' <= 4 /\ NoDup arr'.
Proof.
  intros [Hlen Hnd]. cbv zeta.
  destruct (includes x arr) eqn:Hin.
  - split; [pose proof (without_length x arr); lia | unfold without; now apply NoDup_filter].
  - destruct (4 <=? length arr)%nat eqn:Hfull; [now split|].
    apply Nat.leb_gt in Hfull. split.
    + rewrite length_app. simpl. lia.
    + apply NoDup_app; [exact Hnd | constructor; [intros [] | constructor] |].
      intros y Hy [<-|[]].
      apply includes_In in Hy. congruence.
Qed.

Lemma apply_within p e : within p -> within (apply p e).
Proof.
  intros [Ht Hn]. destruct e; simpl; try now split.
  - destruct (toggleTopic_lists topic p) as [E1 E2]. split.
    + rewrite E2. now apply click_keeps.
    + now rewrite E1.
  - destruct (toggleTone_lists tone p) as [E1 E2]. split.
    + now rewrite E1.
    + rewrite E2. now apply click_keeps.
Qed.

Lemma edited_within edits : forall p, within p -> within (edited p edits).
Proof.
  unfold edited. induction edits as [|e edits IH]; intros p Hp; simpl; [exact Hp|].
  apply IH. now apply apply_within.
Qed.

Lemma selection_within_aux edits : within (edited emptyForm edits).
Proof.
  apply edited_within. repeat split; simpl; try lia; constructor.
Qed.

(** X2: a form whose topics and tones are each at most four and without
    repetition stays so under every sequence of edits: typing, choosing a
    language and clicking topics and tones in any order. *)
Theorem selection_stays_within_limits :
  forall (formData : UserProfile.t) (edits : list Edit),
    length (UserProfile.conversationTypes formData) <= 4 ->
    NoDup (UserProfile.conversationTypes formData) ->
    length (UserProfile.tone formData) <= 4 ->
    NoDup (UserProfile.tone formData) ->
    length (UserProfile.conversationTypes (edited formData edits)) <= 4
    /\ NoDup (UserProfile.conversationTypes (edited formData edits))
    /\ length (UserProfile.tone (edited formData edits)) <= 4
    /\ NoDup (UserProfile.tone (edited formData edits)).
Proof.
  intros formData edits H1 H2 H3 H4.
  destruct (edited_within edits (p := formData)) as [[? ?] [? ?]].
  - repeat split; assumption.
  - now repeat split.
Qed.

Lemma selection_stays_within_limits_witness :
  length (UserProfile.conversationTypes
            (edited emptyForm
               [ClickTopic "Travel"; ClickTopic "Shopping"; ClickTopic "Research";
                ClickTopic "Ideation"; ClickTopic "Financing"; ClickTone "Formal"])) <= 4.
Proof.
  exact (proj1 (selection_stays_within_limits emptyForm
                  [ClickTopic "Travel"; ClickTopic "Shopping"; ClickTopic "Research";
                   ClickTopic "Ideation"; ClickTopic "Financing"; ClickTone "Formal"]
                  (Nat.le_0_l 4) (NoDup_nil string) (Nat.le_0_l 4) (NoDup_nil string))).
Defined.

(** X3: a click on a topic changes nothing of the form but the list
    of topics.  In that list the clicked topic is selected afterwards exactly
    when it was not selected before and fewer than four were; the other
    topics are the same as before, in the same order; and a click on an
    unselected topic while four are selected leaves the whole form as it
    was.  The same holds of tones. *)
Theorem click_flips_only_the_clicked_item :
  forall (x item : string) (p : UserProfile.t),
    (In x (UserProfile.conversationTypes (toggleTopic item p))
     <-> (x = item /\ ~ In item (UserProfile.conversationTypes p)
                   /\ length (UserProfile.conversationTypes p) < 4)
         \/ (x <> item /\ In x (UserProfile.conversationTypes p)))
    /\ (In x (UserProfile.tone (toggleTone item p))
        <-> (x = item /\ ~ In item (UserProfile.tone p)
                      /\ length (UserProfile.tone p) < 4)
            \/ (x <> item /\ In x (UserProfile.tone p)))
    /\ toggleTopic item p
       = UserProfile.mk (UserProfile.name p) (UserProfile.primaryLanguage p)
           (UserProfile.conversationTypes (toggleTopic item p))
           (UserProfile.tone p) (UserProfile.bio p)
    /\ toggleTone item p
       = UserProfile.mk (UserProfile.name p) (UserProfile.primaryLanguage p)
           (UserProfile.conversationTypes p)
           (UserProfile.tone (toggleTone item p)) (UserProfile.bio p)
    /\ without item (UserProfile.conversationTypes (toggleTopic item p))
       = without item (UserProfile.conversationTypes p)
    /\ without item (UserProfile.tone (toggleTone item p))
       = without item (UserProfile.tone p)
    /\ (~ In item (UserProfile.conversationTypes p) ->
        4 <= length (UserProfile.conversationTypes p) ->
        toggleTopic item p = p)
    /\ (~ In item (UserProfile.tone p) ->
        4 <= length (UserProfile.tone p) ->
        toggleTone item p = p).
Proof.
  assert (Hgen : forall x item arr,
            In x (if includes item arr then without item arr
                  else if (4 <=? length arr)%nat then arr else arr ++ [item])
            <-> (x = item /\ ~ In item arr /\ length arr < 4) \/ (x <> item /\ In x arr)).
  { intros x item arr. destruct (includes item arr) eqn:Hin.
    - apply includes_In in Hin. rewrite In_without. split.
      + intros [H1 H2]. right. now split.
      + intros [[-> [Hn _]]|[H1 H2]]; [contradiction | now split].
    - assert (Hn : ~ In item arr) by (rewrite <- includes_In; congruence).
      destruct (4 <=? length arr)%nat eqn:Hfull.
      + apply Nat.leb_le in Hfull. split.
        * intros H. right. split; [intros ->; contradiction | exact H].
        * intros [[_ [_ Hlt]]|[_ H]]; [lia | exact H].
      + apply Nat.leb_gt in Hfull. rewrite in_app_iff. simpl. split.
        * intros [H|[<-|[]]].
          -- right. split; [intros ->; contradiction | exact H].
          -- left. now repeat split.
        * intros [[-> _]|[_ H]]; [right; now left | now left]. }
  assert (Hrest : forall item arr,
            without item (if includes item arr then without item arr
                          else if (4 <=? length arr)%nat then arr else arr ++ [item])
            = without item arr).
  { intros item arr. destruct (includes item arr).
    - apply without_absent. rewrite In_without. intros [_ H]. now apply H.
    - destruct (4 <=? length arr)%nat; [reflexivity|].
      rewrite without_app. unfold without at 2. simpl.
      rewrite String.eqb_refl. simpl. apply app_nil_r. }
  assert (Hno : forall item arr, ~ In item arr -> includes item arr = false).
  { intros item arr Hn. destruct (includes item arr) eqn:E; [|reflexivity].
    apply includes_In in E. contradiction. }
  intros x item p.
  split; [rewrite (proj2 (toggleTopic_lists item p)); apply Hgen|].
  split; [rewrite (proj2 (toggleTone_lists item p)); apply Hgen|].
  repeat apply conj.
  - destruct p as [n l topics tones b]. unfold toggleTopic.
    cbn [UserProfile.conversationTypes UserProfile.tone UserProfile.name
         UserProfile.primaryLanguage UserProfile.bio].
    destruct (includes item topics); [reflexivity|].
    destruct (4 <=? length topics)%nat; reflexivity.
  - destruct p as [n l topics tones b]. unfold toggleTone.
    cbn [UserProfile.conversationTypes UserProfile.tone UserProfile.name
         UserProfile.primaryLanguage UserProfile.bio].
    destruct (includes item tones); [reflexivity|].
    destruct (4 <=? length tones)%nat; reflexivity.
  - rewrite (proj2 (toggleTopic_lists item p)). apply Hrest.
  - rewrite (proj2 (toggleTone_lists item p)). apply Hrest.
  - intros Hn Hfull. unfold toggleTopic. cbv zeta. rewrite (Hno _ _ Hn).
    apply Nat.leb_le in Hfull. now rewrite Hfull.
  - intros Hn Hfull. unfold toggleTone. cbv zeta. rewrite (Hno _ _ Hn).
    apply Nat.leb_le in Hfull. now rewrite Hfull.
Qed.

Lemma click_flips_only_the_clicked_item_witness :
  toggleTopic "Research"
    (UserProfile.mk "Alex" "en-US" ["Travel"; "Shopping"; "Ideation"; "Financing"]
       ["Formal"] "")
  = UserProfile.mk "Alex" "en-US" ["Travel"; "Shopping"; "Ideation"; "Financing"]
      ["Formal"] "".
Proof.
  assert (Hn : ~ In "Research" ["Travel"; "Shopping"; "Ideation"; "Financing"])
    by (intros [H|[H|[H|[H|[]]]]]; discriminate).
  exact (proj1 (proj2 (proj2 (proj2 (proj2 (proj2 (proj2
           (click_flips_only_the_clicked_item "Research" "Research"
              (UserProfile.mk "Alex" "en-US"
                 ["Travel"; "Shopping"; "Ideation"; "Financing"] ["Formal"] "")))))))) Hn
           (le_n 4)).
Defined.

(** X4: clicking an unselected topic while fewer than four are selected and
    clicking it again gives back the form as it was; likewise for a tone. *)
Theorem click_twice_restores :
  forall (item : string) (p : UserProfile.t),
    (~ In item (UserProfile.conversationTypes p) ->
     length (UserProfile.conversationTypes p) < 4 ->
     toggleTopic item (toggleTopic item p) = p)
    /\ (~ In item (UserProfile.tone p) ->
        length (UserProfile.tone p) < 4 ->
        toggleTone item (toggleTone item p) = p).
Proof.
  intros item [n l topics tones b]. split;
    cbn [UserProfile.conversationTypes UserProfile.tone]; intros Hn Hlt.
  - assert (E : includes item topics = false).
    { destruct (includes item topics) eqn:E; [apply includes_In in E; contradiction | reflexivity]. }
    assert (E' : includes item (topics ++ [item]) = true).
    { apply includes_In, in_app_iff. right. now left. }
    apply Nat.leb_gt in Hlt.
    unfold toggleTopic at 2.
    cbn [UserProfile.conversationTypes UserProfile.tone UserProfile.name
         UserProfile.primaryLanguage UserProfile.bio].
    rewrite E, Hlt. unfold toggleTopic.
    cbn [UserProfile.conversationTypes UserProfile.tone UserProfile.name
         UserProfile.primaryLanguage UserProfile.bio].
    rewrite E'. f_equal.
    rewrite without_app, (without_absent _ _ Hn).
    unfold without. simpl. rewrite String.eqb_refl. simpl. apply app_nil_r.
  - assert (E : includes item tones = false).
    { destruct (includes item tones) eqn:E; [apply includes_In in E; contradiction | reflexivity]. }
    assert (E' : includes item (tones ++ [item]) = true).
    { apply includes_In, in_app_iff. right. now left. }
    apply Nat.leb_gt in Hlt.
    unfold toggleTone at 2.
    cbn [UserProfile.conversationTypes UserProfile.tone UserProfile.name
         UserProfile.primaryLanguage UserProfile.bio].
    rewrite E, Hlt. unfold toggleTone.
    cbn [UserProfile.conversationTypes UserProfile.tone UserProfile.name
         UserProfile.primaryLanguage UserProfile.bio].
    rewrite E'. f_equal.
    rewrite without_app, (without_absent _ _ Hn).
    unfold without. simpl. rewrite String.eqb_refl. simpl. apply app_nil_r.
Qed.

Lemma click_twice_restores_witness :
  toggleTopic "Travel" (toggleTopic "Travel" emptyForm) = emptyForm.
Proof.
  exact (proj1 (click_twice_restores "Travel" emptyForm)
           (fun H : In "Travel" [] => H) (Nat.lt_0_succ 3)).
Defined.

(** X5: on first run, whatever the edits, the save button hands over a
    profile only if it has a name and between one and four topics and tones,
    none repeated; what it hands over is the form as edited. *)
Theorem first_run_saves_only_complete_profiles :
  forall (edits : list Edit) (profile : UserProfile.t),
    clickSave (edited (initialForm None) edits) = Some profile ->
    profile = edited emptyForm edits
    /\ UserProfile.name profile <> ""
    /\ 1 <= length (UserProfile.conversationTypes profile) <= 4
    /\ 1 <= length (UserProfile.tone profile) <= 4
    /\ NoDup (UserProfile.conversationTypes profile)
    /\ NoDup (UserProfile.tone profile).
Proof.
  intros edits profile. unfold clickSave, initialForm.
  destruct (isFormValid (edited emptyForm edits)) eqn:Hvalid; [|discriminate].
  intros [= <-].
  destruct (selection_within_aux edits) as [[Ht1 Ht2] [Hn1 Hn2]].
  unfold isFormValid in Hvalid.
  apply Bool.andb_true_iff in Hvalid. destruct Hvalid as [Hv Htone].
  apply Bool.andb_true_iff in Hv. destruct Hv as [Hname Htopic].
  apply Nat.ltb_lt in Hname, Htopic, Htone.
  repeat apply conj; try reflexivity; try assumption; try lia.
  intros E. rewrite E in Hname. simpl in Hname. lia.
Qed.

Lemma first_run_saves_only_complete_profiles_witness :
  UserProfile.mk "Alex" "en-US" ["Travel"] ["Formal"] ""
  = edited emptyForm [TypeName "Alex"; ClickTopic "Travel"; ClickTone "Formal"].
Proof.
  exact (proj1 (first_run_saves_only_complete_profiles
                  [TypeName "Alex"; ClickTopic "Travel"; ClickTone "Formal"] eq_refl)).
Defined.

(** The save button stays without effect while the name, the topics or the
    tones are empty. *)
Lemma incomplete_form_is_not_saved formData :
  clickSave formData = None
  <-> UserProfile.name formData = ""
      \/ UserProfile.conversationTypes formData = []
      \/ UserProfile.tone formData = [].
Proof.
  unfold clickSave, isFormValid. destruct formData as [[|c n] l [|t ts] [|o os] b]; simpl;
    split; intros H; try discriminate; try reflexivity; auto;
    destruct H as [H|[H|H]]; discriminate.
Qed.

End ProfileSetupFacts.

(** * Splitting strings *)

Module SplitFacts.
Import App.

Lemma split_nonempty sep s : split sep s <> [].
Proof.
  destruct s as [|c s]; simpl; [discriminate|].
  destruct (Ascii.eqb c sep); [discriminate|].
  destruct (split sep s); discriminate.
Qed.

(** Joining the pieces with the separator gives the string back. *)
Lemma join_split sep s : String.concat (String sep "") (split sep s) = s.
Proof.
  induction s as [|c s IH]; simpl; [reflexivity|].
  destruct (Ascii.eqb c sep) eqn:E.
  - apply Ascii.eqb_eq in E. subst c.
    destruct (split sep s) as [|p ps] eqn:Es; [now apply split_nonempty in Es|].
    simpl. simpl in IH. now rewrite IH.
  - destruct (split sep s) as [|p ps] eqn:Es; [now apply split_nonempty in Es|].
    simpl in *. destruct ps; simpl in *; now rewrite IH.
Qed.

(** No piece contains the separator. *)
Lemma split_pieces sep s : Forall (fun piece => hasChar sep piece = false) (split sep s).
Proof.
  induction s as [|c s IH]; simpl.
  - constructor; [reflexivity | constructor].
  - destruct (Ascii.eqb c sep) eqn:E.
    + constructor; [reflexivity | exact IH].
    + destruct (split sep s) as [|p ps]; [constructor; [simpl; now rewrite E | constructor]|].
      inversion IH; subst. constructor; [simpl; now rewrite E | assumption].
Qed.

Lemma split_without sep s : hasChar sep s = false -> split sep s = [s].
Proof.
  induction s as [|c s IH]; simpl; [reflexivity|].
  destruct (Ascii.eqb c sep); simpl; [discriminate|].
  intros H. now rewrite (IH H).
Qed.

Lemma split_at_first sep a b :
  hasChar sep a = false ->
  split sep (a ++ String sep b) = a :: split sep b.
Proof.
  induction a as [|c a IH]; simpl.
  - intros _. now rewrite Ascii.eqb_refl.
  - destruct (Ascii.eqb c sep); simpl; [discriminate|].
    intros H. now rewrite (IH H).
Qed.

End SplitFacts.

(** * One message of the history *)

Module ChatMessageFacts.
Import ChatMessage.

(** X6: the listen button is rendered exactly when pressing it plays
    something: under the translated preference the synthesized audio, under
    the original preference the sender's recording. *)
Theorem listen_button_shown_iff_it_plays :
  forall (message : Message.t) (preference : OutputPreference),
    (hasAudioSource message preference = true
     <-> handlePlayAudio message preference <> NoPlayback)
    /\ (forall buffer,
          handlePlayAudio message preference = PlayTranslated buffer
          <-> preference = TRANSLATED /\ Message.translatedAudioBuffer message = Some buffer)
    /\ (forall blob,
          handlePlayAudio message preference = PlayOriginal blob
          <-> preference = ORIGINAL /\ Message.originalAudioBlob message = Some blob).
Proof.
  intros message preference.
  unfold hasAudioSource, handlePlayAudio, showTranslated.
  destruct preference, (Message.translatedAudioBuffer message),
    (Message.originalAudioBlob message); simpl;
    repeat apply conj; intros; try (split; intros);
    repeat match goal with H : _ /\ _ |- _ => destruct H end;
    try discriminate; try congruence; try (split; congruence).
Qed.

(** X7: the language label of a message is the part of a language
    code before its first dash, and the whole code when it has no dash: the
    code of the target language under the TRANSLATED preference, that of the
    original language under the ORIGINAL one.  The label never contains a
    dash. *)
Theorem language_label_is_the_prefix_before_the_dash :
  forall (message : Message.t) (a b : string),
    (hasChar "-" a = false ->
     Message.targetLang message = (a ++ String "-" b)%string ->
     langLabel message TRANSLATED = a)
    /\ (hasChar "-" a = false ->
        Message.targetLang message = a ->
        langLabel message TRANSLATED = a)
    /\ (hasChar "-" a = false ->
        Message.originalLang message = (a ++ String "-" b)%string ->
        langLabel message ORIGINAL = a)
    /\ (hasChar "-" a = false ->
        Message.originalLang message = a ->
        langLabel message ORIGINAL = a)
    /\ (forall preference, hasChar "-" (langLabel message preference) = false).
Proof.
  assert (Hno : forall code, hasChar "-" (beforeDash code) = false).
  { intros code. unfold beforeDash.
    pose proof (SplitFacts.split_pieces "-" code) as H.
    destruct (App.split "-" code); [reflexivity | now inversion H]. }
  intros message a b. repeat apply conj.
  - intros H E. unfold langLabel, showTranslated, beforeDash. cbn [OutputPreference_eqb].
    rewrite E. now rewrite SplitFacts.split_at_first.
  - intros H E. unfold langLabel, showTranslated, beforeDash. cbn [OutputPreference_eqb].
    rewrite E. now rewrite SplitFacts.split_without.
  - intros H E. unfold langLabel, showTranslated, beforeDash. cbn [OutputPreference_eqb].
    rewrite E. now rewrite SplitFacts.split_at_first.
  - intros H E. unfold langLabel, showTranslated, beforeDash. cbn [OutputPreference_eqb].
    rewrite E. now rewrite SplitFacts.split_without.
  - intros preference. unfold langLabel. destruct (showTranslated preference); apply Hno.
Qed.

Lemma language_label_is_the_prefix_before_the_dash_witness :
  langLabel MoreSamples.hola_message TRANSLATED = "es".
Proof.
  exact (proj1 (language_label_is_the_prefix_before_the_dash
                  MoreSamples.hola_message "es" "ES") eq_refl eq_refl).
Defined.

End ChatMessageFacts.

(** * The gateway client: requests and errors *)

Module GeminiRequestFacts.

Lemma sliceLast_length {A} n (l : list A) : length (sliceLast n l) <= n.
Proof. unfold sliceLast. rewrite length_skipn. lia. Qed.

Lemma sliceLast_suffix {A} n (l : list A) :
  l = firstn (length l - n) l ++ sliceLast n l.
Proof. unfold sliceLast. symmetry. apply firstn_skipn. Qed.

Lemma sliceLast_short {A} n (l : list A) : length l <= n -> sliceLast n l = l.
Proof.
  intros H. unfold sliceLast. replace (length l - n) with 0 by lia. reflexivity.
Qed.

Lemma sliceLast_idempotent {A} n (l : list A) : sliceLast n (sliceLast n l) = sliceLast n l.
Proof. apply sliceLast_short, sliceLast_length. Qed.

Lemma sliceLast_app {A} n (older recent : list A) :
  length recent = n -> sliceLast n (older ++ recent) = recent.
Proof.
  intros H. unfold sliceLast. rewrite length_app.
  replace (length older + length recent - n) with (length older) by lia.
  rewrite skipn_app, skipn_all, Nat.sub_diag. reflexivity.
Qed.

(** X8: the translation request depends on the history only
    through its last three messages: it is the request built from those
    alone, whatever came before them. *)
Theorem translation_request_uses_last_three_turns :
  forall text sourceLang targetLang userProfile (history older : list Message.t) imageContext,
    GeminiService.translateRequest text sourceLang targetLang userProfile history imageContext
    = GeminiService.translateRequest text sourceLang targetLang userProfile
        (sliceLast 3 history) imageContext
    /\ length (sliceLast 3 history) <= 3
    /\ history = firstn (length history - 3) history ++ sliceLast 3 history
    /\ (3 <= length history ->
        GeminiService.translateRequest text sourceLang targetLang userProfile
          (older ++ sliceLast 3 history) imageContext
        = GeminiService.translateRequest text sourceLang targetLang userProfile
            history imageContext).
Proof.
  intros. repeat apply conj.
  - unfold GeminiService.translateRequest. now rewrite sliceLast_idempotent.
  - apply sliceLast_length.
  - apply sliceLast_suffix.
  - intros H. unfold GeminiService.translateRequest.
    rewrite sliceLast_app; [reflexivity|].
    unfold sliceLast. rewrite length_skipn. lia.
Qed.

Lemma translation_request_uses_last_three_turns_witness :
  GeminiService.translateRequest "Hello" Samples.english Samples.spanish None
    ([MoreSamples.hola_message]
       ++ sliceLast 3 [MoreSamples.hola_message; MoreSamples.hola_message;
                       MoreSamples.hola_message]) None
  = GeminiService.translateRequest "Hello" Samples.english Samples.spanish None
      [MoreSamples.hola_message; MoreSamples.hola_message; MoreSamples.hola_message] None.
Proof.
  exact (proj2 (proj2 (proj2
           (translation_request_uses_last_three_turns "Hello" Samples.english
              Samples.spanish None
              [MoreSamples.hola_message; MoreSamples.hola_message; MoreSamples.hola_message]
              [MoreSamples.hola_message] None))) (le_n 3)).
Defined.

(** X9: the avatar request depends on the history only through
    its last five messages. *)
Theorem avatar_request_uses_last_five_turns :
  forall incomingText userProfile (history older : list Message.t),
    GeminiAvatar.avatarRequest incomingText userProfile history
    = GeminiAvatar.avatarRequest incomingText userProfile (sliceLast 5 history)
    /\ length (sliceLast 5 history) <= 5
    /\ (5 <= length history ->
        GeminiAvatar.avatarRequest incomingText userProfile (older ++ sliceLast 5 history)
        = GeminiAvatar.avatarRequest incomingText userProfile history).
Proof.
  intros. repeat apply conj.
  - unfold GeminiAvatar.avatarRequest. now rewrite sliceLast_idempotent.
  - apply sliceLast_length.
  - intros H. unfold GeminiAvatar.avatarRequest.
    rewrite sliceLast_app; [reflexivity|].
    unfold sliceLast. rewrite length_skipn. lia.
Qed.

Lemma avatar_request_uses_last_five_turns_witness :
  GeminiAvatar.avatarRequest "Donde?" Samples.alex
    ([MoreSamples.hola_message]
       ++ sliceLast 5 [MoreSamples.hola_message; MoreSamples.hola_message;
                       MoreSamples.hola_message; MoreSamples.hola_message;
                       MoreSamples.hola_message])
  = GeminiAvatar.avatarRequest "Donde?" Samples.alex
      [MoreSamples.hola_message; MoreSamples.hola_message; MoreSamples.hola_message;
       MoreSamples.hola_message; MoreSamples.hola_message].
Proof.
  exact (proj2 (proj2
           (avatar_request_uses_last_five_turns "Donde?" Samples.alex
              [MoreSamples.hola_message; MoreSamples.hola_message; MoreSamples.hola_message;
               MoreSamples.hola_message; MoreSamples.hola_message]
              [MoreSamples.hola_message])) (le_n 5)).
Defined.

(** X10: [translateContent] raises exactly when the gateway call
    rejects, in which case the error is the gateway's, or when the response
    has no text or an empty one, in which case the error is
    "No translation returned"; a body that is not JSON never makes it raise. *)
Theorem translateContent_raises_iff :
  forall (JSON_parse : string -> option JSValue)
         (generateContent : GeminiService.GenerateContentRequest -> Outcome (option string))
         text src tgt profile history image err,
    GeminiService.translateContent JSON_parse generateContent text src tgt profile history image
      = Threw err
    <-> generateContent (GeminiService.translateRequest text src tgt profile history image)
          = Threw err
        \/ (err = "No translation returned"
            /\ (generateContent (GeminiService.translateRequest text src tgt profile history image)
                  = Returned None
                \/ generateContent
                     (GeminiService.translateRequest text src tgt profile history image)
                   = Returned (Some ""))).
Proof.
  intros. unfold GeminiService.translateContent.
  destruct (generateContent _) as [[[|c body]|]|e]; simpl.
  - split; [intros [= <-]; right; auto | intros [H|[-> _]]; [discriminate | reflexivity]].
  - destruct (JSON_parse (String c body)); split; try discriminate;
      intros [H|[_ [H|H]]]; discriminate.
  - split; [intros [= <-]; right; auto | intros [H|[-> _]]; [discriminate | reflexivity]].
  - split; [intros [= ->]; now left | intros [[= ->]|[_ [H|H]]]; [reflexivity | discriminate ..]].
Qed.

End GeminiRequestFacts.

(** * The avatar's reply and speech synthesis *)

Module GeminiAvatarFacts.
Import GeminiAvatar.

Lemma textOr_nonempty body fallback : fallback <> "" -> textOr body fallback <> "".
Proof.
  intros H. destruct body as [t|]; simpl; [now apply JsStringFacts.orElse_nonempty | exact H].
Qed.

Lemma truthy_string isZero s : s <> "" -> truthy isZero (JString s) = true.
Proof. destruct s; [contradiction | reflexivity]. Qed.

(** X11: once the gateway has answered, [generateAvatarReply] never
    raises and never resolves to an empty or otherwise falsy reply: a truthy
    [replyText] of the parsed object is returned as it is; a missing one and
    a falsy one (the empty string, [null], [false], zero) both give
    "I am currently unavailable."; so does a parsed value that is not an
    object; a body that is not JSON, or is JSON [null], is itself returned as
    the reply when it is not empty, and gives "I am currently unavailable."
    when it is empty or absent. *)
Theorem avatar_reply_is_never_empty :
  forall (JSON_parse : string -> option JSValue) (isZero : string -> bool)
         (generateContent : GeminiService.GenerateContentRequest -> Outcome (option string))
         incomingText userProfile history body,
    generateContent (avatarRequest incomingText userProfile history) = Returned body ->
    (exists reply,
        generateAvatarReply JSON_parse isZero generateContent incomingText userProfile history
          = Returned reply
        /\ truthy isZero reply = true
        /\ reply <> JString "")
    /\ (forall props v,
          JSON_parse (textOr body "{}") = Some (JObject props) ->
          Js.lookup "replyText" props = Some v ->
          truthy isZero v = true ->
          generateAvatarReply JSON_parse isZero generateContent incomingText userProfile history
            = Returned v)
    /\ (forall props v,
          JSON_parse (textOr body "{}") = Some (JObject props) ->
          Js.lookup "replyText" props = Some v ->
          truthy isZero v = false ->
          generateAvatarReply JSON_parse isZero generateContent incomingText userProfile history
            = Returned (JString "I am currently unavailable."))
    /\ (forall props,
          JSON_parse (textOr body "{}") = Some (JObject props) ->
          Js.lookup "replyText" props = None ->
          generateAvatarReply JSON_parse isZero generateContent incomingText userProfile history
            = Returned (JString "I am currently unavailable."))
    /\ (forall parsed,
          JSON_parse (textOr body "{}") = Some parsed ->
          parsed <> JNull ->
          (forall props, parsed <> JObject props) ->
          generateAvatarReply JSON_parse isZero generateContent incomingText userProfile history
            = Returned (JString "I am currently unavailable."))
    /\ (forall raw,
          body = Some raw -> raw <> "" ->
          JSON_parse raw = None \/ JSON_parse raw = Some JNull ->
          generateAvatarReply JSON_parse isZero generateContent incomingText userProfile history
            = Returned (JString raw))
    /\ (body = None \/ body = Some "" ->
        JSON_parse "{}" = None \/ JSON_parse "{}" = Some JNull ->
        generateAvatarReply JSON_parse isZero generateContent incomingText userProfile history
          = Returned (JString "I am currently unavailable.")).
Proof.
  intros JSON_parse isZero generateContent incomingText userProfile history body Hgw.
  unfold generateAvatarReply. rewrite Hgw.
  assert (Hdefault : truthy isZero (JString (textOr body unavailable)) = true
                     /\ JString (textOr body unavailable) <> JString "").
  { split.
    - apply truthy_string, textOr_nonempty. discriminate.
    - intros [= E]. revert E. apply textOr_nonempty. discriminate. }
  repeat apply conj.
  - destruct (JSON_parse (textOr body "{}")) as [json|]; [|eexists; split; [reflexivity | exact Hdefault]].
    destruct (Js.getProp "replyText" json) as [[replyText|]|e].
    + destruct (truthy isZero replyText) eqn:Ht.
      * exists replyText. repeat split; [exact Ht|]. intros ->. discriminate.
      * eexists. repeat split. discriminate.
    + eexists. repeat split. discriminate.
    + eexists. split; [reflexivity | exact Hdefault].
  - intros props v -> Hprop Hv. simpl. rewrite Hprop. now rewrite Hv.
  - intros props v -> Hprop Hv. simpl. rewrite Hprop. now rewrite Hv.
  - intros props -> Hprop. simpl. now rewrite Hprop.
  - intros parsed -> Hnull Hobj.
    destruct parsed; try reflexivity; [contradiction | exfalso; now apply (Hobj props)].
  - intros raw -> Hraw Hparse.
    assert (E : forall d, textOr (Some raw) d = raw).
    { intros d. destruct raw; [contradiction | reflexivity]. }
    rewrite !E. destruct Hparse as [-> | ->]; reflexivity.
  - intros Hbody Hparse.
    assert (E : forall d, textOr body d = d).
    { intros d. destruct Hbody as [-> | ->]; reflexivity. }
    rewrite !E. destruct Hparse as [-> | ->]; reflexivity.
Qed.

Lemma avatar_reply_is_never_empty_witness :
  generateAvatarReply Samples.parseLegacyOnly (fun _ => false)
    (Samples.answering (Some "At the corner")) "Donde?" Samples.alex []
  = Returned (JString "At the corner").
Proof.
  exact (proj1 (proj2 (proj2 (proj2 (proj2 (proj2
           (avatar_reply_is_never_empty Samples.parseLegacyOnly (fun _ => false)
              (Samples.answering (Some "At the corner")) "Donde?" Samples.alex []
              (body := Some "At the corner") eq_refl))))))
           "At the corner" eq_refl ltac:(discriminate) (or_introl eq_refl)).
Defined.

(** X12: [generateAvatarReply] raises exactly when the gateway
    call rejects, and then with the gateway's error. *)
Theorem avatar_reply_raises_iff :
  forall (JSON_parse : string -> option JSValue) (isZero : string -> bool)
         (generateContent : GeminiService.GenerateContentRequest -> Outcome (option string))
         incomingText userProfile history err,
    generateAvatarReply JSON_parse isZero generateContent incomingText userProfile history
      = Threw err
    <-> generateContent (avatarRequest incomingText userProfile history) = Threw err.
Proof.
  intros. unfold generateAvatarReply.
  destruct (generateContent _) as [body|e].
  - destruct (JSON_parse (textOr body "{}")) as [json|]; [|split; discriminate].
    destruct (Js.getProp "replyText" json) as [[replyText|]|e]; try (split; discriminate).
    destruct (truthy isZero replyText); split; discriminate.
  - split; intros [= ->]; reflexivity.
Qed.

End GeminiAvatarFacts.

Module GeminiSpeechFacts.
Import GeminiSpeech.

(** X13: [generateSpeech] returns audio exactly when the first part
    of the first candidate of the response carries non-empty inline data
    that decodes, and then the audio is the decoding of that data; audio
    anywhere else in the response is not looked at.  Otherwise it raises:
    what the decoder raised, or "No audio data returned from Gemini". *)
Theorem speech_comes_from_first_part_of_first_candidate :
  forall (decodeBase64 : string -> Outcome Bytes)
         (generateContent : string -> string -> Outcome Response)
         text voiceName response,
    generateContent text voiceName = Returned response ->
    (forall audio,
        generateSpeech decodeBase64 generateContent text voiceName = Returned audio
        <-> exists candidate otherCandidates content part otherParts inline encoded,
              candidates response = Some (candidate :: otherCandidates)
              /\ GeminiSpeech.content candidate = Some content
              /\ parts content = Some (part :: otherParts)
              /\ inlineData part = Some inline
              /\ data inline = Some encoded
              /\ encoded <> ""
              /\ decodeBase64 encoded = Returned audio)
    /\ (forall err,
          generateSpeech decodeBase64 generateContent text voiceName = Threw err ->
          err = "No audio data returned from Gemini"
          \/ exists encoded, decodeBase64 encoded = Threw err).
Proof.
  intros decodeBase64 generateContent text voiceName response Hgw.
  unfold generateSpeech. rewrite Hgw. split.
  - intros audio. unfold base64Audio, chain.
    destruct (candidates response) as [[|candidate others]|] eqn:Hc; simpl;
      try (split; [discriminate | intros (?&?&?&?&?&?&?&H&_); discriminate]).
    destruct (GeminiSpeech.content candidate) as [content|] eqn:Hcontent; simpl;
      try (split; [discriminate | intros (?&?&?&?&?&?&?&H1&H2&_); congruence]).
    destruct (parts content) as [[|part otherParts]|] eqn:Hparts; simpl;
      try (split; [discriminate | intros (?&?&?&?&?&?&?&H1&H2&H3&_); congruence]).
    destruct (inlineData part) as [inline|] eqn:Hinline; simpl;
      try (split; [discriminate | intros (?&?&?&?&?&?&?&H1&H2&H3&H4&_); congruence]).
    destruct (data inline) as [encoded|] eqn:Hdata; simpl;
      try (split; [discriminate | intros (?&?&?&?&?&?&?&H1&H2&H3&H4&H5&_); congruence]).
    destruct encoded as [|c encoded]; simpl.
    + split; [discriminate | intros (?&?&?&?&?&?&?&H1&H2&H3&H4&H5&H6&_); congruence].
    + split.
      * intros Hd. exists candidate, others, content, part, otherParts, inline, (String c encoded).
        repeat apply conj; try assumption; try reflexivity. discriminate.
      * intros (?&?&?&?&?&?&?&H1&H2&H3&H4&H5&H6&Hd). congruence.
  - intros err. destruct (base64Audio response) as [[|c audio]|]; simpl.
    + intros [= <-]. now left.
    + intros Hd. right. now exists (String c audio).
    + intros [= <-]. now left.
Qed.

Lemma speech_comes_from_first_part_of_first_candidate_witness :
  generateSpeech SavedSamples.decodeSampleOnly
    (fun _ _ => Returned (SavedSamples.speechResponse "QUJD")) "Hola" "Kore"
  = Returned [Byte.x41; Byte.x42; Byte.x43]
  <-> exists candidate otherCandidates content part otherParts inline encoded,
        candidates (SavedSamples.speechResponse "QUJD") = Some (candidate :: otherCandidates)
        /\ GeminiSpeech.content candidate = Some content
        /\ parts content = Some (part :: otherParts)
        /\ inlineData part = Some inline
        /\ data inline = Some encoded
        /\ encoded <> ""
        /\ SavedSamples.decodeSampleOnly encoded = Returned [Byte.x41; Byte.x42; Byte.x43].
Proof.
  exact (proj1 (@speech_comes_from_first_part_of_first_candidate
                  SavedSamples.decodeSampleOnly
                  (fun _ _ => Returned (SavedSamples.speechResponse "QUJD"))
                  "Hola" "Kore" (SavedSamples.speechResponse "QUJD") eq_refl)
           [Byte.x41; Byte.x42; Byte.x43]).
Defined.

End GeminiSpeechFacts.

(** * More on the orchestrator *)

Module AppMoreFacts.
Import App Observe.
Local Open Scope handler_scope.

Ltac run := AppFacts.run.
Ltac by_sender a := AppFacts.by_sender a.

(** Splits on every answer of the world and every cell of the snapshot that
    [processInput] looks at. *)
Ltac cases view a w :=
  by_sender a;
  destruct (translation w) eqn:?, (speech w) eqn:?,
    (OutputPreference_eqb (preference view) TRANSLATED) eqn:?, (playback w) eqn:?,
    (userProfile view) eqn:?, (isAiResponderActive view) eqn:?, (avatar w) eqn:?.

Lemma preference_eqb view :
  OutputPreference_eqb (preference view) TRANSLATED = true <-> preference view = TRANSLATED.
Proof. destruct (preference view); simpl; split; congruence. Qed.

Lemma startedAudio_processInput view a w s :
  startedAudio (effects (processInput view a w s))
  = match translation w, speech w, playback w with
    | Returned _, Returned data, Returned _ =>
        if OutputPreference_eqb (preference view) TRANSLATED then [data] else []
    | _, _, _ => []
    end.
Proof.
  run. cases view a w; reflexivity.
Qed.

(** X14: an invocation starts the translated audio exactly when its
    translation and its speech synthesis succeed, the output preference is
    TRANSLATED and decoding succeeds; what it plays is then the synthesized
    audio, once. *)
Theorem autoplay_iff :
  forall view a w s data,
    (In data (startedAudio (effects (processInput view a w s)))
     <-> (exists translationResult, translation w = Returned translationResult)
         /\ speech w = Returned data
         /\ preference view = TRANSLATED
         /\ playback w = Returned tt)
    /\ length (startedAudio (effects (processInput view a w s))) <= 1.
Proof.
  intros view a w s data. rewrite startedAudio_processInput, <- preference_eqb.
  destruct (translation w) as [tr|e], (speech w) as [d|e'], (playback w) as [[]|e''],
    (OutputPreference_eqb (preference view) TRANSLATED); simpl; split; try lia;
    split;
    try (intros [<-|[]]; eauto 6);
    try (intros ([t Ht] & H1 & H2 & H3)); try contradiction; try discriminate.
  left. congruence.
Qed.

(** X15: when the translated audio cannot be played, the message
    stays committed with its audio attached; the error "Could not play
    audio." is set, the phase is ERROR, and a timer of 4000 ms is started
    whose firing clears the error and returns the phase to IDLE, the message
    remaining in the history. *)
Theorem playback_failure_keeps_message :
  forall view a w s translationResult data err,
    translation w = Returned translationResult ->
    speech w = Returned data ->
    preference view = TRANSLATED ->
    playback w = Threw err ->
    messages (final (processInput view a w s))
      = messages s ++ [newMessage a w translationResult]
    /\ Message.translatedAudioBuffer (newMessage a w translationResult) = Some data
    /\ errorMsg (final (processInput view a w s)) = Some "Could not play audio."
    /\ appState (final (processInput view a w s)) = ERROR
    /\ In (ClearError, 4000%Z) (timers (effects (processInput view a w s)))
    /\ (forall w',
          errorMsg (final (runCallback ClearError w' (final (processInput view a w s)))) = None
          /\ appState (final (runCallback ClearError w' (final (processInput view a w s)))) = IDLE
          /\ messages (final (runCallback ClearError w' (final (processInput view a w s))))
             = messages s ++ [newMessage a w translationResult]).
Proof.
  intros view a w s tr data err Hok Hspeech Hpref Hplay.
  apply preference_eqb in Hpref.
  repeat apply conj.
  - rewrite AppFacts.processInput_messages. unfold committed. now rewrite Hok.
  - unfold newMessage, translatedAudioData; simpl. now rewrite Hspeech.
  - run. rewrite Hok, Hspeech, Hpref, Hplay. by_sender a; reflexivity.
  - run. rewrite Hok, Hspeech, Hpref, Hplay. by_sender a; reflexivity.
  - run. rewrite Hok, Hspeech, Hpref, Hplay.
    by_sender a; destruct (userProfile view), (isAiResponderActive view), (avatar w);
      cbn; auto.
  - intros w'. run. rewrite Hok, Hspeech, Hpref, Hplay.
    by_sender a; repeat split; reflexivity.
Qed.

Lemma playback_failure_keeps_message_witness :
  errorMsg
    (final (processInput Samples.initialStore Samples.helloInput
              (MoreSamples.worldWithPlayback (Threw "decode"))
              Samples.initialStore))
  = Some "Could not play audio.".
Proof.
  exact (proj1 (proj2 (proj2
           (playback_failure_keeps_message Samples.initialStore Samples.helloInput
              (MoreSamples.worldWithPlayback (Threw "decode")) Samples.initialStore
              (translationResult := Samples.hola) (data := [Byte.x52]) (err := "decode")
              eq_refl eq_refl eq_refl eq_refl)))).
Defined.

Lemma translateCalls_processInput view a w s :
  translateCalls (effects (processInput view a w s))
  = [(Input.text a, Input.sourceLang a, Input.targetLang a, userProfile view, messages view,
      if (isVideoType (Input.type a)
          && match videoRef s with Some _ => true | None => false end)%bool
      then captureVideoFrame s w else None)].
Proof.
  run. cases view a w; reflexivity.
Qed.

Lemma captureVideoFrame_payload s w video header payload :
  videoRef s = Some video ->
  videoWidth video <> 0%Z -> videoHeight video <> 0%Z ->
  canvasContext w = true ->
  dataUrl w = (header ++ String "," payload)%string ->
  hasChar "," header = false -> hasChar "," payload = false ->
  captureVideoFrame s w = Some payload.
Proof.
  intros Hv Hw Hh Hc Hd Hhead Hpay. unfold captureVideoFrame. rewrite Hv, Hc, Hd.
  apply Z.eqb_neq in Hw, Hh. rewrite Hw, Hh. simpl.
  rewrite SplitFacts.split_at_first, SplitFacts.split_without by assumption.
  reflexivity.
Qed.

(** X16: every invocation calls the translator exactly once, with its
    own text and languages and with the profile and the history of the
    snapshot it closed over.  A frame goes with the call only for a video
    type with a mounted preview: no frame for a text or audio input, nor
    without a preview, nor when the preview has no width or height, nor
    without a canvas context; and for a preview with data, a canvas context
    and a data URL made of a header, a comma and a payload, the frame is that
    payload. *)
Theorem translator_called_once_with_frame_only_for_video :
  forall view a w s,
    exists frame,
      translateCalls (effects (processInput view a w s))
        = [(Input.text a, Input.sourceLang a, Input.targetLang a, userProfile view,
            messages view, frame)]
      /\ (isVideoType (Input.type a) = false -> frame = None)
      /\ (videoRef s = None -> frame = None)
      /\ (forall video, videoRef s = Some video ->
            videoWidth video = 0%Z \/ videoHeight video = 0%Z -> frame = None)
      /\ (canvasContext w = false -> frame = None)
      /\ (forall video header payload,
            isVideoType (Input.type a) = true ->
            videoRef s = Some video ->
            videoWidth video <> 0%Z -> videoHeight video <> 0%Z ->
            canvasContext w = true ->
            dataUrl w = (header ++ String "," payload)%string ->
            hasChar "," header = false -> hasChar "," payload = false ->
            frame = Some payload).
Proof.
  intros view a w s. eexists. split; [apply translateCalls_processInput|].
  repeat apply conj.
  - now intros ->.
  - intros ->. now rewrite Bool.andb_false_r.
  - intros video Hv Hzero. rewrite Hv, Bool.andb_true_r.
    destruct (isVideoType (Input.type a)); [|reflexivity].
    unfold captureVideoFrame. rewrite Hv.
    destruct Hzero as [-> | ->]; simpl; [reflexivity|].
    now rewrite Bool.orb_true_r.
  - intros Hctx. unfold captureVideoFrame. rewrite Hctx.
    destruct (isVideoType (Input.type a)), (videoRef s) as [video|]; try reflexivity.
    cbn. now destruct (_ || _)%bool.
  - intros video header payload Hvideo Hv Hw Hh Hc Hd Hhead Hpay.
    rewrite Hvideo, Hv. simpl. eapply captureVideoFrame_payload; eauto.
Qed.

Lemma translator_called_once_with_frame_only_for_video_witness :
  exists frame,
    translateCalls (effects (processInput MoreSamples.cameraStore MoreSamples.videoInput
                               MoreSamples.frameWorld MoreSamples.cameraStore))
    = [("Donde esta la estacion?", Samples.spanish, Samples.english, Some Samples.alex,
        [], frame)]
    /\ frame = Some "QUJD".
Proof.
  destruct (translator_called_once_with_frame_only_for_video MoreSamples.cameraStore
              MoreSamples.videoInput MoreSamples.frameWorld MoreSamples.cameraStore)
    as (frame & Hcall & _ & _ & _ & _ & Hframe).
  exists frame. split; [exact Hcall|].
  exact (Hframe {| videoWidth := 640%Z; videoHeight := 480%Z |}
           "data:image/jpeg;base64" "QUJD" eq_refl eq_refl
           ltac:(discriminate) ltac:(discriminate) eq_refl eq_refl eq_refl eq_refl).
Defined.

(** X17: a send with a blank text box does nothing at all.
    Otherwise the typed text is submitted as a text message of the local user
    from the user's language to the partner's, and the text box is emptied
    whether or not the translation succeeds: on success the message with the
    typed text is appended, on failure nothing is. *)
Theorem sendTextMessage_behaviour :
  forall view w s,
    (JsString.blank (textInput view) = true -> sendTextMessage view w s = (s, []))
    /\ (JsString.blank (textInput view) = false ->
        textInput (final (sendTextMessage view w s)) = ""
        /\ translateCalls (effects (sendTextMessage view w s))
           = [(textInput view, langA view, langB view, userProfile view, messages view, None)]
        /\ scheduledCalls (effects (sendTextMessage view w s)) = []
        /\ (forall translationResult,
              translation w = Returned translationResult ->
              exists m,
                messages (final (sendTextMessage view w s)) = messages s ++ [m]
                /\ Message.originalText m = textInput view
                /\ Message.sender m = user
                /\ Message.type m = text
                /\ Message.isAutoReply m = Some false)
        /\ (forall err,
              translation w = Threw err ->
              messages (final (sendTextMessage view w s)) = messages s)).
Proof.
  intros view w s. split.
  - intros Hblank. unfold sendTextMessage. now rewrite Hblank.
  - intros Hblank. unfold sendTextMessage. rewrite Hblank.
    repeat apply conj.
    + run. destruct (translation w), (speech w),
        (OutputPreference_eqb (preference view) TRANSLATED), (playback w),
        (userProfile view); reflexivity.
    + run. destruct (translation w), (speech w),
        (OutputPreference_eqb (preference view) TRANSLATED), (playback w),
        (userProfile view); reflexivity.
    + run. destruct (translation w), (speech w),
        (OutputPreference_eqb (preference view) TRANSLATED), (playback w),
        (userProfile view); reflexivity.
    + intros tr Hok. eexists. run. rewrite Hok.
      destruct (speech w), (OutputPreference_eqb (preference view) TRANSLATED),
        (playback w), (userProfile view); cbn; repeat split; reflexivity.
    + intros err Hfail. run. rewrite Hfail. reflexivity.
Qed.

Lemma sendTextMessage_behaviour_witness :
  textInput (final (sendTextMessage MoreSamples.typedStore
                      (Samples.world (Returned Samples.hola) (Threw "tts") (Threw "off"))
                      MoreSamples.typedStore)) = "".
Proof.
  exact (proj1 (proj2 (sendTextMessage_behaviour MoreSamples.typedStore
                         (Samples.world (Returned Samples.hola) (Threw "tts") (Threw "off"))
                         MoreSamples.typedStore) eq_refl)).
Defined.

Lemma append_empty_r (s : string) : (s ++ "")%string = s.
Proof. induction s as [|c s IH]; simpl; [reflexivity | now rewrite IH]. Qed.

Lemma concat_empty_cons x l : String.concat "" (x :: l) = (x ++ String.concat "" l)%string.
Proof. destruct l; simpl; [now rewrite append_empty_r | reflexivity]. Qed.

Lemma transcripts_spec results :
  transcripts results = (interimTranscript results, finalTranscript results).
Proof.
  unfold interimTranscript, finalTranscript.
  induction results as [|[isFinal t] rest IH]; [reflexivity|].
  simpl transcripts. rewrite IH.
  destruct isFinal; cbn [filter fst snd negb map]; now rewrite concat_empty_cons.
Qed.

(** X18: a recognition event of a live session without final results
    submits nothing: the history and the phase are as before, no translation
    is asked for, and a non-empty interim transcript is shown.  An event with
    final results submits their transcripts, joined in order, as one input of
    the speaking party, from that party's language to the other's, of type
    video_live in the LIVE_VIDEO mode and audio_live otherwise; when its
    translation succeeds, the appended message has that text. *)
Theorem live_result_submits_final_transcripts :
  forall view who results w s,
    (finalTranscript results = "" ->
     messages (final (onLiveResult view who results w s)) = messages s
     /\ appState (final (onLiveResult view who results w s)) = appState s
     /\ translateCalls (effects (onLiveResult view who results w s)) = []
     /\ interimText (final (onLiveResult view who results w s))
        = if JsString.falsy (interimTranscript results) then interimText s
          else interimTranscript results)
    /\ (finalTranscript results <> "" ->
        (exists frame,
            translateCalls (effects (onLiveResult view who results w s))
            = [(finalTranscript results, spokenBy view who, heardBy view who,
                userProfile view, messages view, frame)])
        /\ (forall translationResult,
              translation w = Returned translationResult ->
              exists m,
                messages (final (onLiveResult view who results w s)) = messages s ++ [m]
                /\ Message.originalText m = finalTranscript results
                /\ Message.sender m = who
                /\ Message.type m
                   = (if CommMode_eqb (commMode view) LIVE_VIDEO then video_live
                      else audio_live)
                /\ Message.originalLang m = Language.code (spokenBy view who)
                /\ Message.targetLang m = Language.code (heardBy view who))).
Proof.
  intros view who results w s. unfold onLiveResult. rewrite transcripts_spec.
  split.
  - intros ->. simpl JsString.falsy. cbv iota.
    destruct (JsString.falsy (interimTranscript results)); repeat split; reflexivity.
  - intros Hne.
    destruct (finalTranscript results) as [|c f] eqn:Ef; [contradiction|].
    simpl JsString.falsy. cbv iota. split.
    + exists (if (isVideoType (if CommMode_eqb (commMode view) LIVE_VIDEO
                               then video_live else audio_live)
                  && match videoRef s with Some _ => true | None => false end)%bool
              then captureVideoFrame s w else None).
      run. unfold captureVideoFrame.
      destruct who, (negb (JsString.falsy (interimTranscript results))),
        (translation w), (speech w), (OutputPreference_eqb (preference view) TRANSLATED),
        (playback w), (userProfile view), (isAiResponderActive view), (avatar w);
        reflexivity.
    + intros tr Hok. exists (newMessage
        (Input.mk (String c f) (spokenBy view who) (heardBy view who) who
           (if CommMode_eqb (commMode view) LIVE_VIDEO then video_live else audio_live)
           None false) w tr).
      split; [|repeat split; reflexivity].
      rewrite !AppFacts.final_andThen, AppFacts.processInput_messages.
      unfold committed. rewrite Hok.
      destruct (negb (JsString.falsy (interimTranscript results))); reflexivity.
Qed.

(** ** How many messages a turn appends *)

Lemma live_result_submits_final_transcripts_witness :
  exists frame,
    translateCalls
      (effects (onLiveResult Samples.initialStore partner [(false, "Ho"); (true, "Hola")]
                  (Samples.world (Returned Samples.station) (Threw "tts") (Threw "off"))
                  Samples.initialStore))
    = [("Hola", Samples.spanish, Samples.english, None, [], frame)].
Proof.
  exact (proj1 (proj2 (live_result_submits_final_transcripts Samples.initialStore partner
                         [(false, "Ho"); (true, "Hola")]
                         (Samples.world (Returned Samples.station) (Threw "tts") (Threw "off"))
                         Samples.initialStore) ltac:(discriminate))).
Defined.

Lemma schedule_clearError due queue :
  localOnly queue ->
  localOnly (schedule due ClearError queue)
  /\ pendingCalls (schedule due ClearError queue) = pendingCalls queue.
Proof.
  unfold localOnly, pendingCalls.
  induction queue as [|[d c] rest IH]; intros H; simpl.
  - split; [repeat constructor | reflexivity].
  - destruct (due <? d)%Z; simpl.
    + split; [constructor; [exact I | exact H] | reflexivity].
    + inversion H; subst. destruct (IH H3) as [IH1 IH2]. split.
      * now constructor.
      * destruct c; simpl; now rewrite IH2.
Qed.

Lemma scheduleAll_local due view a w s queue :
  Input.sender a = user ->
  localOnly queue ->
  localOnly (scheduleAll due (effects (processInput view a w s)) queue)
  /\ pendingCalls (scheduleAll due (effects (processInput view a w s)) queue)
     = pendingCalls queue.
Proof.
  intros Hs Hq. unfold scheduleAll.
  destruct (AppFacts.local_user_timers view a w s Hs) as [-> | ->]; simpl.
  - now split.
  - now apply schedule_clearError.
Qed.

Lemma settle_local worlds : forall queue s,
  localOnly queue ->
  exists appended,
    messages (fst (fst (settle worlds queue s))) = messages s ++ appended
    /\ length appended <= pendingCalls queue.
Proof.
  induction worlds as [|w worlds IH]; intros queue s Hq.
  - exists []. simpl. split; [now rewrite app_nil_r | lia].
  - destruct queue as [|[due cb] rest].
    + exists []. simpl. split; [now rewrite app_nil_r | lia].
    + inversion Hq as [|x l Hcb Hrest]; subst. simpl in Hcb.
      cbn [settle]. destruct cb as [|view a|view]; [| |contradiction].
      * cbn [runCallback]. unfold clearError.
        change ((setErrorMsg None;; setAppState IDLE) s)
          with (with_appState IDLE (with_errorMsg None s), @nil Effect).
        cbv iota beta. unfold scheduleAll. simpl fold_left.
        destruct (IH rest (with_appState IDLE (with_errorMsg None s)) Hrest)
          as [appended [E Hlen]].
        destruct (settle worlds rest _) as [[s2 e2] pending]. simpl in *.
        exists appended. split; [exact E | exact Hlen].
      * cbn [runCallback].
        destruct (@scheduleAll_local due view a w s rest Hcb Hrest) as [Hl Hc].
        pose proof (AppFacts.processInput_messages view a w s) as Hm.
        unfold effects, final in *.
        destruct (processInput view a w s) as [s1 e1]. simpl in *.
        destruct (IH (scheduleAll due e1 rest) s1 Hl) as [appended [E Hlen]].
        destruct (settle worlds (scheduleAll due e1 rest) s1) as [[s2 e2] pending].
        simpl in *. exists (committed (view, a, w) ++ appended).
        split.
        -- rewrite E, Hm. now rewrite app_assoc.
        -- rewrite length_app, AppFacts.committed_length. rewrite Hc in Hlen.
           change (pendingCalls ((due, CallProcessInput view a) :: rest))
             with (S (pendingCalls rest)).
           destruct (succeeds (view, a, w)); lia.
Qed.

Lemma reply_timer_needs_active_responder view a w s cb ms view' b :
  In (cb, ms) (timers (effects (processInput view a w s))) ->
  cb = CallProcessInput view' b ->
  isAiResponderActive view = true /\ Input.sender a = partner.
Proof.
  run. cases view a w; cbn; intros Hin ->;
    repeat (destruct Hin as [Hin|Hin]; [try discriminate; auto|]);
    contradiction.
Qed.

(** X19: a turn, that is one invocation together with everything its
    timers lead to, appends at most two messages to the history, the second
    being the avatar's reply, and at most one when the responder is
    inactive or the input is the local user's; the history before the turn
    is kept as a prefix. *)
Theorem turn_appends_at_most_two_messages :
  forall view a clock w worlds s,
    exists appended,
      messages (final (turn view a clock w worlds s)) = messages s ++ appended
      /\ length appended <= 2
      /\ (isAiResponderActive view = false -> length appended <= 1)
      /\ (Input.sender a = user -> length appended <= 1).
Proof.
  intros view a clock w worlds s.
  pose proof (AppFacts.processInput_messages view a w s) as Hm.
  pose proof (AppFacts.processInput_timers view a w s) as Ht.
  pose proof (@reply_timer_needs_active_responder view a w s) as Hreply.
  unfold turn, final, effects in *.
  destruct (processInput view a w s) as [s1 e1]. simpl in *.
  assert (Hq : localOnly (scheduleAll clock e1 [])
               /\ pendingCalls (scheduleAll clock e1 []) <= 1
               /\ (isAiResponderActive view = false \/ Input.sender a = user ->
                   pendingCalls (scheduleAll clock e1 []) = 0)).
  { unfold scheduleAll.
    destruct Ht as [E | [E | [[reply E] | [reply E]]]]; rewrite E in *; simpl.
    - repeat split; [constructor | unfold pendingCalls; simpl; lia].
    - repeat split; [repeat constructor | unfold pendingCalls; simpl; lia].
    - repeat split; [repeat constructor | unfold pendingCalls; simpl; lia |].
      intros Hno. destruct (Hreply _ _ _ _ (or_introl eq_refl) eq_refl) as [H1 H2].
      destruct Hno; congruence.
    - replace (clock + 4000 <? clock + 1000)%Z with false
        by (symmetry; apply Z.ltb_ge; lia).
      repeat split; [repeat constructor | unfold pendingCalls; simpl; lia |].
      intros Hno. destruct (Hreply _ _ _ _ (or_introl eq_refl) eq_refl) as [H1 H2].
      destruct Hno; congruence. }
  destruct Hq as [Hl [Hc Hzero]].
  destruct (settle_local worlds s1 Hl) as [appended [E Hlen]].
  destruct (settle worlds (scheduleAll clock e1 []) s1) as [[s2 e2] pending].
  simpl in *. exists (committed (view, a, w) ++ appended).
  assert (Hfirst : length (committed (view, a, w)) <= 1).
  { rewrite AppFacts.committed_length. destruct (succeeds _); lia. }
  repeat apply conj.
  - rewrite E, Hm. now rewrite app_assoc.
  - rewrite length_app. lia.
  - intros Hinactive. rewrite length_app. rewrite (Hzero (or_introl Hinactive)) in Hlen. lia.
  - intros Hs. rewrite length_app. rewrite (Hzero (or_intror Hs)) in Hlen. lia.
Qed.

Lemma turn_appends_at_most_two_messages_witness :
  exists appended,
    messages (final (turn Samples.initialStore Samples.stationInput 0
                       (Samples.world (Returned Samples.station) (Threw "tts")
                          (Returned "At the corner."))
                       [] Samples.initialStore))
    = messages Samples.initialStore ++ appended
    /\ length appended <= 1.
Proof.
  destruct (turn_appends_at_most_two_messages Samples.initialStore Samples.stationInput 0
              (Samples.world (Returned Samples.station) (Threw "tts")
                 (Returned "At the corner."))
              [] Samples.initialStore) as (appended & Happ & _ & Hone & _).
  exists appended. split; [exact Happ | exact (Hone eq_refl)].
Defined.

End AppMoreFacts.

(** * Saving and loading the profile *)

Module ProfileStoreFacts.
Import App Observe ProfileLoad.
Local Open Scope handler_scope.

Lemma asUserProfile_profileToJS p : asUserProfile (profileToJS p) = Some p.
Proof.
  destruct p as [n l topics tones b]. unfold asUserProfile, profileToJS. simpl.
  now rewrite !GeminiServiceFacts.stringItems_map_JString.
Qed.

Lemma findLanguage_string code :
  findLanguage (Some (JString code)) = supportedLanguage code.
Proof. reflexivity. Qed.

(** X20: looking a supported language up by its code gives back
    that very language, and a lookup that succeeds gives a language of the
    table with the code asked for. *)
Theorem language_lookup_by_code :
  forall (l : Language.t) (code : string),
    (In l SUPPORTED_LANGUAGES -> supportedLanguage (Language.code l) = Some l)
    /\ (supportedLanguage code = Some l ->
        In l SUPPORTED_LANGUAGES /\ Language.code l = code).
Proof.
  intros l code. split.
  - intros Hin. simpl in Hin.
    repeat (destruct Hin as [<-|Hin]; [reflexivity|]). contradiction.
  - intros H. unfold supportedLanguage in H. apply find_some in H.
    destruct H as [Hin Heq]. split; [exact Hin|].
    apply String.eqb_eq in Heq. now symmetry.
Qed.

Lemma language_lookup_by_code_witness :
  supportedLanguage "es-ES" = Some Samples.spanish.
Proof.
  exact (proj1 (language_lookup_by_code Samples.spanish "es-ES")
           (or_intror (or_introl eq_refl))).
Defined.

Lemma saveProfile_run p s :
  persisted (effects (saveProfile p s)) = [p]
  /\ userProfile (final (saveProfile p s)) = Some p
  /\ showProfileSetup (final (saveProfile p s)) = false
  /\ messages (final (saveProfile p s)) = messages s
  /\ langA (final (saveProfile p s))
     = match supportedLanguage (UserProfile.primaryLanguage p) with
       | Some userLang => userLang
       | None => langA s
       end.
Proof.
  unfold saveProfile, andThen, final, effects.
  destruct (supportedLanguage (UserProfile.primaryLanguage p)); repeat split; reflexivity.
Qed.

(** X21: a saved profile comes back on the next load.  Saving
    writes the profile to storage, keeps it in memory, closes the dialog and
    makes the profile's language the user's when it is a supported one;
    loading the stored text, which parses back to the object saved, sets that
    same profile, with its tones untouched by the migration, and the same
    language, and does not open the setup dialog. *)
Theorem saved_profile_is_loaded_back :
  forall (JSON_parse : string -> option JSValue) (stored : string)
         (profile : UserProfile.t) (s : Store),
    stored <> "" ->
    JSON_parse stored = Some (profileToJS profile) ->
    persisted (effects (saveProfile profile s)) = [profile]
    /\ userProfile (final (saveProfile profile s)) = Some profile
    /\ showProfileSetup (final (saveProfile profile s)) = false
    /\ loadProfile JSON_parse (Some stored)
       = SetUserProfile (profileToJS profile)
         :: match supportedLanguage (UserProfile.primaryLanguage profile) with
            | Some userLang => [SetLangA userLang]
            | None => []
            end
    /\ option_map asUserProfile (loadedProfile JSON_parse (Some stored))
       = Some (Some profile)
    /\ langA (final (saveProfile profile s))
       = match supportedLanguage (UserProfile.primaryLanguage profile) with
         | Some userLang => userLang
         | None => langA s
         end.
Proof.
  intros JSON_parse stored profile s Hne Hparse.
  destruct (saveProfile_run profile s) as (H1 & H2 & H3 & _ & H5).
  assert (Hload : loadProfile JSON_parse (Some stored)
                  = SetUserProfile (profileToJS profile)
                    :: match supportedLanguage (UserProfile.primaryLanguage profile) with
                       | Some userLang => [SetLangA userLang]
                       | None => []
                       end).
  { unfold loadProfile. destruct stored as [|c stored]; [contradiction|].
    simpl JsString.falsy. cbv iota. rewrite Hparse. reflexivity. }
  repeat apply conj; try assumption.
  unfold loadedProfile. rewrite Hload.
  destruct (supportedLanguage _); cbn [fold_left option_map];
    now rewrite asUserProfile_profileToJS.
Qed.

Lemma saved_profile_is_loaded_back_witness :
  loadProfile SavedSamples.parseSavedOnly (Some SavedSamples.savedProfileText)
  = [SetUserProfile (profileToJS Samples.alex); SetLangA Samples.english].
Proof.
  exact (proj1 (proj2 (proj2 (proj2
           (saved_profile_is_loaded_back SavedSamples.parseSavedOnly
              (stored := SavedSamples.savedProfileText) (profile := Samples.alex)
              Samples.initialStore ltac:(discriminate) eq_refl))))).
Defined.

Lemma migrate_returns parsed parsed' :
  migrate parsed = Returned parsed' ->
  parsed <> JNull /\ parsed' <> JNull
  /\ exists v, Js.getProp "primaryLanguage" parsed' = Returned v.
Proof.
  unfold migrate. destruct parsed; simpl; try discriminate;
    try (intros [= <-]; repeat split; try discriminate; eexists; reflexivity).
  destruct (Js.lookup "tone" props) as [[]|]; simpl; intros [= <-];
    repeat split; try discriminate; eexists; reflexivity.
Qed.

Lemma migrate_throws parsed e : migrate parsed = Threw e -> parsed = JNull.
Proof.
  unfold migrate. destruct parsed as [| | | | |props]; simpl; try discriminate;
    try reflexivity.
  destruct (Js.lookup "tone" props) as [[]|]; discriminate.
Qed.

(** X22: on mount, exactly one of two things happens: the parsed
    value is set as the profile, or the setup dialog is opened.  The dialog
    is opened exactly when nothing is stored, the stored text is empty or
    not JSON, or it is the JSON [null].  The value set is not checked: a
    stored [false], number or string is set as the profile as it is, with no
    dialog and no change of language, so that stored [false], [0] or an
    empty string leave the component with a falsy profile and the dialog
    closed. *)
Theorem load_sets_profile_or_opens_setup :
  forall (JSON_parse : string -> option JSValue) (savedProfile : option string),
    (loadedProfile JSON_parse savedProfile = None
     <-> In (SetShowProfileSetup true) (loadProfile JSON_parse savedProfile))
    /\ (loadedProfile JSON_parse savedProfile = None
        <-> savedProfile = None \/ savedProfile = Some ""
            \/ exists saved, savedProfile = Some saved
                 /\ (JSON_parse saved = None \/ JSON_parse saved = Some JNull))
    /\ (forall saved parsed,
          savedProfile = Some saved ->
          saved <> "" ->
          JSON_parse saved = Some parsed ->
          (exists b, parsed = JBool b) \/ (exists literal, parsed = JNumber literal)
          \/ (exists text, parsed = JString text) ->
          loadProfile JSON_parse savedProfile = [SetUserProfile parsed]
          /\ loadedProfile JSON_parse savedProfile = Some parsed).
Proof.
  intros JSON_parse savedProfile. split; [|split].
  - unfold loadedProfile, loadProfile.
    destruct savedProfile as [[|c saved]|]; simpl JsString.falsy; cbv iota;
      try (simpl; split; auto; fail).
    destruct (JSON_parse (String c saved)) as [parsed|] eqn:Hparse;
      [|simpl; split; auto].
    destruct (migrate parsed) as [parsed'|e] eqn:Hmig; [|simpl; split; auto].
    destruct (migrate_returns _ Hmig) as (Hnn & _ & v & Hv). rewrite Hv.
    destruct (findLanguage v); simpl; split; try discriminate; intuition discriminate.
  - unfold loadedProfile, loadProfile.
    destruct savedProfile as [[|c saved]|]; simpl JsString.falsy; cbv iota;
      try (simpl; split; auto; fail).
    destruct (JSON_parse (String c saved)) as [parsed|] eqn:Hparse.
    + destruct (migrate parsed) as [parsed'|e] eqn:Hmig.
      * destruct (migrate_returns _ Hmig) as (Hnn & _ & v & Hv). rewrite Hv.
        destruct (findLanguage v); simpl; split; try discriminate;
          intros [H|[H|(x & [= <-] & [H|H])]]; congruence.
      * simpl. split; auto. intros _.
        right. right. exists (String c saved). split; [reflexivity|]. right.
        apply migrate_throws in Hmig. now rewrite Hparse, Hmig.
    + simpl. split; auto. intros _.
      right. right. exists (String c saved). auto.
  - intros saved parsed -> Hne Hparse Hprim.
    unfold loadedProfile, loadProfile.
    destruct saved as [|c saved]; [contradiction|]. simpl JsString.falsy. cbv iota.
    rewrite Hparse.
    destruct Hprim as [[b ->]|[[literal ->]|[text ->]]]; split; reflexivity.
Qed.

Lemma load_sets_profile_or_opens_setup_witness :
  ProfileLoad.loadProfile SavedSamples.parseFalseOnly (Some "false")
  = [SetUserProfile (JBool false)]
  /\ ProfileLoad.loadedProfile SavedSamples.parseFalseOnly (Some "false")
     = Some (JBool false).
Proof.
  exact (proj2 (proj2 (load_sets_profile_or_opens_setup SavedSamples.parseFalseOnly
                         (Some "false")))
           "false" (JBool false) eq_refl ltac:(discriminate) eq_refl
           (or_introl (ex_intro _ false eq_refl))).
Defined.

(** X23: the migration of the tone is idempotent: a profile that
    went through it once is left as it is by a second pass, so a migrated
    profile that is saved and loaded again is not changed further. *)
Theorem tone_migration_is_idempotent :
  forall parsed parsed',
    migrate parsed = Returned parsed' ->
    migrate parsed' = Returned parsed'.
Proof.
  intros parsed parsed'. unfold migrate.
  destruct parsed; simpl; try discriminate; try (intros [= <-]; reflexivity).
  destruct (Js.lookup "tone" props) as [tone|] eqn:Htone; simpl.
  - destruct tone; simpl; intros [= <-]; simpl; rewrite ?Htone; try reflexivity.
    now rewrite JsFacts.lookup_assign_eq.
  - intros [= <-]. simpl. now rewrite Htone.
Qed.

Lemma tone_migration_is_idempotent_witness :
  migrate (JObject [("name", JString "Alex"); ("primaryLanguage", JString "es-ES");
                    ("conversationTypes", JArray [JString "Travel"]);
                    ("tone", JArray [JString "Formal"]); ("bio", JString "")])
  = Returned (JObject [("name", JString "Alex"); ("primaryLanguage", JString "es-ES");
                       ("conversationTypes", JArray [JString "Travel"]);
                       ("tone", JArray [JString "Formal"]); ("bio", JString "")]).
Proof.
  exact (@tone_migration_is_idempotent Samples.legacyProfileValue _ eq_refl).
Defined.

End ProfileStoreFacts.

(** * Live listening, media recording and the recording timer *)

Module CaptureFacts.
Import App Capture.
Local Open Scope capture_scope.

(** ** The display of the recording time *)

Lemma to_int_proper z : Z.to_int z <> Decimal.Pos Decimal.Nil /\ Z.to_int z <> Decimal.Neg Decimal.Nil.
Proof.
  destruct z; simpl; split; try discriminate; intros [= H];
    now apply DecimalPos.Unsigned.to_uint_nonnil in H.
Qed.

Lemma ofNumber_injective a b : JsString.ofNumber a = JsString.ofNumber b -> a = b.
Proof.
  unfold JsString.ofNumber. intros H.
  apply (f_equal NilZero.int_of_string) in H.
  destruct (to_int_proper a), (to_int_proper b).
  rewrite !NilZero.isi in H by assumption.
  injection H as H. apply (f_equal Z.of_int) in H.
  now rewrite !DecimalZ.of_to in H.
Qed.

Lemma below_sixty (P : Z -> Prop) (check : Z -> bool) :
  (forall r, check r = true -> P r) ->
  forallb (fun n => check (Z.of_nat n)) (seq 0 60) = true ->
  forall r, (0 <= r < 60)%Z -> P r.
Proof.
  intros Hcheck Hall r Hr. apply Hcheck.
  rewrite forallb_forall in Hall.
  rewrite <- (Z2Nat.id r) by lia. apply Hall, in_seq. lia.
Qed.

Lemma seconds_field_length :
  forall r, (0 <= r < 60)%Z -> String.length (padStart2 (JsString.ofNumber r)) = 2.
Proof.
  apply (below_sixty (fun r => String.length (padStart2 (JsString.ofNumber r)) = 2)
           (fun r => Nat.eqb (String.length (padStart2 (JsString.ofNumber r))) 2)).
  - intros r H. now apply Nat.eqb_eq.
  - now vm_compute.
Qed.

Lemma seconds_field_injective :
  forall r, (0 <= r < 60)%Z -> forall r', (0 <= r' < 60)%Z ->
  padStart2 (JsString.ofNumber r) = padStart2 (JsString.ofNumber r') -> r = r'.
Proof.
  apply (below_sixty
           (fun r => forall r', (0 <= r' < 60)%Z ->
              padStart2 (JsString.ofNumber r) = padStart2 (JsString.ofNumber r') -> r = r')
           (fun r => forallb (fun n =>
                        implb (String.eqb (padStart2 (JsString.ofNumber r))
                                 (padStart2 (JsString.ofNumber (Z.of_nat n))))
                              (Z.eqb r (Z.of_nat n))) (seq 0 60))); [| now vm_compute].
  intros r Hall r' Hr' Heq.
  rewrite forallb_forall in Hall.
  assert (Hin : In (Z.to_nat r') (seq 0 60)) by (apply in_seq; lia).
  pose proof (Hall _ Hin) as H. cbv beta in H.
  rewrite Z2Nat.id in H by lia.
  rewrite Heq, String.eqb_refl in H. now apply Z.eqb_eq.
Qed.

Lemma append_cancel_by_length (a a' b b' : string) :
  String.length b = String.length b' ->
  (a ++ b)%string = (a' ++ b')%string -> a = a' /\ b = b'.
Proof.
  revert a'. induction a as [|c a IH]; intros [|c' a'] Hlen H; simpl in *.
  - now split.
  - exfalso. apply (f_equal String.length) in H. simpl in H.
    rewrite GeminiServiceFacts.length_append in H. lia.
  - exfalso. apply (f_equal String.length) in H. simpl in H.
    rewrite GeminiServiceFacts.length_append in H. lia.
  - injection H as -> H. destruct (IH a' Hlen H) as [-> ->]. now split.
Qed.

(** X24: for a recording time between zero and the largest safe
    integer, the display is the minutes, a colon and the seconds in exactly
    two digits, and different times are displayed differently. *)
Theorem formatTime_shape_and_injective :
  forall seconds other : Z,
    (0 <= seconds <= MAX_SAFE_INTEGER)%Z ->
    (0 <= other <= MAX_SAFE_INTEGER)%Z ->
    (exists secs,
        formatTime seconds = (JsString.ofNumber (seconds / 60) ++ ":" ++ secs)%string
        /\ String.length secs = 2
        /\ secs = padStart2 (JsString.ofNumber (seconds mod 60)))
    /\ (formatTime seconds = formatTime other -> seconds = other).
Proof.
  intros seconds other [Hs _] [Ho _].
  assert (Hrem : forall z, (0 <= z)%Z -> Z.rem z 60 = (z mod 60)%Z).
  { intros z Hz. apply Z.rem_mod_nonneg; lia. }
  assert (Hmod : forall z, (0 <= z mod 60 < 60)%Z) by (intros; apply Z.mod_pos_bound; lia).
  split.
  - eexists. unfold formatTime. rewrite Hrem by assumption.
    split; [reflexivity | split; [apply seconds_field_length, Hmod | reflexivity]].
  - unfold formatTime. rewrite !Hrem by assumption. intros H.
    apply append_cancel_by_length in H.
    + destruct H as [H1 H2]. apply ofNumber_injective in H1.
      injection H2 as H2. apply seconds_field_injective in H2; try apply Hmod.
      rewrite (Z.div_mod seconds 60), (Z.div_mod other 60) by lia. now rewrite H1, H2.
    + simpl. now rewrite !seconds_field_length by apply Hmod.
Qed.

Lemma formatTime_shape_and_injective_witness :
  formatTime 75 = ("1" ++ ":" ++ "15")%string.
Proof.
  destruct (proj1 (@formatTime_shape_and_injective 75%Z 75%Z
                    ltac:(unfold MAX_SAFE_INTEGER; lia) ltac:(unfold MAX_SAFE_INTEGER; lia)))
    as [secs [H [_ ->]]]. exact H.
Defined.

(** ** A recording from start to stop *)

Lemma fst_andThen (h k : CaptureHandler) s : fst ((h ;; k) s) = fst (k (fst (h s))).
Proof.
  unfold andThen. destruct (h s) as [s1 e1]. simpl. now destruct (k s1).
Qed.

Lemma snd_andThen (h k : CaptureHandler) s :
  snd ((h ;; k) s) = snd (h s) ++ snd (k (fst (h s))).
Proof.
  unfold andThen. destruct (h s) as [s1 e1]. simpl. now destruct (k s1).
Qed.

Lemma coreEffects_app es es' : coreEffects (es ++ es') = coreEffects es ++ coreEffects es'.
Proof.
  induction es as [|[e|c] es IH]; simpl; now rewrite ?IH.
Qed.

Lemma coreEffects_inl es : coreEffects (map inl es) = es.
Proof. induction es as [|e es IH]; simpl; now rewrite ?IH. Qed.

(** What the events of a recording change and what they leave alone. *)
Lemma during_frame events : forall s,
  chunksRef (fst (during events s)) = chunksRef s ++ keptChunks events
  /\ interimText (fst (during events s)) = lastTranscript (interimText s) events
  /\ mediaTimer (fst (during events s)) = (mediaTimer s + ticks events)%Z
  /\ commMode (fst (during events s)) = commMode s
  /\ recordingWho (fst (during events s)) = recordingWho s
  /\ isMediaRecording (fst (during events s)) = isMediaRecording s
  /\ mediaRecorderRef (fst (during events s)) = mediaRecorderRef s
  /\ recognitionRef (fst (during events s)) = recognitionRef s
  /\ langA (fst (during events s)) = langA s
  /\ langB (fst (during events s)) = langB s
  /\ messages (fst (during events s)) = messages s
  /\ coreEffects (snd (during events s)) = []
  /\ appState (fst (during events s)) = appState s.
Proof.
  induction events as [|e events IH]; intros s.
  - simpl. rewrite app_nil_r, Z.add_0_r. repeat split; reflexivity.
  - cbn [during]. rewrite !fst_andThen, snd_andThen, coreEffects_app.
    destruct (IH (fst (onRecordingEvent e s)))
      as (H1 & H2 & H3 & H4 & H5 & H6 & H7 & H8 & H9 & H10 & H11 & H12 & H13).
    rewrite H1, H2, H3, H4, H5, H6, H7, H8, H9, H10, H11, H12, H13.
    assert (Hticks : forall e', ticks (e' :: events)
                       = ((match e' with Tick => 1 | _ => 0 end) + ticks events)%Z).
    { intros e'. unfold ticks. destruct e'; cbn [filter length]; lia. }
    rewrite Hticks.
    destruct e as [[|b chunk]|transcripts|];
      unfold onRecordingEvent, onDataAvailable, onRecordingResult, tick, lift,
        setInterimText, update, skip;
      cbn [fst snd map coreEffects app chunksRef interimText mediaTimer commMode
           recordingWho isMediaRecording mediaRecorderRef recognitionRef langA langB
           messages appState with_chunksRef with_interimText with_mediaTimer keptChunks
           lastTranscript];
      repeat split; try reflexivity; try (now rewrite <- app_assoc); lia.
Qed.

Lemma keptChunks_app before after :
  keptChunks (before ++ after) = keptChunks before ++ keptChunks after.
Proof.
  induction before as [|[[|b chunk]|transcripts|] before IH]; simpl; now rewrite ?IH.
Qed.

(** X25: a recording that starts, runs and is stopped sets one
    timer of 500 ms at the stop.  The input that timer submits when it fires
    carries a media blob holding exactly the non-empty chunks that arrived up
    to then, before and after the stop, in their order, with the container
    type of the mode; its text is the transcript of the last recognition
    result before the stop, or, if there was none, the interim text left
    from before the recording, and the placeholder "(Audio Content)" when
    that is empty; a result that arrives after the stop is not used; its
    sender is the recording party.  When its translation succeeds the
    appended message has that text and that blob.  The stop leaves the phase
    at IDLE and nobody recording. *)
Theorem recording_hands_over_what_was_captured :
  forall view mode who speechSupported before after s,
    exists stopView,
      App.timers
        (coreEffects (snd (record view mode who speechSupported before after s)))
        = [(FinishRecording stopView, 500%Z)]
      /\ Input.mediaBlob
           (recordingInput stopView
              (fst (record view mode who speechSupported before after s)))
         = Some {| blobParts := keptChunks (before ++ after);
                   blobType := if CommMode_eqb (commMode s) REC_VIDEO
                               then "video/webm" else "audio/webm" |}
      /\ Input.text
           (recordingInput stopView
              (fst (record view mode who speechSupported before after s)))
         = JsString.orElse (lastTranscript (interimText s) before) "(Audio Content)"
      /\ Input.sender
           (recordingInput stopView
              (fst (record view mode who speechSupported before after s)))
         = who
      /\ Input.type
           (recordingInput stopView
              (fst (record view mode who speechSupported before after s)))
         = (if CommMode_eqb (commMode s) REC_VIDEO then video_file else audio_file)
      /\ mediaTimer stopView = (mediaTimer s + ticks before)%Z
      /\ appState (fst (record view mode who speechSupported before after s)) = IDLE
      /\ isMediaRecording (fst (record view mode who speechSupported before after s))
         = false
      /\ recordingWho (fst (record view mode who speechSupported before after s)) = None
      /\ messages (fst (record view mode who speechSupported before after s))
         = messages s
      /\ (forall w translationResult,
            translation w = Returned translationResult ->
            exists m,
              messages
                (final (runCallback (FinishRecording stopView) w
                          (fst (record view mode who speechSupported before after s))))
              = messages s ++ [m]
              /\ Message.originalText m
                 = JsString.orElse (lastTranscript (interimText s) before)
                     "(Audio Content)"
              /\ Message.originalAudioBlob m
                 = Some {| blobParts := keptChunks (before ++ after);
                           blobType := if CommMode_eqb (commMode s) REC_VIDEO
                                       then "video/webm" else "audio/webm" |}
              /\ Message.sender m = who).
Proof.
  intros view mode who speechSupported before after s.
  unfold record.
  set (s0 := fst (startMediaRecording view mode who (Returned tt) speechSupported s)).
  assert (Hstart : chunksRef s0 = [] /\ interimText s0 = interimText s
                   /\ mediaTimer s0 = mediaTimer s /\ commMode s0 = commMode s
                   /\ recordingWho s0 = Some who /\ isMediaRecording s0 = true
                   /\ mediaRecorderRef s0 = true /\ messages s0 = messages s
                   /\ App.timers (coreEffects
                        (snd (startMediaRecording view mode who (Returned tt)
                                speechSupported s))) = []).
  { unfold s0, startMediaRecording, andThen, when, lift, command.
    destruct speechSupported; cbn; repeat split; reflexivity. }
  destruct Hstart as (S1 & S2 & S3 & S4 & S5 & S6 & S7 & S8 & S9).
  destruct (during_frame before s0)
    as (H1 & H2 & H3 & H4 & H5 & H6 & H7 & H8 & H9 & H10 & H11 & H12 & H13).
  set (s1 := fst (during before s0)) in *.
  exists s1.
  rewrite !fst_andThen, !snd_andThen, !coreEffects_app, !AppFacts.timers_app.
  fold s0. fold s1. rewrite S9, H12. cbn [app App.timers].
  unfold reading, lift.
  assert (Hstop : stopMediaRecording s1 s1
                  = (with_appState IDLE (with_recordingWho None
                       (with_isMediaRecording false s1)),
                     [StopRecorder; StopTracks]
                     ++ (if recognitionRef s1 then [StopRecognition] else [])
                     ++ [TriggerHaptic HapticUtils.heavy;
                         SetTimeout (FinishRecording s1) 500])).
  { unfold stopMediaRecording, App.reading, App.when. rewrite H6, H7, S6, S7.
    destruct (recognitionRef s1); reflexivity. }
  rewrite Hstop. cbn [fst snd]. rewrite coreEffects_inl.
  set (s2 := with_appState IDLE (with_recordingWho None (with_isMediaRecording false s1))).
  destruct (during_frame after s2)
    as (A1 & A2 & A3 & A4 & A5 & A6 & A7 & A8 & A9 & A10 & A11 & A12 & A13).
  set (s3 := fst (during after s2)) in *.
  rewrite A12, app_nil_r.
  assert (Hblob : Input.mediaBlob (recordingInput s1 s3)
                  = Some {| blobParts := keptChunks (before ++ after);
                            blobType := if CommMode_eqb (commMode s) REC_VIDEO
                                        then "video/webm" else "audio/webm" |}).
  { unfold recordingInput. cbn [Input.mediaBlob]. rewrite A1, H4, S4, keptChunks_app.
    unfold s2. cbn [chunksRef with_appState with_recordingWho with_isMediaRecording].
    now rewrite H1, S1. }
  assert (Htext : Input.text (recordingInput s1 s3)
                  = JsString.orElse (lastTranscript (interimText s) before)
                      "(Audio Content)").
  { unfold recordingInput. cbn [Input.text]. now rewrite H2, S2. }
  assert (Hwho : Input.sender (recordingInput s1 s3) = who).
  { unfold recordingInput. cbn [Input.sender]. now rewrite H5, S5. }
  assert (Hmsgs : messages s3 = messages s).
  { rewrite A11. unfold s2. cbn. now rewrite H11, S8. }
  repeat apply conj.
  - destruct (recognitionRef s1); reflexivity.
  - exact Hblob.
  - exact Htext.
  - exact Hwho.
  - unfold recordingInput. cbn [Input.type]. now rewrite H4, S4.
  - now rewrite H3, S3.
  - rewrite A13. reflexivity.
  - rewrite A6. reflexivity.
  - rewrite A5. reflexivity.
  - exact Hmsgs.
  - intros w tr Hok. eexists.
    cbn [runCallback]. unfold finishRecording, App.reading.
    rewrite AppFacts.processInput_messages. unfold committed. rewrite Hok, Hmsgs.
    repeat apply conj; [reflexivity | | | ].
    + cbn [newMessage Message.originalText]. exact Htext.
    + cbn [newMessage Message.originalAudioBlob]. exact Hblob.
    + cbn [newMessage Message.sender]. exact Hwho.
Qed.



(** A live session that ends without a final result: the start, the engine's
    report that it runs, an error, and the end of the session. *)
Lemma live_session_run view who error s :
  let r := (startLiveListening view true who ;; onLiveStart who ;;
            onLiveError error ;; onLiveEnd view) s in
  recordingWho (fst r) = None
  /\ messages (fst r) = messages s
  /\ errorMsg (fst r) = errorMsg s
  /\ interimText (fst r) = ""
  /\ appState (fst r)
     = if AppState_eqb (appState view) LISTENING then IDLE
       else if String.eqb error "no-speech" then LISTENING else IDLE.
Proof.
  unfold startLiveListening, onLiveStart, onLiveError, onLiveEnd, andThen, reading,
    when, lift, command. cbv beta zeta; cbn [negb]; cbv beta.
  destruct (recognitionRef s), (String.eqb error "no-speech"),
    (AppState_eqb (appState view) LISTENING); cbn; repeat split; reflexivity.
Qed.

(** X27: a live session that ends on an error without any final
    result leaves the history and the error message as they were and nobody
    marked as speaking.  After any error but "no-speech" the phase is IDLE.
    After "no-speech" the end of the session returns the phase to IDLE only
    if the snapshot the session was started from had phase LISTENING; started
    from any other phase, the session leaves the phase at LISTENING. *)
Theorem live_session_without_result :
  forall view who error s,
    recordingWho (fst ((startLiveListening view true who ;; onLiveStart who ;;
                        onLiveError error ;; onLiveEnd view) s)) = None
    /\ messages (fst ((startLiveListening view true who ;; onLiveStart who ;;
                       onLiveError error ;; onLiveEnd view) s)) = messages s
    /\ errorMsg (fst ((startLiveListening view true who ;; onLiveStart who ;;
                       onLiveError error ;; onLiveEnd view) s)) = errorMsg s
    /\ (error <> "no-speech" ->
        appState (fst ((startLiveListening view true who ;; onLiveStart who ;;
                        onLiveError error ;; onLiveEnd view) s)) = IDLE)
    /\ (error = "no-speech" -> appState view = LISTENING ->
        appState (fst ((startLiveListening view true who ;; onLiveStart who ;;
                        onLiveError error ;; onLiveEnd view) s)) = IDLE)
    /\ (error = "no-speech" -> appState view <> LISTENING ->
        appState (fst ((startLiveListening view true who ;; onLiveStart who ;;
                        onLiveError error ;; onLiveEnd view) s)) = LISTENING).
Proof.
  intros view who error s.
  destruct (live_session_run view who error s) as (H1 & H2 & H3 & _ & H5).
  cbv zeta in *. repeat apply conj; try assumption.
  - intros Hne. rewrite H5. apply String.eqb_neq in Hne. rewrite Hne.
    now destruct (AppState_eqb (appState view) LISTENING).
  - intros -> Hview. rewrite H5, Hview. reflexivity.
  - intros -> Hview. rewrite H5.
    destruct (appState view); try reflexivity. contradiction.
Qed.

Lemma live_session_without_result_witness :
  appState (fst ((startLiveListening Samples.initialStore true partner ;;
                  onLiveStart partner ;; onLiveError "no-speech" ;;
                  onLiveEnd Samples.initialStore) Samples.initialStore)) = LISTENING.
Proof.
  exact (proj2 (proj2 (proj2 (proj2 (proj2
           (@live_session_without_result Samples.initialStore partner "no-speech"
              Samples.initialStore))))) eq_refl ltac:(discriminate)).
Defined.

(** X28: a press on a party's microphone button stops the session
    when the snapshot shows that party listening, and otherwise starts one
    for that party in that party's language, aborting a session still held;
    without a speech engine it sets the error "Speech recognition not
    supported in this browser." and starts nothing. *)
Theorem toggle_stops_own_session_or_starts_one :
  forall view speechSupported who s,
    (appState view = LISTENING -> recordingWho view = Some who ->
     snd (toggleLiveListening view speechSupported who s)
     = inl (TriggerHaptic HapticUtils.selection)
       :: (if recognitionRef s
           then [inl StopRecognition; inl (TriggerHaptic HapticUtils.selection)]
           else [])
     /\ fst (toggleLiveListening view speechSupported who s) = s)
    /\ (appState view <> LISTENING \/ recordingWho view <> Some who ->
        speechSupported = true ->
        snd (toggleLiveListening view speechSupported who s)
        = inl (TriggerHaptic HapticUtils.selection)
          :: (if recognitionRef s then [inr AbortRecognition] else [])
          ++ [inr (StartRecognition (Language.code (spokenBy view who)))]
        /\ recognitionRef (fst (toggleLiveListening view speechSupported who s)) = true
        /\ appState (fst (toggleLiveListening view speechSupported who s)) = appState s)
    /\ (appState view <> LISTENING \/ recordingWho view <> Some who ->
        speechSupported = false ->
        errorMsg (fst (toggleLiveListening view speechSupported who s))
          = Some "Speech recognition not supported in this browser."
        /\ forall lang, ~ In (inr (StartRecognition lang))
                          (snd (toggleLiveListening view speechSupported who s))).
Proof.
  intros view speechSupported who s.
  assert (Hcond : forall b, (AppState_eqb (appState view) LISTENING
             && match recordingWho view with
                | Some w => Sender_eqb w who
                | None => false
                end)%bool = b ->
            if b then appState view = LISTENING /\ recordingWho view = Some who
            else appState view <> LISTENING \/ recordingWho view <> Some who).
  { intros b <-. destruct (appState view), (recordingWho view) as [[]|], who; simpl;
      try (split; reflexivity); try (left; discriminate); right; discriminate. }
  pose proof (Hcond _ eq_refl) as E. clear Hcond.
  unfold toggleLiveListening, stopLiveListening, startLiveListening, andThen, reading,
    when, lift, command, handleError, App.andThen. cbv beta.
  destruct (AppState_eqb (appState view) LISTENING
            && match recordingWho view with
               | Some w => Sender_eqb w who
               | None => false
               end)%bool; cbv beta iota.
  - destruct E as [E1 E2]. repeat apply conj.
    + intros _ _. cbn. destruct (recognitionRef s); cbn; split; reflexivity.
    + intros [H|H]; contradiction.
    + intros [H|H]; contradiction.
  - repeat apply conj.
    + intros H1 H2. destruct E; contradiction.
    + intros _ ->. cbn. destruct (recognitionRef s); cbn; repeat split; reflexivity.
    + intros _ ->. cbn. split; [reflexivity|].
      intros lang [H|[H|[H|[]]]]; discriminate.
Qed.

Lemma toggle_stops_own_session_or_starts_one_witness :
  snd (toggleLiveListening Samples.initialStore true user Samples.initialStore)
  = [inl (TriggerHaptic HapticUtils.selection); inr (StartRecognition "en-US")].
Proof.
  assert (Hne : appState Samples.initialStore <> LISTENING) by discriminate.
  pose proof (proj1 (proj2 (toggle_stops_own_session_or_starts_one
                              Samples.initialStore true user Samples.initialStore)))
    as Hstart.
  pose proof (proj1 (Hstart (or_introl Hne) (eq_refl true))) as H.
  vm_compute in H. vm_compute. exact H.
Defined.

End CaptureFacts.
(** * What the component shows, and handlers of an earlier render *)

Module ScreenFacts.
Import App Screen.
Local Open Scope handler_scope.

(** Nothing rendered depends on the error message. *)
Lemma rendered_ignores_errorMsg msg s : rendered (with_errorMsg msg s) = rendered s.
Proof. reflexivity. Qed.

(** After a thrown translation the screen is that of the state the call
    started from, but for the phase, the cleared interim transcript and, for
    the local user, the cleared suggestions; it is the same after the timer
    of the error has fired. *)
Lemma fatal_failure_screen view a w s err :
  translation w = Threw err ->
  rendered (final (processInput view a w s))
  = rendered (with_appState IDLE
                (with_interimText ""
                   (if Sender_eqb (Input.sender a) user then with_smartReplies [] s else s)))
  /\ forall w',
       rendered (final (runCallback ClearError w' (final (processInput view a w s))))
       = rendered (final (processInput view a w s)).
Proof.
  intros Hthrew. unfold processInput, handleError, runCallback, clearError, reading, when,
    andThen, final, setAppState, setInterimText, setSmartReplies, setErrorMsg,
    triggerHaptic, emit, update, skip.
  rewrite Hthrew. destruct (Sender_eqb (Input.sender a) user); split; reflexivity.
Qed.

(** C2: the local user sends "Hello" and the translation call rejects.  The
    error message cell is set and the phase is IDLE, but what the component
    renders is exactly what it rendered before the call, and again so after
    the timer of the error has fired: the error is never shown. *)
Theorem fatal_failure_error_is_not_rendered :
  errorMsg (final (Scenarios.failedHello Samples.initialStore))
  = Some "Processing failed. Please try again."
  /\ appState (final (Scenarios.failedHello Samples.initialStore)) = IDLE
  /\ rendered (final (Scenarios.failedHello Samples.initialStore))
     = rendered Samples.initialStore
  /\ rendered (final (runCallback ClearError Scenarios.answered
                        (final (Scenarios.failedHello Samples.initialStore))))
     = rendered Samples.initialStore.
Proof. repeat apply conj; reflexivity. Qed.

End ScreenFacts.

Module StaleRenderFacts.
Import App Capture Scenarios.


(** C7: the responder is on when the partner taps the microphone and is
    switched off while the partner speaks.  When the partner's result
    arrives the responder is inactive, and stays so, yet the avatar service
    is asked and a second [processInput] call is scheduled, which, fired,
    appends the avatar's reply as a message of the local user flagged as
    auto-reply. *)
Theorem reply_scheduled_with_responder_off :
  isAiResponderActive Samples.respondingStore = true
  /\ isAiResponderActive (toggledWhilePartnerSpeaks Samples.respondingStore) = false
  /\ isAiResponderActive
       (final (partnerResultAfterToggle Samples.respondingStore answered
                 (toggledWhilePartnerSpeaks Samples.respondingStore))) = false
  /\ length
       (avatarRequests
          (effects (partnerResultAfterToggle Samples.respondingStore answered
                      (toggledWhilePartnerSpeaks Samples.respondingStore)))) = 1
  /\ timers
       (effects (partnerResultAfterToggle Samples.respondingStore answered
                   (toggledWhilePartnerSpeaks Samples.respondingStore)))
     = [(CallProcessInput Samples.respondingStore
           (autoReplyInput Samples.respondingStore "At the corner, two blocks north."),
         1000%Z)]
  /\ map (fun m => (Message.sender m, Message.originalText m, Message.isAutoReply m))
       (messages
          (final (runCallback
                    (CallProcessInput Samples.respondingStore
                       (autoReplyInput Samples.respondingStore
                          "At the corner, two blocks north."))
                    (Samples.world (Returned Samples.hola) (Threw "tts") (Threw "unused"))
                    (final (partnerResultAfterToggle Samples.respondingStore answered
                              (toggledWhilePartnerSpeaks Samples.respondingStore))))))
     = [(partner, "Donde esta la estacion?", Some false);
        (user, "At the corner, two blocks north.", Some true)].
Proof. repeat apply conj; reflexivity. Qed.

(** C8: a live session leaves the interim transcript "Ho" behind; a voice
    note is then recorded during which no transcript is captured.  The stop
    sets its timer, and what the timer submits as the text of the recording
    is "Ho", not the placeholder "(Audio Content)"; when the translation
    succeeds that is the original text of the appended message.
    [startMediaRecording] does not clear the interim transcript, as the
    start of a live session does. *)
Theorem silent_recording_submits_stale_transcript :
  interimText afterAbandonedSession = "Ho"
  /\ appState afterAbandonedSession = IDLE
  /\ isMediaRecording afterAbandonedSession = false
  /\ exists stopView,
       timers (coreEffects (snd (silentVoiceNote afterAbandonedSession)))
       = [(FinishRecording stopView, 500%Z)]
       /\ Input.text (recordingInput stopView (fst (silentVoiceNote afterAbandonedSession)))
          = "Ho"
       /\ Input.sender (recordingInput stopView (fst (silentVoiceNote afterAbandonedSession)))
          = user
       /\ map Message.originalText
            (messages
               (final (runCallback (FinishRecording stopView)
                         (Samples.world (Returned Samples.hola) (Threw "tts") (Threw "off"))
                         (fst (silentVoiceNote afterAbandonedSession)))))
          = ["Ho"].
Proof.
  repeat apply conj; try reflexivity.
  eexists. repeat apply conj; reflexivity.
Qed.

End StaleRenderFacts.

(** * Translation results of any shape *)

Module UncheckedFacts.
Import App.

Lemma lookup_toJS tr :
  Js.lookup "translatedText" (match GeminiService.toJS tr with
                              | JObject props => props | _ => [] end)
  = Some (JString (TranslationResponse.translatedText tr))
  /\ Js.lookup "suggestedResponses" (match GeminiService.toJS tr with
                                     | JObject props => props | _ => [] end)
     = Some (JArray (map JString (TranslationResponse.suggestedResponses tr)))
  /\ Js.lookup "detectedEmotion" (match GeminiService.toJS tr with
                                  | JObject props => props | _ => [] end)
     = option_map JString (TranslationResponse.detectedEmotion tr).
Proof.
  destruct tr as [t rs [e|]]; repeat split; reflexivity.
Qed.

(** On a result of the declared shape the literal is the one of
    [App.newMessage]. *)
Lemma newMessage_toJS a w tr :
  Unchecked.newMessage a w (GeminiService.toJS tr)
  = Returned (Unchecked.ofMessage (newMessage a w tr)).
Proof.
  destruct tr as [t rs [e|]]; reflexivity.
Qed.

(** What a call appends is then what [App.processInput] appends. *)
Lemma committed_toJS view a w tr :
  translation w = Returned tr ->
  Unchecked.committed a w (Returned (GeminiService.toJS tr))
  = map Unchecked.ofMessage (committed (view, a, w)).
Proof.
  intros Hok. unfold committed. rewrite Hok.
  unfold Unchecked.committed. rewrite newMessage_toJS.
  destruct (Sender_eqb (Input.sender a) partner); destruct tr as [t rs [e|]]; reflexivity.
Qed.





End UncheckedFacts.
